(** * Library Management System: validation layer, store access and handlers

    A shallow embedding of [models.py] (the pydantic models of a book) and of
    the request handlers of [main.py], over a sequential model of the
    document collection [db.books].

    Strings are Rocq strings whose characters stand for the code points
    U+0000 to U+00FF; the string methods used by the source ([strip],
    [replace], [isdigit], [upper], [len]) are written out on that range.
    Dictionaries (documents, [$set] payloads) are finite maps from field
    names to values.  Handlers run in a state-and-exception monad over the
    collection. *)

From Stdlib Require Import ZArith List Ascii String Lia Bool Permutation Sorted.
From stdpp Require Import base option list gmap strings fin_maps.

Local Open Scope Z_scope.

(* ===================================================================== *)
(** * Python strings *)
(* ===================================================================== *)

Module PyStr.

Definition ord (c : ascii) : N := N_of_ascii c.

Definition between (lo hi : N) (c : ascii) : bool :=
  ((lo <=? ord c) && (ord c <=? hi))%N.

(** [c.isspace()] on U+0000..U+00FF: the characters [str.strip()] removes. *)
Definition isspace (c : ascii) : bool :=
  between 9 13 c || between 28 32 c || (ord c =? 133)%N || (ord c =? 160)%N.

(** [c.isdigit()] on U+0000..U+00FF: the decimal digits and the
    superscripts U+00B2, U+00B3 and U+00B9. *)
Definition isdigit_char (c : ascii) : bool :=
  between 48 57 c || (ord c =? 178)%N || (ord c =? 179)%N || (ord c =? 185)%N.

(** The ten characters [0] to [9]. *)
Definition is_decimal (c : ascii) : bool := between 48 57 c.

(** [s.isdigit()]: every character is a digit and there is at least one. *)
Definition isdigit (s : list ascii) : bool :=
  match s with
  | [] => false
  | _ => forallb isdigit_char s
  end.

(** [c.upper() == 'X']: of all characters only [x] and [X] upper-case
    to [X]. *)
Definition upper_is_X (c : ascii) : bool :=
  (ord c =? 88)%N || (ord c =? 120)%N.

(** [s.replace(c, '')] for a one-character [c]. *)
Definition remove_char (c : ascii) (s : list ascii) : list ascii :=
  List.filter (fun x => negb (ord x =? ord c)%N) s.

Fixpoint lstrip (s : list ascii) : list ascii :=
  match s with
  | [] => []
  | c :: s' => if isspace c then lstrip s' else s
  end.

Definition rstrip (s : list ascii) : list ascii := rev (lstrip (rev s)).

(** [s.strip()] *)
Definition strip_chars (s : list ascii) : list ascii := rstrip (lstrip s).

Definition strip (s : string) : string :=
  string_of_list_ascii (strip_chars (list_ascii_of_string s)).

(** [len(s)], counted in code points. *)
Definition len (s : string) : Z := Z.of_nat (String.length s).

(** Simple case folding on U+0000..U+00FF: [A]-[Z] and the letters
    U+00C0..U+00DE (but not the multiplication sign U+00D7) have a
    lower-case partner 32 places up. *)
Definition casefold_char (c : ascii) : ascii :=
  if between 65 90 c || (between 192 222 c && negb (ord c =? 215)%N)
  then ascii_of_N (ord c + 32) else c.


(** [s[:-1]] and [s[-1]] *)
Definition init (s : list ascii) : list ascii := removelast s.
Definition last_char (s : list ascii) : option ascii := List.last (map Some s) None.

End PyStr.

(* ===================================================================== *)
(** * The store's pattern language ([$regex])

    The store matches [$regex] patterns with a Perl-compatible engine.  The
    fragment modelled here: ordinary characters, [.], a backslash before an
    ASCII punctuation character, and one of the postfix quantifiers [*], [+]
    and [?] after an atom.  A pattern that uses anything else is outside
    the model ([Beyond]); a pattern the engine rejects is [Invalid]. *)
(* ===================================================================== *)

Module Regex.

Inductive regex :=
| Void
| Eps
| Chr (c : ascii)
| Dot
| Alt (r s : regex)
| Seq (r s : regex)
| Star (r : regex).

Inductive token :=
| TChr (c : ascii)
| TDot
| TStar
| TPlus
| TQuest
| TBrace
| TOther
| TBad.

Definition is_alnum (c : ascii) : bool :=
  PyStr.between 48 57 c || PyStr.between 65 90 c || PyStr.between 97 122 c.

(** Characters with a meaning of their own in a pattern. *)
Definition is_meta (c : ascii) : bool :=
  existsb (fun m => (PyStr.ord c =? PyStr.ord m)%N)
          (list_ascii_of_string "\.*+?()[]{}|^$").

Fixpoint tokens (p : list ascii) : list token :=
  match p with
  | [] => []
  | c :: p' =>
    if (PyStr.ord c =? 92)%N then          (* backslash *)
      match p' with
      | [] => [TBad]                      (* backslash at end of pattern *)
      | e :: p'' =>
        (if (PyStr.ord e <? 128)%N && negb (is_alnum e) && negb (PyStr.ord e =? 0)%N
         then TChr e else TOther) :: tokens p''
      end
    else if (PyStr.ord c =? 46)%N then TDot :: tokens p'
    else if (PyStr.ord c =? 42)%N then TStar :: tokens p'
    else if (PyStr.ord c =? 43)%N then TPlus :: tokens p'
    else if (PyStr.ord c =? 63)%N then TQuest :: tokens p'
    else if (PyStr.ord c =? 123)%N then TBrace :: tokens p'
    else if is_meta c || (PyStr.ord c =? 0)%N then TOther :: tokens p'
    else TChr c :: tokens p'
  end.

Inductive compiled :=
| Pattern (r : regex)
| Invalid
| Beyond.

Definition seq_compiled (r : regex) (k : compiled) : compiled :=
  match k with
  | Pattern s => Pattern (Seq r s)
  | Invalid => Invalid
  | Beyond => Beyond
  end.

Definition is_quantifier (t : token) : bool :=
  match t with
  | TStar | TPlus | TQuest | TBrace => true
  | _ => false
  end.

Definition atom_of (t : token) : option regex :=
  match t with
  | TChr c => Some (Chr c)
  | TDot => Some Dot
  | _ => None
  end.

Definition quantified (q : token) (a : regex) : option regex :=
  match q with
  | TStar => Some (Star a)
  | TPlus => Some (Seq a (Star a))
  | TQuest => Some (Alt a Eps)
  | _ => None
  end.

Fixpoint parse (ts : list token) : compiled :=
  match ts with
  | [] => Pattern Eps
  | t :: ts' =>
    match atom_of t with
    | Some a =>
      match ts' with
      | [] => Pattern (Seq a Eps)
      | q :: ts'' =>
        match quantified q a with
        | Some r =>
          match ts'' with
          | q' :: _ => if is_quantifier q' then Beyond else seq_compiled r (parse ts'')
          | [] => Pattern (Seq r Eps)
          end
        | None => seq_compiled a (parse ts')
        end
      end
    | None =>
      match t with
      | TStar | TPlus | TQuest => Invalid  (* nothing to repeat *)
      | TBad => Invalid
      | _ => Beyond
      end
    end
  end.

Definition compile (p : string) : compiled := parse (tokens (list_ascii_of_string p)).

Fixpoint nullable (r : regex) : bool :=
  match r with
  | Void => false
  | Eps => true
  | Chr _ => false
  | Dot => false
  | Alt r s => nullable r || nullable s
  | Seq r s => nullable r && nullable s
  | Star _ => true
  end.

(** Derivative by one character, letters compared up to case (option [i]);
    [.] matches every character but a line feed. *)
Fixpoint deriv (c : ascii) (r : regex) : regex :=
  match r with
  | Void => Void
  | Eps => Void
  | Chr c' =>
    if (PyStr.ord (PyStr.casefold_char c) =? PyStr.ord (PyStr.casefold_char c'))%N
    then Eps else Void
  | Dot => if (PyStr.ord c =? 10)%N then Void else Eps
  | Alt r s => Alt (deriv c r) (deriv c s)
  | Seq r s =>
    if nullable r then Alt (Seq (deriv c r) s) (deriv c s) else Seq (deriv c r) s
  | Star r => Seq (deriv c r) (Star r)
  end.

(** Some prefix of [s] matches [r]. *)
Fixpoint match_prefix (r : regex) (s : list ascii) : bool :=
  nullable r ||
  match s with
  | [] => false
  | c :: s' => match_prefix (deriv c r) s'
  end.

(** Unanchored search: some substring of [s] matches [r]. *)
Fixpoint search (r : regex) (s : list ascii) : bool :=
  match_prefix r s ||
  match s with
  | [] => false
  | _ :: s' => search r s'
  end.

End Regex.

(* ===================================================================== *)
(** * Values, documents and exceptions *)
(* ===================================================================== *)

(** An [ObjectId] is kept as the lower-case hexadecimal digits that [str]
    prints for it: 24 of them for an id that the driver generates. *)
Definition ObjectId := string.

(** The values a JSON body or a stored document holds in this program. *)
Inductive value :=
| VNull
| VStr (s : string)
| VInt (z : Z)
| VOid (o : ObjectId).

#[global] Instance value_eq_dec : EqDecision value.
Proof. solve_decision. Defined.

(** Why pydantic rejects one field. *)
Inductive reason :=
| FieldRequired
| NoneNotAllowed
| MinLength (limit : Z)
| MaxLength (limit : Z)
| NotGe (limit : Z)
| NotLe (limit : Z)
| ValueError (msg : string).

Inductive py_exn :=
| HTTPException (status_code : Z) (detail : detail)
| ValidationError (errors : list (string * reason))
| DuplicateKeyError
| OperationFailure
| InvalidId
| TypeError
| KeyError (key : string)
with detail :=
| Detail (msg : string)
| DetailOf (prefix : string) (e : py_exn).   (* f"{prefix}{str(e)}" *)

(** What a call does: return, raise, or leave the modelled fragment (a
    pattern outside [Regex], a value whose coercion is not modelled). *)
Inductive outcome (A : Type) :=
| Ok (a : A)
| Raise (e : py_exn)
| Unmodelled.
Arguments Ok {A} a.
Arguments Raise {A} e.
Arguments Unmodelled {A}.

(* ===================================================================== *)
(** * models.py *)
(* ===================================================================== *)

(** The verdict on one field. [Odd]: the value has a type that pydantic
    would coerce; coercions are not modelled. *)
Inductive check (A : Type) :=
| Pass (a : A)
| Fail (why : reason)
| Odd.
Arguments Pass {A} a.
Arguments Fail {A} why.
Arguments Odd {A}.

Definition check_bind {A B} (c : check A) (f : A -> check B) : check B :=
  match c with
  | Pass a => f a
  | Fail r => Fail r
  | Odd => Odd
  end.

Definition failures {A} (k : string) (c : check A) : list (string * reason) :=
  match c with
  | Fail r => [(k, r)]
  | _ => []
  end.

Definition is_odd {A} (c : check A) : bool :=
  match c with
  | Odd => true
  | _ => false
  end.

(** [Field(..., min_length=lo, max_length=hi)] on a [str]: the length of the
    value as received, checked before the class validators run. *)
Definition constr_length (lo hi : Z) (v : string) : check string :=
  if PyStr.len v <? lo then Fail (MinLength lo)
  else if hi <? PyStr.len v then Fail (MaxLength hi)
  else Pass v.

(** [Field(..., ge=lo, le=hi)] on an [int]. *)
Definition number_range (lo hi : Z) (v : Z) : check Z :=
  if v <? lo then Fail (NotGe lo)
  else if hi <? v then Fail (NotLe hi)
  else Pass v.

(** A required [str] field of the keyword arguments [d]. *)
Definition required_str (d : gmap string value) (k : string) : check string :=
  match d !! k with
  | None => Fail FieldRequired
  | Some VNull => Fail NoneNotAllowed
  | Some (VStr s) => Pass s
  | Some _ => Odd
  end.

Definition required_int (d : gmap string value) (k : string) : check Z :=
  match d !! k with
  | None => Fail FieldRequired
  | Some VNull => Fail NoneNotAllowed
  | Some (VInt z) => Pass z
  | Some _ => Odd
  end.

Module BookBase.

Record t := mk {
  title : string;
  author : string;
  ISBN : string;
  genre : string;
  publication_year : Z
}.

(** [@validator('ISBN')] *)
Definition validate_isbn (v : string) : check string :=
  let isbn := PyStr.remove_char " " (PyStr.remove_char "-" (list_ascii_of_string v)) in
  if negb ((length isbn =? 10)%nat || (length isbn =? 13)%nat) then
    Fail (ValueError "ISBN must be 10 or 13 characters long")
  else if (length isbn =? 10)%nat then
    if negb (PyStr.isdigit (PyStr.init isbn) &&
             match PyStr.last_char isbn with
             | Some c => PyStr.isdigit_char c || PyStr.upper_is_X c
             | None => false
             end)
    then Fail (ValueError "Invalid ISBN-10 format")
    else Pass v
  else
    if negb (PyStr.isdigit isbn) then Fail (ValueError "Invalid ISBN-13 format")
    else Pass v.

(** [@validator('title', 'author', 'genre')] *)
Definition validate_strings (v : string) : check string :=
  if String.eqb (PyStr.strip v) "" then
    Fail (ValueError "Field cannot be empty or just whitespace")
  else Pass (PyStr.strip v).

Definition check_title (v : string) : check string :=
  check_bind (constr_length 1 200 v) validate_strings.
Definition check_author (v : string) : check string :=
  check_bind (constr_length 1 100 v) validate_strings.
Definition check_ISBN (v : string) : check string :=
  check_bind (constr_length 10 17 v) validate_isbn.
Definition check_genre (v : string) : check string :=
  check_bind (constr_length 1 50 v) validate_strings.
Definition check_publication_year (v : Z) : check Z :=
  number_range 1000 2024 v.

(** The five fields of the model, read from keyword arguments. *)
Definition field_title (d : gmap string value) := check_bind (required_str d "title") check_title.
Definition field_author (d : gmap string value) := check_bind (required_str d "author") check_author.
Definition field_ISBN (d : gmap string value) := check_bind (required_str d "ISBN") check_ISBN.
Definition field_genre (d : gmap string value) := check_bind (required_str d "genre") check_genre.
Definition field_publication_year (d : gmap string value) :=
  check_bind (required_int d "publication_year") check_publication_year.

Definition any_odd (d : gmap string value) : bool :=
  is_odd (field_title d) || is_odd (field_author d) || is_odd (field_ISBN d) ||
  is_odd (field_genre d) || is_odd (field_publication_year d).

Definition errors (d : gmap string value) : list (string * reason) :=
  failures "title" (field_title d) ++ failures "author" (field_author d) ++
  failures "ISBN" (field_ISBN d) ++ failures "genre" (field_genre d) ++
  failures "publication_year" (field_publication_year d).

Definition fields (d : gmap string value) : option t :=
  match field_title d, field_author d, field_ISBN d, field_genre d,
        field_publication_year d with
  | Pass t', Pass a, Pass i, Pass g, Pass y => Some (mk t' a i g y)
  | _, _, _, _, _ => None
  end.

(** [.dict()] *)
Definition dict (b : t) : gmap string value :=
  <["title" := VStr (title b)]> (
  <["author" := VStr (author b)]> (
  <["ISBN" := VStr (ISBN b)]> (
  <["genre" := VStr (genre b)]> (
  <["publication_year" := VInt (publication_year b)]> ∅)))).

End BookBase.

(** [BookCreate] built from keyword arguments [d]: the model adds nothing
    to [BookBase]. *)
Definition BookCreate (d : gmap string value) : outcome BookBase.t :=
  match BookBase.fields d with
  | Some b => Ok b
  | None =>
    if BookBase.any_odd d then Unmodelled
    else Raise (ValidationError (BookBase.errors d))
  end.

Module BookResponse.

Record t := mk {
  base : BookBase.t;
  id : string
}.

Definition field_id (d : gmap string value) : check string := required_str d "id".

(** [BookResponse] built from keyword arguments [d]. *)
Definition new (d : gmap string value) : outcome t :=
  match BookBase.fields d, field_id d with
  | Some b, Pass i => Ok (mk b i)
  | _, _ =>
    if BookBase.any_odd d || is_odd (field_id d) then Unmodelled
    else Raise (ValidationError (BookBase.errors d ++ failures "id" (field_id d)))
  end.

End BookResponse.

Module BookUpdate.

(** A field of the model: not in the request ([None]), [null]
    ([Some None]) or a value. *)
Record t := mk {
  title : option (option string);
  author : option (option string);
  ISBN : option (option string);
  genre : option (option string);
  publication_year : option (option Z)
}.

(** [@validator('ISBN')] *)
Definition validate_isbn (v : option string) : check (option string) :=
  match v with
  | None => Pass v
  | Some s =>
    let isbn := PyStr.remove_char " " (PyStr.remove_char "-" (list_ascii_of_string s)) in
    if negb ((length isbn =? 10)%nat || (length isbn =? 13)%nat) then
      Fail (ValueError "ISBN must be 10 or 13 characters long")
    else if (length isbn =? 10)%nat then
      if negb (PyStr.isdigit (PyStr.init isbn) &&
               match PyStr.last_char isbn with
               | Some c => PyStr.isdigit_char c || PyStr.upper_is_X c
               | None => false
               end)
      then Fail (ValueError "Invalid ISBN-10 format")
      else Pass v
    else
      if negb (PyStr.isdigit isbn) then Fail (ValueError "Invalid ISBN-13 format")
      else Pass v
  end.

(** [@validator('title', 'author', 'genre')] *)
Definition validate_strings (v : option string) : check (option string) :=
  match v with
  | Some s =>
    if String.eqb (PyStr.strip s) "" then
      Fail (ValueError "Field cannot be empty or just whitespace")
    else Pass (Some (PyStr.strip s))
  | None => Pass None
  end.

(** An [Optional[str]] field with length bounds: [None] passes the bounds. *)
Definition optional_str (lo hi : Z) (validator : option string -> check (option string))
    (d : gmap string value) (k : string) : check (option (option string)) :=
  match d !! k with
  | None => Pass None
  | Some VNull => check_bind (validator None) (fun v => Pass (Some v))
  | Some (VStr s) =>
    check_bind (constr_length lo hi s) (fun s' =>
    check_bind (validator (Some s')) (fun v => Pass (Some v)))
  | Some _ => Odd
  end.

Definition optional_int (lo hi : Z) (d : gmap string value) (k : string)
    : check (option (option Z)) :=
  match d !! k with
  | None => Pass None
  | Some VNull => Pass (Some None)
  | Some (VInt z) => check_bind (number_range lo hi z) (fun z' => Pass (Some (Some z')))
  | Some _ => Odd
  end.

Definition field_title (d : gmap string value) := optional_str 1 200 validate_strings d "title".
Definition field_author (d : gmap string value) := optional_str 1 100 validate_strings d "author".
Definition field_ISBN (d : gmap string value) := optional_str 10 17 validate_isbn d "ISBN".
Definition field_genre (d : gmap string value) := optional_str 1 50 validate_strings d "genre".
Definition field_publication_year (d : gmap string value) :=
  optional_int 1000 2024 d "publication_year".

(** [BookUpdate] built from keyword arguments [d]. *)
Definition new (d : gmap string value) : outcome t :=
  match field_title d, field_author d, field_ISBN d, field_genre d,
        field_publication_year d with
  | Pass t', Pass a, Pass i, Pass g, Pass y => Ok (mk t' a i g y)
  | ft, fa, fi, fg, fy =>
    if is_odd ft || is_odd fa || is_odd fi || is_odd fg || is_odd fy then Unmodelled
    else Raise (ValidationError (failures "title" ft ++ failures "author" fa ++
                                 failures "ISBN" fi ++ failures "genre" fg ++
                                 failures "publication_year" fy))
  end.

Definition put {A} (k : string) (inj : A -> value) (f : option (option A))
    (m : gmap string value) : gmap string value :=
  match f with
  | None => m
  | Some None => <[k := VNull]> m
  | Some (Some v) => <[k := inj v]> m
  end.

(** [.dict(exclude_unset=True)] *)
Definition dict_exclude_unset (u : t) : gmap string value :=
  put "title" VStr (title u) (
  put "author" VStr (author u) (
  put "ISBN" VStr (ISBN u) (
  put "genre" VStr (genre u) (
  put "publication_year" VInt (publication_year u) ∅)))).

End BookUpdate.

(* ===================================================================== *)
(** * bson.ObjectId *)
(* ===================================================================== *)

Module ObjectIds.

Definition is_hex (c : ascii) : bool :=
  PyStr.between 48 57 c || PyStr.between 65 70 c || PyStr.between 97 102 c.

(** ASCII white space, which [bytes.fromhex] skips between bytes. *)
Definition is_ascii_space (c : ascii) : bool :=
  PyStr.between 9 13 c || (PyStr.ord c =? 32)%N.

Definition lower_hex (c : ascii) : ascii :=
  if PyStr.between 65 70 c then ascii_of_N (PyStr.ord c + 32) else c.

(** [bytes.fromhex(s)], the result written as lower-case hex digits. *)
Fixpoint fromhex (s : list ascii) : option (list ascii) :=
  match s with
  | [] => Some []
  | c :: s' =>
    if is_ascii_space c then fromhex s'
    else
      match s' with
      | d :: s'' =>
        if is_hex c && is_hex d
        then option_map (fun r => lower_hex c :: lower_hex d :: r) (fromhex s'')
        else None
      | [] => None
      end
  end.

(** [ObjectId(s)] for a string [s]: 24 characters that [bytes.fromhex]
    accepts. *)
Definition of_str (s : string) : option ObjectId :=
  if (String.length s =? 24)%nat
  then option_map string_of_list_ascii (fromhex (list_ascii_of_string s))
  else None.

(** [ObjectId.is_valid(s)] *)
Definition is_valid (s : string) : bool :=
  match of_str s with
  | Some _ => true
  | None => false
  end.

(** The ids the driver generates: 24 lower-case hex digits. *)
Definition canonical (o : ObjectId) : bool :=
  (String.length o =? 24)%nat &&
  forallb (fun c => PyStr.between 48 57 c || PyStr.between 97 102 c)
          (list_ascii_of_string o).

End ObjectIds.

(* ===================================================================== *)
(** * The collection [db.books] *)
(* ===================================================================== *)

(** A condition on one field of a query document. *)
Inductive cond :=
| CEq (v : value)                          (* {k: v} *)
| CNe (v : value)                          (* {k: {"$ne": v}} *)
| CRegex (pattern options : string).       (* {k: {"$regex": p, "$options": o}} *)

(** A query document: a conjunction of field conditions, or an [$or] of
    such documents. *)
Inductive query :=
| QDict (fields : list (string * cond))
| QOr (alternatives : list (list (string * cond))).

Inductive ccond :=
| KEq (v : value)
| KNe (v : value)
| KRegex (r : Regex.regex).

Inductive cquery :=
| KDict (fields : list (string * ccond))
| KOr (alternatives : list (list (string * ccond))).

Definition outcome_bind {A B} (o : outcome A) (f : A -> outcome B) : outcome B :=
  match o with
  | Ok a => f a
  | Raise e => Raise e
  | Unmodelled => Unmodelled
  end.

Fixpoint outcome_mapM {A B} (f : A -> outcome B) (l : list A) : outcome (list B) :=
  match l with
  | [] => Ok []
  | a :: l' =>
    outcome_bind (f a) (fun b =>
    outcome_bind (outcome_mapM f l') (fun bs => Ok (b :: bs)))
  end.

(** The store checks every pattern of a query before it looks at a document. *)
Definition compile_cond (c : cond) : outcome ccond :=
  match c with
  | CEq v => Ok (KEq v)
  | CNe v => Ok (KNe v)
  | CRegex p o =>
    if String.eqb o "i" then
      match Regex.compile p with
      | Regex.Pattern r => Ok (KRegex r)
      | Regex.Invalid => Raise OperationFailure
      | Regex.Beyond => Unmodelled
      end
    else Unmodelled
  end.

Definition compile_fields (fs : list (string * cond)) : outcome (list (string * ccond)) :=
  outcome_mapM (fun kc => outcome_bind (compile_cond (snd kc)) (fun c => Ok (fst kc, c))) fs.

Definition compile_query (q : query) : outcome cquery :=
  match q with
  | QDict fs => outcome_bind (compile_fields fs) (fun fs' => Ok (KDict fs'))
  | QOr alts => outcome_bind (outcome_mapM compile_fields alts) (fun alts' => Ok (KOr alts'))
  end.

(** Equality with a query value: [null] also matches a missing field. *)
Definition field_eq (f : option value) (v : value) : bool :=
  match v with
  | VNull => match f with None | Some VNull => true | Some _ => false end
  | _ => bool_decide (f = Some v)
  end.

Definition holds (c : ccond) (f : option value) : bool :=
  match c with
  | KEq v => field_eq f v
  | KNe v => negb (field_eq f v)
  | KRegex r =>
    match f with
    | Some (VStr s) => Regex.search r (list_ascii_of_string s)
    | _ => false
    end
  end.

Definition matches_fields (fs : list (string * ccond)) (d : gmap string value) : bool :=
  forallb (fun kc => holds (snd kc) (d !! fst kc)) fs.

Definition matches (q : cquery) (d : gmap string value) : bool :=
  match q with
  | KDict fs => matches_fields fs d
  | KOr alts => existsb (fun fs => matches_fields fs d) alts
  end.

Inductive store_op := OpFindOne | OpInsertOne | OpUpdateOne | OpFind | OpAggregate.

(** The collection in natural order, whether the unique index on [ISBN]
    exists, and the operations sent to the store so far. *)
Record World := mkWorld {
  books : list (gmap string value);
  unique_ISBN : bool;
  ops : list store_op
}.

Definition M (A : Type) : Type := World -> outcome A * World.

#[global] Instance M_ret : MRet M := fun A a w => (Ok a, w).

#[global] Instance M_bind : MBind M := fun A B f m w =>
  match m w with
  | (Ok a, w') => f a w'
  | (Raise e, w') => (Raise e, w')
  | (Unmodelled, w') => (Unmodelled, w')
  end.

Definition raise {A} (e : py_exn) : M A := fun w => (Raise e, w).
Definition lift {A} (o : outcome A) : M A := fun w => (o, w).

(** [try: body  except Exception as e: handler(e)] *)
Definition try_except {A} (body : M A) (handler : py_exn -> M A) : M A := fun w =>
  match body w with
  | (Raise e, w') => handler e w'
  | r => r
  end.

Definition sent (o : store_op) : M unit := fun w =>
  (Ok tt, mkWorld (books w) (unique_ISBN w) (ops w ++ [o])).

Definition get_books : M (list (gmap string value)) := fun w => (Ok (books w), w).

Definition put_books (l : list (gmap string value)) : M unit := fun w =>
  (Ok tt, mkWorld l (unique_ISBN w) (ops w)).

Definition has_unique_ISBN : M bool := fun w => (Ok (unique_ISBN w), w).

(** The key of a document in the index on [ISBN]: a missing field counts
    as [null]. *)
Definition index_key (d : gmap string value) : value := default VNull (d !! "ISBN").

Definition find_one (q : query) : M (option (gmap string value)) :=
  _ ← sent OpFindOne;
  cq ← lift (compile_query q);
  l ← get_books;
  mret (List.find (matches cq) l).

(** [insert_one(doc)] for a [doc] without [_id]: the driver adds the id
    [oid] it generates; the store refuses a duplicate [_id] and, under the
    unique index, a duplicate [ISBN]. *)
Definition insert_one (doc : gmap string value) (oid : ObjectId) : M ObjectId :=
  _ ← sent OpInsertOne;
  l ← get_books;
  u ← has_unique_ISBN;
  let doc' := <["_id" := VOid oid]> doc in
  if existsb (fun d => bool_decide (d !! "_id" = Some (VOid oid))) l then raise DuplicateKeyError
  else if u && existsb (fun d => bool_decide (index_key d = index_key doc')) l
  then raise DuplicateKeyError
  else
    _ ← put_books (l ++ [doc']);
    mret oid.

(** The first document that satisfies [p], with what is before and after it. *)
Fixpoint split_first (p : gmap string value -> bool) (l : list (gmap string value))
    : option (list (gmap string value) * gmap string value * list (gmap string value)) :=
  match l with
  | [] => None
  | d :: l' =>
    if p d then Some ([], d, l')
    else
      match split_first p l' with
      | Some (pre, x, post) => Some (d :: pre, x, post)
      | None => None
      end
  end.

Record UpdateResult := mkUpdateResult {
  matched_count : Z;
  modified_count : Z
}.

(** [update_one(q, {"$set": upd})].  An empty [$set] is refused by some
    versions of the store and is left out of the model. *)
Definition update_one (q : query) (upd : gmap string value) : M UpdateResult :=
  _ ← sent OpUpdateOne;
  cq ← lift (compile_query q);
  l ← get_books;
  u ← has_unique_ISBN;
  if bool_decide (upd = ∅) then lift Unmodelled
  else
    match split_first (matches cq) l with
    | None => mret (mkUpdateResult 0 0)
    | Some (pre, d, post) =>
      let d' := upd ∪ d in
      if bool_decide (d' = d) then mret (mkUpdateResult 1 0)
      else if u && negb (bool_decide (index_key d' = index_key d)) &&
              existsb (fun x => bool_decide (index_key x = index_key d')) (pre ++ post)
      then raise DuplicateKeyError
      else
        _ ← put_books (pre ++ d' :: post);
        mret (mkUpdateResult 1 1)
    end.

(** [find(q).skip(skip).limit(limit)] read with [to_list(length=limit)]. *)
Definition find (q : query) (skip limit : Z) : M (list (gmap string value)) :=
  _ ← sent OpFind;
  cq ← lift (compile_query q);
  l ← get_books;
  if (skip <? 0) || (limit <? 1) then lift Unmodelled
  else mret (take (Z.to_nat limit) (drop (Z.to_nat skip) (List.filter (matches cq) l))).

(** The two pipeline stages the program uses. *)
Inductive stage :=
| GroupCount (field : string)   (* {"$group": {"_id": "$field", "count": {"$sum": 1}}} *)
| SortCount (direction : Z).    (* {"$sort": {"count": direction}} *)

Fixpoint bump (k : value) (acc : list (value * Z)) : list (value * Z) :=
  match acc with
  | [] => [(k, 1)]
  | (k', n) :: acc' =>
    if bool_decide (k = k') then (k', n + 1) :: acc' else (k', n) :: bump k acc'
  end.

(** One group per value of [field], a missing field grouped with [null];
    groups come in the order of their first document. *)
Definition group_count (field : string) (l : list (gmap string value)) : list (value * Z) :=
  fold_left (fun acc d => bump (default VNull (d !! field)) acc) l [].

Fixpoint insert_desc (x : value * Z) (l : list (value * Z)) : list (value * Z) :=
  match l with
  | [] => [x]
  | y :: l' => if snd y <=? snd x then x :: l else y :: insert_desc x l'
  end.

(** Descending by count; groups with equal counts keep their order (the
    store promises no order among them). *)
Definition sort_desc (l : list (value * Z)) : list (value * Z) :=
  foldr insert_desc [] l.

Definition aggregate (pipeline : list stage) : M (list (value * Z)) :=
  _ ← sent OpAggregate;
  l ← get_books;
  match pipeline with
  | [GroupCount f; SortCount (-1)] => mret (sort_desc (group_count f l))
  | _ => lift Unmodelled
  end.

(* ===================================================================== *)
(** * main.py: the request handlers

    The handlers are modelled with [db] bound to a live collection, one
    request at a time.  Path, query and body parameters arrive already
    checked against their declared types and bounds. *)
(* ===================================================================== *)

(** [if book:] for the result of [find_one]. *)
Definition truthy (book : option (gmap string value)) : bool :=
  match book with
  | Some d => negb (bool_decide (d = ∅))
  | None => false
  end.

(** [book["id"] = str(book["_id"]); del book["_id"]] *)
Definition with_public_id (book : option (gmap string value)) : outcome (gmap string value) :=
  match book with
  | None => Raise TypeError
  | Some b =>
    match b !! "_id" with
    | None => Raise (KeyError "_id")
    | Some (VOid o) => Ok (delete "_id" (<["id" := VStr o]> b))
    | Some _ => Unmodelled
    end
  end.

(** [ObjectId(book_id)] *)
Definition ObjectId_new (book_id : string) : M ObjectId :=
  match ObjectIds.of_str book_id with
  | Some o => mret o
  | None => raise InvalidId
  end.

(** [if isinstance(e, HTTPException): raise e], else a 500 that quotes [e]. *)
Definition reraise_or_wrap {A} (prefix : string) (e : py_exn) : M A :=
  match e with
  | HTTPException _ _ => raise e
  | _ => raise (HTTPException 500 (DetailOf prefix e))
  end.

Definition wrap {A} (prefix : string) (e : py_exn) : M A :=
  raise (HTTPException 500 (DetailOf prefix e)).

(** [POST /books/].  [oid] is the id the driver generates for the insert. *)
Definition create_book (book : BookBase.t) (oid : ObjectId) : M BookResponse.t :=
  try_except (
    existing_book ← find_one (QDict [("ISBN", CEq (VStr (BookBase.ISBN book)))]);
    if truthy existing_book then
      raise (HTTPException 400 (Detail "Book with this ISBN already exists"))
    else
      let book_dict := BookBase.dict book in
      inserted_id ← insert_one book_dict oid;
      created_book ← find_one (QDict [("_id", CEq (VOid inserted_id))]);
      d ← lift (with_public_id created_book);
      lift (BookResponse.new d))
  (reraise_or_wrap "Error creating book: ").

(** [GET /books/{book_id}] *)
Definition get_book (book_id : string) : M BookResponse.t :=
  try_except (
    if negb (ObjectIds.is_valid book_id) then
      raise (HTTPException 400 (Detail "Invalid book ID format"))
    else
      oid ← ObjectId_new book_id;
      book ← find_one (QDict [("_id", CEq (VOid oid))]);
      if negb (truthy book) then raise (HTTPException 404 (Detail "Book not found"))
      else
        d ← lift (with_public_id book);
        lift (BookResponse.new d))
  (reraise_or_wrap "Error retrieving book: ").

(** [PUT /books/{book_id}] *)
Definition update_book (book_id : string) (book_update : BookUpdate.t) : M BookResponse.t :=
  try_except (
    if negb (ObjectIds.is_valid book_id) then
      raise (HTTPException 400 (Detail "Invalid book ID format"))
    else
      oid ← ObjectId_new book_id;
      existing_book ← find_one (QDict [("_id", CEq (VOid oid))]);
      if negb (truthy existing_book) then raise (HTTPException 404 (Detail "Book not found"))
      else
        let update_data := BookUpdate.dict_exclude_unset book_update in
        _ ← match update_data !! "ISBN" with
            | Some isbn =>
              isbn_conflict ← find_one (QDict [("ISBN", CEq isbn); ("_id", CNe (VOid oid))]);
              if truthy isbn_conflict then
                raise (HTTPException 400 (Detail "Another book with this ISBN already exists"))
              else mret tt
            | None => mret tt
            end;
        if bool_decide (update_data = ∅) then
          raise (HTTPException 400 (Detail "No fields to update"))
        else
          result ← update_one (QDict [("_id", CEq (VOid oid))]) update_data;
          if modified_count result =? 0 then
            raise (HTTPException 400 (Detail "No changes made to the book"))
          else
            updated_book ← find_one (QDict [("_id", CEq (VOid oid))]);
            d ← lift (with_public_id updated_book);
            lift (BookResponse.new d))
  (reraise_or_wrap "Error updating book: ").

(** The loop that renames [_id], then the list of responses. *)
Definition responses (found : list (gmap string value)) : outcome (list BookResponse.t) :=
  outcome_bind (outcome_mapM (fun b => with_public_id (Some b)) found)
               (outcome_mapM BookResponse.new).

(** [GET /books/search/] *)
Definition search_books (query : string) (skip limit : Z) : M (list BookResponse.t) :=
  try_except (
    let search_filter :=
      QOr [[("title", CRegex query "i")]; [("author", CRegex query "i")]] in
    found ← find search_filter skip limit;
    lift (responses found))
  (wrap "Error searching books: ").

(** [GET /books/filter/] *)
Definition filter_books (genre : option string) (publication_year : option Z)
    (skip limit : Z) : M (list BookResponse.t) :=
  try_except (
    let filter_dict : list (string * cond) := [] in
    let filter_dict :=
      match genre with                           (* if genre: *)
      | Some g =>
        if negb (String.eqb g "") then filter_dict ++ [("genre"%string, CRegex g "i")]
        else filter_dict
      | None => filter_dict
      end in
    let filter_dict :=
      match publication_year with                (* if publication_year: *)
      | Some y =>
        if negb (y =? 0) then filter_dict ++ [("publication_year"%string, CEq (VInt y))]
        else filter_dict
      | None => filter_dict
      end in
    match filter_dict with
    | [] => raise (HTTPException 400 (Detail "At least one filter parameter is required"))
    | _ =>
      found ← find (QDict filter_dict) skip limit;
      lift (responses found)
    end)
  (reraise_or_wrap "Error filtering books: ").

(** [genre = item["_id"] if item["_id"] else "Unknown"] *)
Definition genre_name (k : value) : outcome string :=
  match k with
  | VNull => Ok "Unknown"
  | VStr s => Ok (if String.eqb s "" then "Unknown" else s)
  | _ => Unmodelled
  end.

(** [result[k] = v] on a dictionary kept in insertion order: a key that is
    already there keeps its place and takes the new value. *)
Fixpoint dict_set (k : string) (v : Z) (d : list (string * Z)) : list (string * Z) :=
  match d with
  | [] => [(k, v)]
  | (k', v') :: d' =>
    if String.eqb k k' then (k, v) :: d' else (k', v') :: dict_set k v d'
  end.

Definition format_counts (genre_counts : list (value * Z)) : outcome (list (string * Z)) :=
  fold_left (fun acc item =>
      outcome_bind acc (fun result =>
      outcome_bind (genre_name (fst item)) (fun genre =>
      Ok (dict_set genre (snd item) result))))
    genre_counts (Ok []).

(** [GET /books/count/by-genre]: the dictionary under ["books_per_genre"]. *)
Definition count_books_by_genre : M (list (string * Z)) :=
  try_except (
    genre_counts ← aggregate [GroupCount "genre"; SortCount (-1)];
    lift (format_counts genre_counts))
  (wrap "Error counting books by genre: ").

(* ===================================================================== *)
(** * What the claims are measured against *)
(* ===================================================================== *)

(** The form of [v] that the ISBN rule looks at: hyphens and spaces removed. *)
Definition isbn_normalized (v : string) : list ascii :=
  PyStr.remove_char " " (PyStr.remove_char "-" (list_ascii_of_string v)).

(** The ISBN rule in the words of the specification, with the digits
    [0] to [9]: ten characters, nine digits and then a digit or [X]/[x];
    or thirteen digits. *)
Definition isbn_shape (s : list ascii) : Prop :=
  (length s = 10%nat /\
   Forall (fun c => PyStr.is_decimal c = true) (take 9 s) /\
   exists c, s !! 9%nat = Some c /\
             (PyStr.is_decimal c = true \/ c = "X"%char \/ c = "x"%char))
  \/
  (length s = 13%nat /\ Forall (fun c => PyStr.is_decimal c = true) s).

(** No character of [v] is a digit for [str.isdigit] without being one of
    [0] to [9]. *)
Definition plain_digits (v : string) : Prop :=
  forallb (fun c => implb (PyStr.isdigit_char c) (PyStr.is_decimal c))
          (list_ascii_of_string v) = true.

(** The test that both ISBN validators make on the normalized form. *)
Definition isbn_accepts (isbn : list ascii) : bool :=
  ((length isbn =? 10)%nat || (length isbn =? 13)%nat) &&
  (if (length isbn =? 10)%nat
   then PyStr.isdigit (PyStr.init isbn) &&
        match PyStr.last_char isbn with
        | Some c => PyStr.isdigit_char c || PyStr.upper_is_X c
        | None => false
        end
   else PyStr.isdigit isbn).

(** A list that is empty or starts with a character that is not white space. *)
Definition left_clean (l : list ascii) : Prop :=
  match l with
  | [] => True
  | c :: _ => PyStr.isspace c = false
  end.


Fixpoint prefix_ci (q s : list ascii) : bool :=
  match q, s with
  | [], _ => true
  | _ :: _, [] => false
  | c :: q', x :: s' =>
    (PyStr.ord (PyStr.casefold_char x) =? PyStr.ord (PyStr.casefold_char c))%N && prefix_ci q' s'
  end.

(** A decision procedure for [occurs_ci]. *)
Fixpoint contains_ci (q s : list ascii) : bool :=
  prefix_ci q s ||
  match s with
  | [] => false
  | _ :: s' => contains_ci q s'
  end.

(** Field [k] of [d] is a string in which [query] occurs, case ignored. *)
Definition field_contains_ci (query : string) (d : gmap string value) (k : string) : bool :=
  match d !! k with
  | Some (VStr s) => contains_ci (list_ascii_of_string query) (list_ascii_of_string s)
  | _ => false
  end.



(** The public form of a stored document. *)
Definition response_of (d : gmap string value) : outcome BookResponse.t :=
  outcome_bind (with_public_id (Some d)) BookResponse.new.

(** The requested page of a result list. *)
Definition page (skip limit : Z) (l : list (gmap string value)) : list (gmap string value) :=
  take (Z.to_nat limit) (drop (Z.to_nat skip) l).

(** The world after one more operation was sent to the store. *)
Definition logged (w : World) (o : list store_op) : World :=
  mkWorld (books w) (unique_ISBN w) (ops w ++ o).

(** The document has the id [oid]. *)
Definition has_id (oid : ObjectId) (d : gmap string value) : bool :=
  bool_decide (d !! "_id" = Some (VOid oid)).

(** The five fields of a book. *)
Definition book_keys : list string :=
  ["title"; "author"; "ISBN"; "genre"; "publication_year"]%string.

(** The document that [create_book] stores for [b] under the id [oid]. *)
Definition stored (b : BookBase.t) (oid : ObjectId) : gmap string value :=
  <["_id" := VOid oid]> (BookBase.dict b).

(** The query of [update_book] for another book with the same ISBN. *)
Definition conflicts (isbn : value) (oid : ObjectId) (d : gmap string value) : bool :=
  field_eq (d !! "ISBN") isbn && negb (field_eq (d !! "_id") (VOid oid)).

(** What a handler with the usual [except] clause makes of the outcome of
    its body. *)
Definition handled {A} (prefix : string) (o : outcome A) : outcome A :=
  match o with
  | Raise (HTTPException s m) => Raise (HTTPException s m)
  | Raise e => Raise (HTTPException 500 (DetailOf prefix e))
  | r => r
  end.

(** A collection of one book, and a second book whose ISBN is the same
    number written without hyphens. *)
Definition dune : BookBase.t :=
  BookBase.mk "Dune" "Frank Herbert" "0-306-40615-2" "Sci-Fi" 1965.

Definition dune_id : ObjectId := "507f1f77bcf86cd799439011"%string.

Definition library : World := mkWorld [stored dune dune_id] true [].

Definition messiah_request : gmap string value :=
  <["title" := VStr "  Dune Messiah "]> (
  <["author" := VStr "Frank Herbert"]> (
  <["ISBN" := VStr "0306406152"]> (
  <["genre" := VStr " Sci-Fi"]> (
  <["publication_year" := VInt 1969]> ∅)))).

Definition messiah : BookBase.t :=
  BookBase.mk "Dune Messiah" "Frank Herbert" "0306406152" "Sci-Fi" 1969.

Definition messiah_id : ObjectId := "507f1f77bcf86cd799439012"%string.

(** The payload of an update that sets nothing. *)
Definition empty_update : BookUpdate.t := BookUpdate.mk None None None None None.

(** The book that results from laying a payload over a stored book. *)
Definition merged (p : BookUpdate.t) (b : BookBase.t) : BookBase.t :=
  BookBase.mk
    (match BookUpdate.title p with Some (Some v) => v | _ => BookBase.title b end)
    (match BookUpdate.author p with Some (Some v) => v | _ => BookBase.author b end)
    (match BookUpdate.ISBN p with Some (Some v) => v | _ => BookBase.ISBN b end)
    (match BookUpdate.genre p with Some (Some v) => v | _ => BookBase.genre b end)
    (match BookUpdate.publication_year p with
     | Some (Some v) => v
     | _ => BookBase.publication_year b
     end).

(** Every field of the payload is absent or holds a value that the checks
    for a new book accept as it is. *)
Definition settled {A} (accepts : A -> Prop) (f : option (option A)) : Prop :=
  match f with
  | None => True
  | Some None => False
  | Some (Some v) => accepts v
  end.

Definition payload_settled (p : BookUpdate.t) : Prop :=
  settled (fun v => BookBase.check_title v = Pass v) (BookUpdate.title p) /\
  settled (fun v => BookBase.check_author v = Pass v) (BookUpdate.author p) /\
  settled (fun v => BookBase.check_ISBN v = Pass v) (BookUpdate.ISBN p) /\
  settled (fun v => BookBase.check_genre v = Pass v) (BookUpdate.genre p) /\
  settled (fun v => BookBase.check_publication_year v = Pass v) (BookUpdate.publication_year p).

(** An update that sets the title only, as requested and as validated. *)
Definition retitle_request : gmap string value := {[ "title"%string := VStr " Dune, revised " ]}.

Definition retitle : BookUpdate.t :=
  BookUpdate.mk (Some (Some "Dune, revised"%string)) None None None None.

(** An update that sets the title to what it is already. *)
Definition same_title : BookUpdate.t :=
  BookUpdate.mk (Some (Some "Dune"%string)) None None None None.

(** An update that sets the genre to [null]. *)
Definition null_genre : BookUpdate.t := BookUpdate.mk None None None (Some None) None.

(** The stored document of the [n]-th book of a shelf, with the given
    value in its genre field. *)
Definition shelf_doc (n : ascii) (genre : value) : gmap string value :=
  <["genre" := genre]> (
    stored (BookBase.mk "A title" "An author" (String.append "030640615" (String n "")) "-" 2000)
           (String.append "507f1f77bcf86cd79943901" (String n ""))).

(** Three books of genre "Unknown" and one whose genre is [null]. *)
Definition unknown_shelf : World :=
  mkWorld [shelf_doc "1" (VStr "Unknown"); shelf_doc "2" (VStr "Unknown");
           shelf_doc "3" (VStr "Unknown"); shelf_doc "4" VNull] true [].

(** The shelf of the specification's example: Fiction three times, Sci-Fi
    once, and one book without a genre. *)
Definition example_shelf : World :=
  mkWorld [shelf_doc "1" (VStr "Fiction"); shelf_doc "2" (VStr "Sci-Fi");
           shelf_doc "3" (VStr "Fiction"); delete "genre" (shelf_doc "4" VNull);
           shelf_doc "5" (VStr "Fiction")] true [].

(** Descending by count. *)
Definition descending (l : list (value * Z)) : Prop :=
  Sorted (fun x y => snd y <= snd x) l.

(** The group a document falls in, and the name the handler gives a group. *)
Definition genre_key (d : gmap string value) : value := default VNull (d !! "genre").

Definition key_name (k : value) : string :=
  match k with
  | VStr s => if String.eqb s "" then "Unknown" else s
  | _ => "Unknown"
  end.

(** A genre that cannot be taken for the sentinel: no genre at all, or a
    text other than the empty one and "Unknown". *)
Definition plain_genre (k : value) : Prop :=
  k = VNull \/ exists s, k = VStr s /\ s <> ""%string /\ s <> "Unknown"%string.

(** The number of books under the name [g]. *)
Definition books_with (g : string) (l : list (gmap string value)) : Z :=
  Z.of_nat (length (List.filter (fun d => String.eqb (key_name (genre_key d)) g) l)).

(** The count that a list of groups holds for a key (0 when it has none). *)
Fixpoint count_in (k : value) (acc : list (value * Z)) : Z :=
  match acc with
  | [] => 0
  | (k', n) :: acc' => if bool_decide (k' = k) then n else count_in k acc'
  end.

(** The number of documents in group [k]. *)
Definition occurrences (k : value) (l : list (gmap string value)) : Z :=
  Z.of_nat (length (List.filter (fun d => bool_decide (genre_key d = k)) l)).

(** A group under the name the handler gives it. *)
Definition named (item : value * Z) : string * Z := (key_name (fst item), snd item).

(* ===================================================================== *)
(** * main.py: the handlers that delete, list and count

    The two store operations below are not recorded in [ops]; the
    statements about these handlers speak of the collection only. *)
(* ===================================================================== *)

Record DeleteResult := mkDeleteResult {
  deleted_count : Z
}.

(** [delete_one(q)]: the first document that matches leaves the collection. *)
Definition delete_one (q : query) : M DeleteResult :=
  cq ← lift (compile_query q);
  l ← get_books;
  match split_first (matches cq) l with
  | None => mret (mkDeleteResult 0)
  | Some (pre, _, post) =>
    _ ← put_books (pre ++ post);
    mret (mkDeleteResult 1)
  end.

(** [count_documents(q)] *)
Definition count_documents (q : query) : M Z :=
  cq ← lift (compile_query q);
  l ← get_books;
  mret (Z.of_nat (length (List.filter (matches cq) l))).

(** [DELETE /books/{book_id}]: the text under ["message"]. *)
Definition delete_book (book_id : string) : M string :=
  try_except (
    if negb (ObjectIds.is_valid book_id) then
      raise (HTTPException 400 (Detail "Invalid book ID format"))
    else
      oid ← ObjectId_new book_id;
      result ← delete_one (QDict [("_id", CEq (VOid oid))]);
      if deleted_count result =? 0 then
        raise (HTTPException 404 (Detail "Book not found"))
      else mret "Book deleted successfully"%string)
  (reraise_or_wrap "Error deleting book: ").

(** [GET /books/] *)
Definition get_all_books (skip limit : Z) : M (list BookResponse.t) :=
  try_except (
    found ← find (QDict []) skip limit;
    lift (responses found))
  (wrap "Error retrieving books: ").

(** [GET /books/count/total]: the number under ["total_books"]. *)
Definition count_total_books : M Z :=
  try_except (
    total_count ← count_documents (QDict []);
    mret total_count)
  (wrap "Error counting books: ").

(* ===================================================================== *)
(** * What the further properties are stated with *)
(* ===================================================================== *)

(** Every character of [s] is white space. *)
Definition all_space (s : string) : bool :=
  forallb PyStr.isspace (list_ascii_of_string s).

(** [s] neither starts nor ends with white space. *)
Definition trimmed (s : string) : Prop :=
  left_clean (list_ascii_of_string s) /\ left_clean (rev (list_ascii_of_string s)).

(** An id with its hexadecimal letters in lower case. *)
Definition lower_id (s : string) : string :=
  string_of_list_ascii (map ObjectIds.lower_hex (list_ascii_of_string s)).

(** Every document has an id, no two have the same id, and no two have the
    same ISBN (a missing ISBN counting as [null]). *)
Definition distinct_books (l : list (gmap string value)) : Prop :=
  Forall (fun d => is_Some (d !! "_id")) l /\
  NoDup (map (fun d => d !! "_id") l) /\
  NoDup (map index_key l).

(** The entity rules of a book. *)
Definition book_rules (b : BookBase.t) : Prop :=
  (1 <= PyStr.len (BookBase.title b) <= 200 /\ trimmed (BookBase.title b)) /\
  (1 <= PyStr.len (BookBase.author b) <= 100 /\ trimmed (BookBase.author b)) /\
  (10 <= PyStr.len (BookBase.ISBN b) <= 17 /\
   isbn_accepts (isbn_normalized (BookBase.ISBN b)) = true) /\
  (1 <= PyStr.len (BookBase.genre b) <= 50 /\ trimmed (BookBase.genre b)) /\
  1000 <= BookBase.publication_year b <= 2024.

(** The payload names at least one field with [null] as its value. *)
Definition names_null (p : BookUpdate.t) : Prop :=
  BookUpdate.title p = Some None \/ BookUpdate.author p = Some None \/
  BookUpdate.ISBN p = Some None \/ BookUpdate.genre p = Some None \/
  BookUpdate.publication_year p = Some None.

(** The sum of the counts of a result of [count_books_by_genre]. *)
Definition total (result : list (string * Z)) : Z :=
  foldr (fun item s => snd item + s) 0 result.


(* ===================================================================== *)
(** * Lemmas on strings *)
(* ===================================================================== *)

Lemma length_of_list_ascii (l : list ascii) :
  String.length (string_of_list_ascii l) = length l.
Proof. induction l as [|c l IH]; simpl; [reflexivity | now rewrite IH]. Qed.

Lemma length_to_list_ascii (s : string) :
  length (list_ascii_of_string s) = String.length s.
Proof. induction s as [|c s IH]; simpl; [reflexivity | now rewrite IH]. Qed.

Lemma lstrip_length (l : list ascii) : (length (PyStr.lstrip l) <= length l)%nat.
Proof.
  induction l as [|c l IH]; simpl; [lia|].
  destruct (PyStr.isspace c); simpl; lia.
Qed.

Lemma rstrip_length (l : list ascii) : (length (PyStr.rstrip l) <= length l)%nat.
Proof.
  unfold PyStr.rstrip. rewrite length_rev.
  pose proof (lstrip_length (rev l)) as H. rewrite length_rev in H. exact H.
Qed.

Lemma strip_chars_length (l : list ascii) : (length (PyStr.strip_chars l) <= length l)%nat.
Proof.
  unfold PyStr.strip_chars.
  pose proof (rstrip_length (PyStr.lstrip l)). pose proof (lstrip_length l). lia.
Qed.

Lemma strip_len (v : string) : PyStr.len (PyStr.strip v) <= PyStr.len v.
Proof.
  unfold PyStr.len, PyStr.strip. rewrite length_of_list_ascii.
  pose proof (strip_chars_length (list_ascii_of_string v)) as H.
  rewrite length_to_list_ascii in H. lia.
Qed.

Lemma len_pos (v : string) : v <> EmptyString -> 1 <= PyStr.len v.
Proof. destruct v; [congruence|]. unfold PyStr.len. simpl. lia. Qed.

Lemma lstrip_clean (l : list ascii) : left_clean (PyStr.lstrip l).
Proof.
  induction l as [|c l IH]; simpl; [exact I|].
  destruct (PyStr.isspace c) eqn:E; [exact IH | exact E].
Qed.

Lemma lstrip_fix (l : list ascii) : left_clean l -> PyStr.lstrip l = l.
Proof. destruct l as [|c l]; simpl; [reflexivity|]. now intros ->. Qed.

Lemma lstrip_snoc (l : list ascii) (c : ascii) :
  PyStr.isspace c = false -> PyStr.lstrip (l ++ [c]) = PyStr.lstrip l ++ [c].
Proof.
  intros Hc. induction l as [|x l IH]; simpl.
  - now rewrite Hc.
  - destruct (PyStr.isspace x); [exact IH | reflexivity].
Qed.

Lemma rstrip_clean (l : list ascii) : left_clean l -> left_clean (PyStr.rstrip l).
Proof.
  destruct l as [|c l]; [intros _; exact I|]. simpl. intros Hc.
  unfold PyStr.rstrip. simpl. rewrite (lstrip_snoc _ _ Hc).
  rewrite rev_app_distr. simpl. exact Hc.
Qed.

Lemma rstrip_idem (l : list ascii) : PyStr.rstrip (PyStr.rstrip l) = PyStr.rstrip l.
Proof.
  unfold PyStr.rstrip. rewrite rev_involutive.
  now rewrite (lstrip_fix _ (lstrip_clean _)).
Qed.

Lemma strip_chars_idem (l : list ascii) :
  PyStr.strip_chars (PyStr.strip_chars l) = PyStr.strip_chars l.
Proof.
  unfold PyStr.strip_chars.
  rewrite (lstrip_fix (PyStr.rstrip (PyStr.lstrip l))).
  - apply rstrip_idem.
  - apply rstrip_clean, lstrip_clean.
Qed.

Lemma strip_idem (v : string) : PyStr.strip (PyStr.strip v) = PyStr.strip v.
Proof.
  unfold PyStr.strip. rewrite list_ascii_of_string_of_list_ascii.
  now rewrite strip_chars_idem.
Qed.

Lemma eqb_empty (v : string) : String.eqb v "" = false <-> v <> EmptyString.
Proof. rewrite String.eqb_neq. reflexivity. Qed.

(* ===================================================================== *)
(** * The validation layer *)
(* ===================================================================== *)

Lemma constr_length_pass (lo hi : Z) (v v' : string) :
  constr_length lo hi v = Pass v' <-> lo <= PyStr.len v <= hi /\ v' = v.
Proof.
  unfold constr_length.
  destruct (Z.ltb_spec (PyStr.len v) lo); [split; [discriminate | lia]|].
  destruct (Z.ltb_spec hi (PyStr.len v)); [split; [discriminate | lia]|].
  split; [intros [= <-]; split; [lia | reflexivity] | intros [_ ->]; reflexivity].
Qed.

Lemma validate_strings_pass (v v' : string) :
  BookBase.validate_strings v = Pass v' <->
  PyStr.strip v <> EmptyString /\ v' = PyStr.strip v.
Proof.
  unfold BookBase.validate_strings.
  destruct (String.eqb_spec (PyStr.strip v) "") as [E|E].
  - split; [discriminate | intros [H _]; contradiction].
  - split; [intros [= <-]; auto | intros [_ ->]; reflexivity].
Qed.

(** A string field with bounds [1..hi]: accepted exactly when the value as
    received has between 1 and [hi] characters and is not all white space. *)
Lemma bounded_string_pass (hi : Z) (v v' : string) :
  check_bind (constr_length 1 hi v) BookBase.validate_strings = Pass v' <->
  1 <= PyStr.len v <= hi /\ PyStr.strip v <> EmptyString /\ v' = PyStr.strip v.
Proof.
  destruct (constr_length 1 hi v) as [s|r|] eqn:E; simpl.
  - apply constr_length_pass in E as [Hlen ->].
    rewrite validate_strings_pass. tauto.
  - split; [discriminate|]. intros [Hlen _].
    assert (constr_length 1 hi v = Pass v) as E' by (apply constr_length_pass; auto).
    congruence.
  - split; [discriminate|]. intros [Hlen _].
    assert (constr_length 1 hi v = Pass v) as E' by (apply constr_length_pass; auto).
    congruence.
Qed.

(** A stored string is accepted again, unchanged, when it is read back. *)
Lemma bounded_string_stable (hi : Z) (v v' : string) :
  check_bind (constr_length 1 hi v) BookBase.validate_strings = Pass v' ->
  check_bind (constr_length 1 hi v') BookBase.validate_strings = Pass v'.
Proof.
  rewrite !bounded_string_pass. intros (Hlen & Hne & ->).
  rewrite strip_idem. repeat split; auto.
  - now apply len_pos.
  - pose proof (strip_len v). lia.
Qed.

(** C3 as stated fails: a title of one letter followed by 200 spaces has a
    trimmed length of 1, inside 1..200, and is rejected for its raw length. *)
Lemma title_trimmed_in_range_rejected :
  let v := String "a" (string_of_list_ascii (repeat " "%char 200)) in
  1 <= PyStr.len (PyStr.strip v) <= 200 /\
  BookBase.check_title v = Fail (MaxLength 200).
Proof. vm_compute. repeat split; discriminate. Qed.

(** C3 (amended): title, author and genre are accepted exactly when the
    value as received has a length within the field's range (1..200,
    1..100, 1..50) and is not empty after trimming; the value kept is the
    trimmed one, and its length is within the range too. *)
Theorem string_fields_accepted (v v' : string) :
  (BookBase.check_title v = Pass v' <->
     1 <= PyStr.len v <= 200 /\ PyStr.strip v <> EmptyString /\ v' = PyStr.strip v) /\
  (BookBase.check_author v = Pass v' <->
     1 <= PyStr.len v <= 100 /\ PyStr.strip v <> EmptyString /\ v' = PyStr.strip v) /\
  (BookBase.check_genre v = Pass v' <->
     1 <= PyStr.len v <= 50 /\ PyStr.strip v <> EmptyString /\ v' = PyStr.strip v) /\
  (1 <= PyStr.len v -> PyStr.strip v <> EmptyString ->
     1 <= PyStr.len (PyStr.strip v) <= PyStr.len v).
Proof.
  unfold BookBase.check_title, BookBase.check_author, BookBase.check_genre.
  split_and!; try apply bounded_string_pass.
  intros _ Hne. split; [now apply len_pos | apply strip_len].
Qed.

(** ** ISBN *)

Lemma validate_isbn_pass (v v' : string) :
  BookBase.validate_isbn v = Pass v' <->
  isbn_accepts (isbn_normalized v) = true /\ v' = v.
Proof.
  unfold BookBase.validate_isbn, isbn_accepts. fold (isbn_normalized v).
  destruct ((length (isbn_normalized v) =? 10)%nat || (length (isbn_normalized v) =? 13)%nat);
    simpl; [|split; [discriminate | intros [? _]; discriminate]].
  destruct (length (isbn_normalized v) =? 10)%nat.
  - destruct (PyStr.isdigit (PyStr.init (isbn_normalized v)) && _); simpl.
    + split; [intros [= <-]; auto | intros [_ ->]; reflexivity].
    + split; [discriminate | intros [? _]; discriminate].
  - destruct (PyStr.isdigit (isbn_normalized v)); simpl.
    + split; [intros [= <-]; auto | intros [_ ->]; reflexivity].
    + split; [discriminate | intros [? _]; discriminate].
Qed.

(** The validator of [BookUpdate] is the one of [BookBase]. *)
Lemma update_validate_isbn_same (v : string) (r : option string) :
  BookUpdate.validate_isbn (Some v) = Pass r <-> exists v', r = Some v' /\ BookBase.validate_isbn v = Pass v'.
Proof.
  unfold BookUpdate.validate_isbn, BookBase.validate_isbn.
  repeat case_match; split; try discriminate; try (intros (? & ? & ?); discriminate).
  all: try (intros [= <-]; eexists; split; reflexivity).
  all: intros (v' & -> & [= ->]); reflexivity.
Qed.

Lemma upper_is_X_spec (c : ascii) :
  PyStr.upper_is_X c = true <-> c = "X"%char \/ c = "x"%char.
Proof.
  unfold PyStr.upper_is_X, PyStr.ord. rewrite orb_true_iff, !N.eqb_eq. split.
  - intros [H|H]; [left | right]; rewrite <- (ascii_N_embedding c), H; reflexivity.
  - intros [->| ->]; [left | right]; reflexivity.
Qed.

Lemma decimal_isdigit (c : ascii) : PyStr.is_decimal c = true -> PyStr.isdigit_char c = true.
Proof. unfold PyStr.isdigit_char, PyStr.is_decimal. now intros ->. Qed.

Lemma plain_forallb (s : list ascii) :
  forallb (fun c => implb (PyStr.isdigit_char c) (PyStr.is_decimal c)) s = true ->
  (forallb PyStr.isdigit_char s = true <-> Forall (fun c => PyStr.is_decimal c = true) s).
Proof.
  induction s as [|c s IH]; simpl.
  - intros _. split; [constructor | reflexivity].
  - rewrite andb_true_iff. intros [Hc Hs]. specialize (IH Hs).
    rewrite andb_true_iff, Forall_cons, IH. split.
    + intros [Hd ?]. split; [|assumption]. now rewrite Hd in Hc.
    + intros [Hd ?]. split; [now apply decimal_isdigit | assumption].
Qed.

Lemma plain_remove (c : ascii) (s : list ascii) :
  forallb (fun c => implb (PyStr.isdigit_char c) (PyStr.is_decimal c)) s = true ->
  forallb (fun c => implb (PyStr.isdigit_char c) (PyStr.is_decimal c)) (PyStr.remove_char c s) = true.
Proof.
  unfold PyStr.remove_char. induction s as [|x s IH]; simpl; [reflexivity|].
  rewrite andb_true_iff. intros [Hx Hs].
  destruct (negb _); simpl; [rewrite Hx|]; auto.
Qed.

Lemma isdigit_nonempty (s : list ascii) :
  s <> [] -> PyStr.isdigit s = forallb PyStr.isdigit_char s.
Proof. destruct s; [congruence | reflexivity]. Qed.

(** On a normalized form without exotic digits the validators' test is the
    rule of the specification. *)
Lemma isbn_accepts_shape (s : list ascii) :
  forallb (fun c => implb (PyStr.isdigit_char c) (PyStr.is_decimal c)) s = true ->
  (isbn_accepts s = true <-> isbn_shape s).
Proof.
  intros Hp. unfold isbn_accepts, isbn_shape.
  destruct (Nat.eqb_spec (length s) 10) as [H10|H10].
  - simpl.
    do 10 (destruct s as [|? s]; [discriminate H10|]).
    destruct s; [clear H10 | discriminate H10].
    assert (forallb (fun c => implb (PyStr.isdigit_char c) (PyStr.is_decimal c))
                    [a; a0; a1; a2; a3; a4; a5; a6; a7] = true) as Hp9.
    { simpl in Hp |- *. repeat (apply andb_true_iff in Hp as [? Hp]).
      repeat (apply andb_true_iff; split); auto. }
    assert (implb (PyStr.isdigit_char a8) (PyStr.is_decimal a8) = true) as Hp10.
    { simpl in Hp. repeat (apply andb_true_iff in Hp as [? Hp]). assumption. }
    change (PyStr.init [a; a0; a1; a2; a3; a4; a5; a6; a7; a8])
      with [a; a0; a1; a2; a3; a4; a5; a6; a7].
    change (PyStr.last_char [a; a0; a1; a2; a3; a4; a5; a6; a7; a8]) with (Some a8).
    change (take 9 [a; a0; a1; a2; a3; a4; a5; a6; a7; a8])
      with [a; a0; a1; a2; a3; a4; a5; a6; a7].
    rewrite isdigit_nonempty by discriminate.
    rewrite andb_true_iff, (plain_forallb _ Hp9), orb_true_iff, upper_is_X_spec.
    split.
    + intros [H9 Hl]. left. split; [reflexivity|]. split; [exact H9|].
      exists a8. split; [reflexivity|].
      destruct Hl as [Hd|Hx]; [left | right; exact Hx].
      now rewrite Hd in Hp10.
    + intros [(_ & H9 & c & [= <-] & Hl)|[Hlen _]]; [|discriminate Hlen].
      split; [exact H9|]. destruct Hl as [Hd|Hx]; [left; now apply decimal_isdigit | right; exact Hx].
  - destruct (Nat.eqb_spec (length s) 13) as [H13|H13]; simpl.
    + rewrite isdigit_nonempty by (intros ->; discriminate H13).
      rewrite (plain_forallb _ Hp). split; [intros H; right; auto|].
      intros [[Hlen _]|[_ H]]; [congruence | exact H].
    + split; [discriminate|]. intros [[Hlen _]|[Hlen _]]; congruence.
Qed.

Lemma plain_normalized (v : string) :
  plain_digits v ->
  forallb (fun c => implb (PyStr.isdigit_char c) (PyStr.is_decimal c)) (isbn_normalized v) = true.
Proof. intros H. unfold isbn_normalized. now do 2 apply plain_remove. Qed.

Lemma normalized_length (v : string) : Z.of_nat (length (isbn_normalized v)) <= PyStr.len v.
Proof.
  unfold isbn_normalized, PyStr.remove_char, PyStr.len.
  rewrite <- length_to_list_ascii.
  pose proof (List.filter_length_le (fun x => negb (PyStr.ord x =? PyStr.ord " ")%N)
    (List.filter (fun x => negb (PyStr.ord x =? PyStr.ord "-")%N) (list_ascii_of_string v))).
  pose proof (List.filter_length_le (fun x => negb (PyStr.ord x =? PyStr.ord "-")%N)
    (list_ascii_of_string v)).
  lia.
Qed.

Lemma isbn_shape_length (s : list ascii) : isbn_shape s -> (10 <= length s)%nat.
Proof. intros [[-> _]|[-> _]]; lia. Qed.

Lemma check_ISBN_pass (v v' : string) :
  plain_digits v ->
  (BookBase.check_ISBN v = Pass v' <->
   PyStr.len v <= 17 /\ isbn_shape (isbn_normalized v) /\ v' = v).
Proof.
  intros Hp. unfold BookBase.check_ISBN.
  pose proof (isbn_accepts_shape _ (plain_normalized v Hp)) as Hs.
  pose proof (normalized_length v) as Hn.
  destruct (constr_length 10 17 v) as [s|r|] eqn:E; simpl.
  - apply constr_length_pass in E as [Hlen ->].
    rewrite validate_isbn_pass, Hs. split; [intros [? ?]; split_and!; auto; lia | tauto].
  - split; [discriminate|]. intros (Hlen & Hsh & _).
    apply isbn_shape_length in Hsh.
    assert (constr_length 10 17 v = Pass v) as E' by (apply constr_length_pass; split; [lia | auto]).
    congruence.
  - split; [discriminate|]. intros (Hlen & Hsh & _).
    apply isbn_shape_length in Hsh.
    assert (constr_length 10 17 v = Pass v) as E' by (apply constr_length_pass; split; [lia | auto]).
    congruence.
Qed.

(** C2 as stated fails: ten digits separated by single spaces normalize to a
    ten-digit form, and the value is rejected for its 19 characters. *)
Lemma isbn_spaced_digits_rejected :
  let v := "0 3 0 6 4 0 6 1 5 2"%string in
  isbn_shape (isbn_normalized v) /\
  BookBase.check_ISBN v = Fail (MaxLength 17) /\
  BookUpdate.field_ISBN {[ "ISBN"%string := VStr v ]} = Fail (MaxLength 17).
Proof.
  split_and!; [|reflexivity|reflexivity].
  left. split; [reflexivity|]. split.
  - repeat constructor.
  - exists "2"%char. split; [reflexivity | left; reflexivity].
Qed.

(** C2 (amended): for a value without digit characters other than [0] to
    [9], the ISBN is accepted, on create and on update alike, exactly when
    the value as received has at most 17 characters and its form without
    hyphens and spaces has ten characters, nine digits and then a digit or
    [X]/[x], or thirteen digits; the value kept is the one received. *)
Theorem isbn_accepted (v v' : string) (d : gmap string value) :
  plain_digits v ->
  (BookBase.check_ISBN v = Pass v' <->
     PyStr.len v <= 17 /\ isbn_shape (isbn_normalized v) /\ v' = v) /\
  (BookUpdate.field_ISBN (<["ISBN" := VStr v]> d) = Pass (Some (Some v')) <->
     PyStr.len v <= 17 /\ isbn_shape (isbn_normalized v) /\ v' = v).
Proof.
  intros Hp. split; [now apply check_ISBN_pass|].
  rewrite <- (check_ISBN_pass v v' Hp).
  unfold BookUpdate.field_ISBN, BookUpdate.optional_str, BookBase.check_ISBN.
  rewrite lookup_insert_eq.
  destruct (constr_length 10 17 v) as [s|r|]; cbn [check_bind]; [|split; discriminate..].
  destruct (BookUpdate.validate_isbn (Some s)) as [o|r|] eqn:E; cbn [check_bind].
  - apply update_validate_isbn_same in E as (x & -> & ->).
    split; intros [= ->]; reflexivity.
  - split; [discriminate|]. intros H.
    assert (BookUpdate.validate_isbn (Some s) = Pass (Some v')) as E'
      by (apply update_validate_isbn_same; eauto).
    congruence.
  - split; [discriminate|]. intros H.
    assert (BookUpdate.validate_isbn (Some s) = Pass (Some v')) as E'
      by (apply update_validate_isbn_same; eauto).
    congruence.
Qed.

Lemma isbn_accepted_witness :
  plain_digits "0-306-40615-2" /\
  (BookBase.check_ISBN "0-306-40615-2" = Pass "0-306-40615-2"%string <->
     PyStr.len "0-306-40615-2" <= 17 /\ isbn_shape (isbn_normalized "0-306-40615-2") /\
     "0-306-40615-2"%string = "0-306-40615-2"%string).
Proof.
  split; [reflexivity|].
  apply (isbn_accepted "0-306-40615-2" "0-306-40615-2" ∅). reflexivity.
Defined.

(** An ISBN written with superscript twos passes both the bounds and the
    validator, since [str.isdigit] counts them as digits. *)
Lemma isbn_superscripts_accepted :
  let v := string_of_list_ascii (repeat (ascii_of_N 178) 10) in
  BookBase.check_ISBN v = Pass v.
Proof. reflexivity. Qed.

(* ===================================================================== *)
(** * Patterns *)
(* ===================================================================== *)













(* ===================================================================== *)
(** * Search and filter *)
(* ===================================================================== *)

(** Runs the monadic plumbing of a handler, and nothing else. *)
Ltac run :=
  cbv beta iota zeta delta
    [mbind M_bind mret M_ret sent lift get_books put_books has_unique_ISBN raise
     try_except reraise_or_wrap wrap outcome_bind].




(** C1 fails at the query [.]: the handler hands the query to [$regex] as
    it came, so the full stop is read as the pattern of any character, and
    the search returns a book whose title and author hold no full stop. *)
Lemma search_dot_finds_dune :
  let d : gmap string value :=
    <["_id" := VOid "507f1f77bcf86cd799439011"]> (
      BookBase.dict (BookBase.mk "Dune" "Frank Herbert" "0-306-40615-2" "Sci-Fi" 1965)) in
  let w := mkWorld [d] true [] in
  field_contains_ci "." d "title" = false /\
  field_contains_ci "." d "author" = false /\
  fst (search_books "." 0 10 w) =
    Ok [BookResponse.mk (BookBase.mk "Dune" "Frank Herbert" "0-306-40615-2" "Sci-Fi" 1965)
                        "507f1f77bcf86cd799439011"].
Proof. vm_compute. auto. Qed.

(** A query that is not a well-formed pattern is answered with a 500. *)
Lemma search_star_fails (w : World) :
  search_books "*" 0 10 w =
  (Raise (HTTPException 500 (DetailOf "Error searching books: " OperationFailure)),
   logged w [OpFind]).
Proof. reflexivity. Qed.


(** C8: without a genre and without a publication year the filter request
    is refused with a 400, whatever [skip] and [limit] are, and nothing is
    sent to the store. *)
Theorem filter_books_needs_parameter (skip limit : Z) (w : World) :
  filter_books None None skip limit w =
  (Raise (HTTPException 400 (Detail "At least one filter parameter is required")), w).
Proof. reflexivity. Qed.

(* ===================================================================== *)
(** * The store *)
(* ===================================================================== *)

Lemma find_ext {A} (p q : A -> bool) (l : list A) :
  (forall x, p x = q x) -> List.find p l = List.find q l.
Proof. intros H. induction l as [|x l IH]; simpl; [reflexivity|]. now rewrite H, IH. Qed.

Lemma find_none {A} (p : A -> bool) (l : list A) :
  Forall (fun x => p x = false) l -> List.find p l = None.
Proof. induction 1 as [|x l Hx _ IH]; simpl; [reflexivity|]. now rewrite Hx. Qed.

Lemma find_snoc {A} (p : A -> bool) (l : list A) (x : A) :
  List.find p l = None -> p x = true -> List.find p (l ++ [x]) = Some x.
Proof.
  intros Hl Hx. induction l as [|y l IH]; simpl in *; [now rewrite Hx|].
  destruct (p y); [discriminate | auto].
Qed.

Lemma existsb_none {A} (p : A -> bool) (l : list A) :
  Forall (fun x => p x = false) l -> existsb p l = false.
Proof. induction 1 as [|x l Hx _ IH]; simpl; [reflexivity|]. now rewrite Hx. Qed.

Lemma field_eq_decide (f : option value) (v : value) :
  v <> VNull -> field_eq f v = bool_decide (f = Some v).
Proof. destruct v; [congruence | reflexivity..]. Qed.

(** A lookup by the value of one field. *)
Lemma find_one_eq (k : string) (v : value) (w : World) :
  v <> VNull ->
  find_one (QDict [(k, CEq v)]) w =
  (Ok (List.find (fun d => bool_decide (d !! k = Some v)) (books w)), logged w [OpFindOne]).
Proof.
  intros Hv. unfold find_one, compile_query, compile_fields.
  cbn [outcome_mapM compile_cond snd fst]. run. cbn [books]. unfold logged.
  f_equal. f_equal. apply find_ext. intros d.
  cbn [matches matches_fields forallb holds fst snd].
  now rewrite andb_true_r, field_eq_decide.
Qed.

Lemma find_one_id (oid : ObjectId) (w : World) :
  find_one (QDict [("_id"%string, CEq (VOid oid))]) w =
  (Ok (List.find (has_id oid) (books w)), logged w [OpFindOne]).
Proof. now rewrite find_one_eq. Qed.

Lemma insert_one_ok (doc : gmap string value) (oid : ObjectId) (w : World) :
  Forall (fun d => d !! "_id" <> Some (VOid oid)) (books w) ->
  Forall (fun d => index_key d <> index_key (<["_id" := VOid oid]> doc)) (books w) ->
  insert_one doc oid w =
  (Ok oid, mkWorld (books w ++ [<["_id" := VOid oid]> doc]) (unique_ISBN w)
                   (ops w ++ [OpInsertOne])).
Proof.
  intros Hid Hkey. unfold insert_one. run. cbn [books unique_ISBN ops].
  rewrite existsb_none.
  2: { eapply Forall_impl; [exact Hid|]. intros d Hd. now apply bool_decide_eq_false. }
  rewrite (existsb_none (fun d => bool_decide (index_key d = _))).
  2: { eapply Forall_impl; [exact Hkey|]. intros d Hd. now apply bool_decide_eq_false. }
  now rewrite andb_false_r.
Qed.

(** ** Reading a stored book back *)

Lemma public_lookup (d : gmap string value) (oid : ObjectId) (k : string) :
  k <> "_id"%string -> k <> "id"%string ->
  delete "_id" (<["id" := VStr oid]> d) !! k = d !! k.
Proof. intros H1 H2. now rewrite lookup_delete_ne, lookup_insert_ne. Qed.

Lemma public_id (d : gmap string value) (oid : ObjectId) :
  delete "_id" (<["id" := VStr oid]> d) !! "id"%string = Some (VStr oid).
Proof. now rewrite lookup_delete_ne, lookup_insert_eq. Qed.

(** The verdict on the five fields depends on those fields only. *)
Lemma fields_agree (d1 d2 : gmap string value) :
  Forall (fun k => d1 !! k = d2 !! k) book_keys ->
  BookBase.fields d1 = BookBase.fields d2 /\
  BookBase.any_odd d1 = BookBase.any_odd d2 /\
  BookBase.errors d1 = BookBase.errors d2.
Proof.
  unfold book_keys. rewrite !Forall_cons. intros (Ht & Ha & Hi & Hg & Hy & _).
  unfold BookBase.fields, BookBase.any_odd, BookBase.errors,
    BookBase.field_title, BookBase.field_author, BookBase.field_ISBN,
    BookBase.field_genre, BookBase.field_publication_year, required_str, required_int.
  now rewrite Ht, Ha, Hi, Hg, Hy.
Qed.

Lemma response_of_fields (d : gmap string value) (oid : ObjectId) (b : BookBase.t) :
  d !! "_id"%string = Some (VOid oid) ->
  BookBase.fields d = Some b ->
  response_of d = Ok (BookResponse.mk b oid).
Proof.
  intros Hid Hb. unfold response_of, with_public_id. rewrite Hid. cbn [outcome_bind].
  unfold BookResponse.new, BookResponse.field_id, required_str. rewrite public_id.
  destruct (fields_agree (delete "_id" (<["id" := VStr oid]> d)) d) as (-> & _).
  { unfold book_keys. repeat constructor; now apply public_lookup. }
  now rewrite Hb.
Qed.

Lemma check_bind_pass {A B} (c : check A) (f : A -> check B) (b : B) :
  check_bind c f = Pass b <-> exists a, c = Pass a /\ f a = Pass b.
Proof.
  destruct c; simpl; split; try discriminate; eauto.
  - now intros (a' & [= <-] & H).
  - intros (? & ? & _); discriminate.
  - intros (? & ? & _); discriminate.
Qed.

Lemma required_str_pass (d : gmap string value) (k s : string) :
  required_str d k = Pass s <-> d !! k = Some (VStr s).
Proof.
  unfold required_str. destruct (d !! k) as [[]|]; split; try discriminate; congruence.
Qed.

Lemma required_int_pass (d : gmap string value) (k : string) (z : Z) :
  required_int d k = Pass z <-> d !! k = Some (VInt z).
Proof.
  unfold required_int. destruct (d !! k) as [[]|]; split; try discriminate; congruence.
Qed.

Lemma number_range_pass (lo hi v v' : Z) :
  number_range lo hi v = Pass v' <-> lo <= v <= hi /\ v' = v.
Proof.
  unfold number_range.
  destruct (Z.ltb_spec v lo); [split; [discriminate | lia]|].
  destruct (Z.ltb_spec hi v); [split; [discriminate | lia]|].
  split; [intros [= <-]; split; [lia | reflexivity] | intros [_ ->]; reflexivity].
Qed.

Lemma check_ISBN_stable (v v' : string) :
  BookBase.check_ISBN v = Pass v' -> v' = v /\ BookBase.check_ISBN v' = Pass v'.
Proof.
  unfold BookBase.check_ISBN. intros H.
  assert (v' = v) as ->; [|auto].
  apply check_bind_pass in H as (s & Hs & H).
  apply constr_length_pass in Hs as [_ ->].
  now apply validate_isbn_pass in H as [_ ->].
Qed.

(** The fields of a validated book, each with the text it was made from. *)
Lemma fields_some (d : gmap string value) (b : BookBase.t) :
  BookBase.fields d = Some b <->
  (exists t, d !! "title"%string = Some (VStr t) /\ BookBase.check_title t = Pass (BookBase.title b)) /\
  (exists a, d !! "author"%string = Some (VStr a) /\ BookBase.check_author a = Pass (BookBase.author b)) /\
  (exists i, d !! "ISBN"%string = Some (VStr i) /\ BookBase.check_ISBN i = Pass (BookBase.ISBN b)) /\
  (exists g, d !! "genre"%string = Some (VStr g) /\ BookBase.check_genre g = Pass (BookBase.genre b)) /\
  (exists y, d !! "publication_year"%string = Some (VInt y) /\
             BookBase.check_publication_year y = Pass (BookBase.publication_year b)).
Proof.
  unfold BookBase.fields, BookBase.field_title, BookBase.field_author, BookBase.field_ISBN,
    BookBase.field_genre, BookBase.field_publication_year.
  setoid_rewrite <- required_str_pass. setoid_rewrite <- required_int_pass.
  rewrite <- !check_bind_pass. destruct b as [t a i g y]. cbn.
  destruct (check_bind (required_str d "title") _); [|split; [discriminate | intros (? & _); discriminate]..].
  destruct (check_bind (required_str d "author") _); [|split; [discriminate | intros (_ & ? & _); discriminate]..].
  destruct (check_bind (required_str d "ISBN") _); [|split; [discriminate | intros (_ & _ & ? & _); discriminate]..].
  destruct (check_bind (required_str d "genre") _); [|split; [discriminate | intros (_ & _ & _ & ? & _); discriminate]..].
  destruct (check_bind (required_int d "publication_year") _); [|split; [discriminate | intros (_ & _ & _ & _ & ?); discriminate]..].
  split; [intros [= -> -> -> -> ->]; auto | intros ([= ->] & [= ->] & [= ->] & [= ->] & [= ->]); reflexivity].
Qed.

(** What was accepted once is accepted again, unchanged, when it is read
    back from the store. *)
Lemma fields_dict (d : gmap string value) (b : BookBase.t) :
  BookBase.fields d = Some b -> BookBase.fields (BookBase.dict b) = Some b.
Proof.
  rewrite !fields_some.
  intros ((t & _ & Ht) & (a & _ & Ha) & (i & _ & Hi) & (g & _ & Hg) & (y & _ & Hy)).
  split_and!; eexists; (split; [reflexivity|]).
  - revert Ht. apply bounded_string_stable.
  - revert Ha. apply bounded_string_stable.
  - now apply check_ISBN_stable in Hi.
  - revert Hg. apply bounded_string_stable.
  - unfold BookBase.check_publication_year in *.
    apply number_range_pass in Hy as [Hr ->]. now apply number_range_pass.
Qed.

Lemma BookCreate_ok (raw : gmap string value) (b : BookBase.t) :
  BookCreate raw = Ok b <-> BookBase.fields raw = Some b.
Proof.
  unfold BookCreate. destruct (BookBase.fields raw); [split; congruence|].
  destruct (BookBase.any_odd raw); split; discriminate.
Qed.

(** ** Identifiers *)

Lemma lower_hex_digit (c : ascii) :
  PyStr.between 48 57 c || PyStr.between 97 102 c = true ->
  ObjectIds.is_ascii_space c = false /\ ObjectIds.is_hex c = true /\ ObjectIds.lower_hex c = c.
Proof.
  unfold ObjectIds.is_ascii_space, ObjectIds.is_hex, ObjectIds.lower_hex, PyStr.between.
  intros H.
  repeat match goal with
         | |- context [(?a <=? ?b)%N] => destruct (N.leb_spec a b)
         | |- context [(?a =? ?b)%N] => destruct (N.eqb_spec a b)
         | H : context [(?a <=? ?b)%N] |- _ => destruct (N.leb_spec a b)
         end; simpl in *; try discriminate; try lia; auto.
Qed.

Lemma fromhex_canonical (n : nat) (l : list ascii) :
  length l = (2 * n)%nat ->
  forallb (fun c => PyStr.between 48 57 c || PyStr.between 97 102 c) l = true ->
  ObjectIds.fromhex l = Some l.
Proof.
  revert l. induction n as [|n IH]; intros l Hlen Hl.
  - destruct l; [reflexivity | discriminate Hlen].
  - destruct l as [|c [|d l]]; try (simpl in Hlen; lia).
    cbn [forallb] in Hl. apply andb_true_iff in Hl as [Hc Hl].
    apply andb_true_iff in Hl as [Hd Hl].
    destruct (lower_hex_digit c Hc) as (Hc1 & Hc2 & Hc3).
    destruct (lower_hex_digit d Hd) as (Hd1 & Hd2 & Hd3).
    cbn [ObjectIds.fromhex]. rewrite Hc1, Hc2, Hd2, Hc3, Hd3. cbn [andb].
    rewrite IH; [reflexivity | simpl in Hlen; lia | exact Hl].
Qed.

(** An id as the driver generates it is read back as itself. *)
Lemma of_str_canonical (oid : ObjectId) :
  ObjectIds.canonical oid = true -> ObjectIds.of_str oid = Some oid.
Proof.
  unfold ObjectIds.canonical, ObjectIds.of_str. rewrite andb_true_iff. intros [Hlen Hl].
  rewrite Hlen. apply Nat.eqb_eq in Hlen.
  rewrite (fromhex_canonical 12); [|now rewrite length_to_list_ascii|exact Hl].
  cbn [option_map]. now rewrite string_of_list_ascii_of_string.
Qed.

Lemma is_valid_of_str (book_id : string) (oid : ObjectId) :
  ObjectIds.of_str book_id = Some oid -> ObjectIds.is_valid book_id = true.
Proof. unfold ObjectIds.is_valid. now intros ->. Qed.

(** ** Fetching *)

Lemma has_id_lookup (oid : ObjectId) (d : gmap string value) :
  has_id oid d = true <-> d !! "_id"%string = Some (VOid oid).
Proof. unfold has_id. apply bool_decide_eq_true. Qed.

Lemma find_has_id (oid : ObjectId) (l : list (gmap string value)) (d : gmap string value) :
  List.find (has_id oid) l = Some d -> d !! "_id"%string = Some (VOid oid) /\ truthy (Some d) = true.
Proof.
  intros H. apply find_some in H as [_ H]. apply has_id_lookup in H. split; [exact H|].
  cbn [truthy]. apply negb_true_iff, bool_decide_eq_false. intros ->.
  now rewrite lookup_empty in H.
Qed.

Lemma find_truthy (p : gmap string value -> bool) (l : list (gmap string value)) :
  Forall (fun d => d <> ∅) l -> truthy (List.find p l) = false -> List.find p l = None.
Proof.
  intros Hl. destruct (List.find p l) as [d|] eqn:E; [|reflexivity].
  apply find_some in E as [Hin _]. rewrite Forall_forall in Hl.
  apply list_elem_of_In, Hl in Hin. cbn [truthy].
  rewrite negb_false_iff, bool_decide_eq_true. contradiction.
Qed.

(** What the handler makes of the outcome of its body. *)
Lemma get_book_found (book_id : string) (oid : ObjectId) (d : gmap string value) (w : World) :
  ObjectIds.of_str book_id = Some oid ->
  List.find (has_id oid) (books w) = Some d ->
  get_book book_id w =
  (match response_of d with
   | Raise e => Raise (HTTPException 500 (DetailOf "Error retrieving book: " e))
   | r => r
   end, logged w [OpFindOne]).
Proof.
  intros Hoid Hd. unfold get_book, ObjectId_new. rewrite (is_valid_of_str _ _ Hoid), Hoid.
  cbn [negb]. run. rewrite find_one_id, Hd.
  destruct (find_has_id _ _ _ Hd) as [Hid ->]. cbn [negb].
  unfold response_of, with_public_id. rewrite Hid. cbn [outcome_bind].
  destruct (BookResponse.new _) as [r|e|] eqn:E; try reflexivity.
  destruct e; try reflexivity.
  unfold BookResponse.new in E. repeat case_match; discriminate.
Qed.

Lemma get_book_missing (book_id : string) (oid : ObjectId) (w : World) :
  ObjectIds.of_str book_id = Some oid ->
  List.find (has_id oid) (books w) = None ->
  get_book book_id w = (Raise (HTTPException 404 (Detail "Book not found")), logged w [OpFindOne]).
Proof.
  intros Hoid Hd. unfold get_book, ObjectId_new. rewrite (is_valid_of_str _ _ Hoid), Hoid.
  cbn [negb]. run. now rewrite find_one_id, Hd.
Qed.

Lemma response_of_inv (d : gmap string value) (r : BookResponse.t) :
  response_of d = Ok r ->
  d !! "_id"%string = Some (VOid (BookResponse.id r)) /\
  BookBase.fields d = Some (BookResponse.base r).
Proof.
  unfold response_of, with_public_id.
  destruct (d !! "_id") as [[| | |o]|] eqn:Hid; try discriminate. cbn [outcome_bind].
  unfold BookResponse.new, BookResponse.field_id, required_str. rewrite public_id.
  destruct (fields_agree (delete "_id" (<["id" := VStr o]> d)) d) as (-> & _).
  { unfold book_keys. repeat constructor; now apply public_lookup. }
  destruct (BookBase.fields d); [intros [= <-]; auto|].
  destruct (_ || _); discriminate.
Qed.

Lemma get_book_ok_inv (book_id : string) (w w0 : World) (r : BookResponse.t) :
  get_book book_id w = (Ok r, w0) ->
  exists oid d,
    ObjectIds.of_str book_id = Some oid /\
    List.find (has_id oid) (books w) = Some d /\
    response_of d = Ok r.
Proof.
  intros H. destruct (ObjectIds.of_str book_id) as [oid|] eqn:Hoid.
  - destruct (List.find (has_id oid) (books w)) as [d|] eqn:Hd.
    + exists oid, d. split_and!; auto.
      rewrite (get_book_found _ _ _ _ Hoid Hd) in H.
      destruct (response_of d); [congruence | discriminate..].
    + rewrite (get_book_missing _ _ _ Hoid Hd) in H. discriminate.
  - unfold get_book, ObjectIds.is_valid in H. rewrite Hoid in H. discriminate.
Qed.

(** ** Creating *)

Lemma stored_lookup (b : BookBase.t) (oid : ObjectId) :
  stored b oid !! "_id"%string = Some (VOid oid) /\
  stored b oid !! "ISBN"%string = Some (VStr (BookBase.ISBN b)) /\
  Forall (fun k => stored b oid !! k = BookBase.dict b !! k) book_keys.
Proof. split_and!; [reflexivity..|]. unfold book_keys. repeat constructor. Qed.

Lemma stored_fields (b : BookBase.t) (oid : ObjectId) :
  BookBase.fields (BookBase.dict b) = Some b -> BookBase.fields (stored b oid) = Some b.
Proof.
  intros H. destruct (stored_lookup b oid) as (_ & _ & Hk).
  now destruct (fields_agree _ _ Hk) as (-> & _).
Qed.

Lemma index_key_isbn (d : gmap string value) (v : string) :
  index_key d = VStr v <-> d !! "ISBN"%string = Some (VStr v).
Proof.
  unfold index_key. destruct (d !! "ISBN") as [x|]; simpl; split; congruence.
Qed.

(** When no stored document has the ISBN of [b], character for character,
    and [oid] is new, the book is stored and returned. *)
Lemma create_book_ok (b : BookBase.t) (oid : ObjectId) (w : World) :
  BookBase.fields (BookBase.dict b) = Some b ->
  Forall (fun d => d !! "_id"%string <> Some (VOid oid)) (books w) ->
  Forall (fun d => d !! "ISBN"%string <> Some (VStr (BookBase.ISBN b))) (books w) ->
  create_book b oid w =
  (Ok (BookResponse.mk b oid),
   mkWorld (books w ++ [stored b oid]) (unique_ISBN w)
           (ops w ++ [OpFindOne; OpInsertOne; OpFindOne])).
Proof.
  intros Hb Hid Hisbn. unfold create_book. run.
  rewrite find_one_eq by discriminate.
  rewrite find_none.
  2: { eapply Forall_impl; [exact Hisbn|]. intros d Hd. now apply bool_decide_eq_false. }
  cbn [truthy]. rewrite insert_one_ok; cbn [logged books]; [|exact Hid|].
  2: { eapply Forall_impl; [exact Hisbn|]. intros d Hd.
       fold (stored b oid). destruct (stored_lookup b oid) as (_ & Hi & _).
       apply index_key_isbn in Hi. rewrite Hi, index_key_isbn. exact Hd. }
  rewrite find_one_id. cbn [logged books unique_ISBN ops]. fold (stored b oid).
  destruct (stored_lookup b oid) as (Hsid & _ & _).
  rewrite find_snoc.
  2: { apply find_none. eapply Forall_impl; [exact Hid|]. intros d Hd.
       unfold has_id. now apply bool_decide_eq_false. }
  2: { now apply has_id_lookup. }
  pose proof (response_of_fields _ _ _ Hsid (stored_fields b oid Hb)) as Hr.
  unfold response_of, with_public_id in Hr. unfold with_public_id.
  rewrite Hsid in Hr |- *. cbn [outcome_bind] in Hr. rewrite Hr.
  unfold logged. cbn [books unique_ISBN ops]. now rewrite <- !app_assoc.
Qed.

(** ** Updating *)

Lemma split_first_ext (p q : gmap string value -> bool) (l : list (gmap string value)) :
  (forall x, p x = q x) -> split_first p l = split_first q l.
Proof. intros H. induction l as [|x l IH]; simpl; [reflexivity|]. now rewrite H, IH. Qed.

Lemma split_first_find (p : gmap string value -> bool) (l : list (gmap string value))
    (d : gmap string value) :
  List.find p l = Some d ->
  exists pre post,
    split_first p l = Some (pre, d, post) /\ l = pre ++ d :: post /\
    Forall (fun x => p x = false) pre.
Proof.
  induction l as [|x l IH]; simpl; [discriminate|].
  destruct (p x) eqn:Hx.
  - intros [= ->]. exists [], l. auto.
  - intros H. destruct (IH H) as (pre & post & -> & -> & Hpre).
    exists (x :: pre), post. split_and!; auto.
Qed.

Lemma find_middle (p : gmap string value -> bool) (pre post : list (gmap string value))
    (d : gmap string value) :
  Forall (fun x => p x = false) pre -> p d = true ->
  List.find p (pre ++ d :: post) = Some d.
Proof.
  intros Hpre Hd. induction Hpre as [|x pre Hx _ IH]; simpl; [now rewrite Hd|].
  now rewrite Hx.
Qed.

Lemma find_one_conflict (isbn : value) (oid : ObjectId) (w : World) :
  find_one (QDict [("ISBN"%string, CEq isbn); ("_id"%string, CNe (VOid oid))]) w =
  (Ok (List.find (conflicts isbn oid) (books w)), logged w [OpFindOne]).
Proof.
  unfold find_one, compile_query, compile_fields.
  cbn [outcome_mapM compile_cond snd fst]. run. cbn [books]. unfold logged.
  f_equal. f_equal. apply find_ext. intros d.
  cbn [matches matches_fields forallb holds fst snd]. unfold conflicts.
  now rewrite andb_true_r.
Qed.

Lemma update_one_id (oid : ObjectId) (upd d : gmap string value)
    (pre post : list (gmap string value)) (w : World) :
  upd <> ∅ ->
  split_first (has_id oid) (books w) = Some (pre, d, post) ->
  update_one (QDict [("_id"%string, CEq (VOid oid))]) upd w =
  if bool_decide (upd ∪ d = d) then (Ok (mkUpdateResult 1 0), logged w [OpUpdateOne])
  else if unique_ISBN w && negb (bool_decide (index_key (upd ∪ d) = index_key d)) &&
          existsb (fun x => bool_decide (index_key x = index_key (upd ∪ d))) (pre ++ post)
  then (Raise DuplicateKeyError, logged w [OpUpdateOne])
  else (Ok (mkUpdateResult 1 1),
        mkWorld (pre ++ (upd ∪ d) :: post) (unique_ISBN w) (ops w ++ [OpUpdateOne])).
Proof.
  intros Hupd Hsplit. unfold update_one, compile_query, compile_fields.
  cbn [outcome_mapM compile_cond snd fst]. run. cbn [books unique_ISBN ops].
  rewrite bool_decide_eq_false_2 by exact Hupd.
  rewrite (split_first_ext _ (has_id oid)), Hsplit.
  2: { intros x. cbn [matches matches_fields forallb holds fst snd field_eq].
       now rewrite andb_true_r. }
  destruct (bool_decide (upd ∪ d = d)); [reflexivity|].
  destruct (unique_ISBN w && _ && _); reflexivity.
Qed.

Lemma payload_no_id (p : BookUpdate.t) (k : string) :
  ~ In k book_keys -> BookUpdate.dict_exclude_unset p !! k = None.
Proof.
  unfold book_keys. cbn [In]. intros H.
  unfold BookUpdate.dict_exclude_unset, BookUpdate.put.
  repeat case_match; rewrite ?lookup_insert_ne by (intros <-; tauto);
    apply lookup_empty.
Qed.

Lemma union_keeps_id (p : BookUpdate.t) (d : gmap string value) :
  (BookUpdate.dict_exclude_unset p ∪ d) !! "_id"%string = d !! "_id"%string.
Proof.
  apply lookup_union_r, payload_no_id. unfold book_keys. cbn [In].
  intros H. decompose [or] H; discriminate || assumption.
Qed.

(** The two ways an update of an existing book can go: refused with the
    collection as it was, or one document replaced by its merge with the
    payload. *)
Lemma update_book_cases (book_id : string) (oid : ObjectId) (d0 : gmap string value)
    (p : BookUpdate.t) (w w' : World) (r : outcome BookResponse.t) :
  ObjectIds.of_str book_id = Some oid ->
  List.find (has_id oid) (books w) = Some d0 ->
  update_book book_id p w = (r, w') ->
  (books w' = books w /\ unique_ISBN w' = unique_ISBN w /\
   (exists e, r = Raise (HTTPException 500 (DetailOf "Error updating book: " e))) /\
   BookUpdate.dict_exclude_unset p <> ∅ /\
   BookUpdate.dict_exclude_unset p ∪ d0 <> d0)
  \/
  (books w' = books w /\ unique_ISBN w' = unique_ISBN w /\
   exists msg, r = Raise (HTTPException 400 (Detail msg)))
  \/
  (BookUpdate.dict_exclude_unset p <> ∅ /\
   BookUpdate.dict_exclude_unset p ∪ d0 <> d0 /\
   exists pre post,
     books w = pre ++ d0 :: post /\
     Forall (fun x => has_id oid x = false) pre /\
     books w' = pre ++ (BookUpdate.dict_exclude_unset p ∪ d0) :: post /\
     r = handled "Error updating book: " (response_of (BookUpdate.dict_exclude_unset p ∪ d0))).
Proof.
  intros Hoid Hfind. unfold update_book, ObjectId_new.
  rewrite (is_valid_of_str _ _ Hoid), Hoid. cbn [negb]. run.
  rewrite find_one_id, Hfind.
  destruct (find_has_id _ _ _ Hfind) as [Hid ->]. cbn [negb].
  set (U := BookUpdate.dict_exclude_unset p).
  destruct (split_first_find _ _ _ Hfind) as (pre & post & Hsplit & Hbooks & Hpre).
  assert (has_id oid (U ∪ d0) = true) as Hnew
    by (apply has_id_lookup; unfold U; now rewrite union_keeps_id).
  assert (with_public_id (Some (U ∪ d0)) = Ok (delete "_id" (<["id" := VStr oid]> (U ∪ d0))))
    as Hpub by (unfold with_public_id, U; now rewrite union_keeps_id, Hid).
  assert (response_of (U ∪ d0) = BookResponse.new (delete "_id" (<["id" := VStr oid]> (U ∪ d0))))
    as Hresp by (unfold response_of; now rewrite Hpub).
  destruct (U !! "ISBN"%string) as [isbn|];
    [rewrite find_one_conflict; cbn [logged books];
     destruct (truthy (List.find (conflicts isbn oid) (books w))); run;
     [intros [= <- <-]; right; left; cbn [logged books unique_ISBN]; eauto|]|].
  all: case_bool_decide as HU; run; [intros [= <- <-]; right; left; eauto|].
  all: erewrite (update_one_id _ _ _ _ _ _ HU) by (cbn [logged books]; exact Hsplit).
  all: case_bool_decide as Hsame;
    [cbn [modified_count Z.eqb]; run; intros [= <- <-]; right; left;
     cbn [logged books unique_ISBN]; eauto|].
  all: cbn [logged books unique_ISBN ops].
  all: destruct (unique_ISBN w && _ && _); run;
    [intros [= <- <-]; left; cbn [logged books unique_ISBN]; split_and!; eauto|].
  all: cbn [modified_count Z.eqb]; run; rewrite find_one_id; cbn [books logged].
  all: rewrite (find_middle (has_id oid) pre post (U ∪ d0) Hpre Hnew), Hpub.
  all: intros H; right; right; split_and!; auto; exists pre, post.
  all: split_and!; auto.
  all: try (destruct (BookResponse.new _) as [x|e|]; [|destruct e|]; now injection H as <- <-).
  all: unfold handled; rewrite Hresp.
  all: destruct (BookResponse.new _) as [x|e|]; [|destruct e|]; now injection H as <- <-.
Qed.

(* ===================================================================== *)
(** * Create and fetch *)
(* ===================================================================== *)

Lemma exists_find (p : gmap string value -> bool) (l : list (gmap string value)) :
  Exists (fun d => p d = true) l -> exists d, List.find p l = Some d /\ p d = true.
Proof.
  induction 1 as [x l Hx|x l _ IH]; simpl.
  - rewrite Hx. eauto.
  - destruct (p x) eqn:Hx; eauto.
Qed.

(** C5: a valid create request returns the book with its title, author and
    genre trimmed, and a fetch by the returned id then returns the same
    book. *)
Theorem create_then_fetch (raw : gmap string value) (b : BookBase.t) (oid : ObjectId)
    (w : World) :
  BookCreate raw = Ok b ->
  ObjectIds.canonical oid = true ->
  Forall (fun d => d !! "_id"%string <> Some (VOid oid)) (books w) ->
  Forall (fun d => d !! "ISBN"%string <> Some (VStr (BookBase.ISBN b))) (books w) ->
  (exists t a g,
     raw !! "title"%string = Some (VStr t) /\ raw !! "author"%string = Some (VStr a) /\
     raw !! "genre"%string = Some (VStr g) /\
     BookBase.title b = PyStr.strip t /\ BookBase.author b = PyStr.strip a /\
     BookBase.genre b = PyStr.strip g) /\
  exists r w',
    create_book b oid w = (Ok r, w') /\
    BookResponse.base r = b /\
    fst (get_book (BookResponse.id r) w') = Ok r.
Proof.
  intros Hraw Hoid Hfresh Hisbn. apply BookCreate_ok in Hraw. split.
  - apply fields_some in Hraw as ((t & Ht & Ht') & (a & Ha & Ha') & _ & (g & Hg & Hg') & _).
    exists t, a, g. split_and!; auto.
    + now apply bounded_string_pass in Ht' as (_ & _ & ->).
    + now apply bounded_string_pass in Ha' as (_ & _ & ->).
    + now apply bounded_string_pass in Hg' as (_ & _ & ->).
  - apply fields_dict in Hraw.
    eexists. eexists. split; [now apply create_book_ok|]. split; [reflexivity|].
    cbn [BookResponse.id].
    erewrite get_book_found; [|now apply of_str_canonical|].
    2: { cbn [books]. apply (find_middle (has_id oid) (books w) [] (stored b oid)).
         - eapply Forall_impl; [exact Hfresh|]. intros d Hd.
           unfold has_id. now apply bool_decide_eq_false.
         - now apply has_id_lookup. }
    cbn [fst]. erewrite response_of_fields; [reflexivity..|].
    now apply stored_fields.
Qed.

Lemma create_then_fetch_witness :
  BookCreate messiah_request = Ok messiah /\
  exists r w',
    create_book messiah messiah_id library = (Ok r, w') /\
    BookResponse.base r = messiah /\
    fst (get_book (BookResponse.id r) w') = Ok r.
Proof.
  split; [reflexivity|].
  apply (create_then_fetch messiah_request messiah messiah_id library);
    [reflexivity | reflexivity | |];
    (constructor; [vm_compute; discriminate | constructor]).
Defined.

(** C6: a create request whose ISBN is, character for character, the ISBN
    of a stored book is refused with a 400 and the collection stays as it
    is; a request whose ISBN is not among the stored strings is accepted,
    whatever the stored ISBNs look like without hyphens and spaces. *)
Theorem create_checks_raw_isbn (raw : gmap string value) (b : BookBase.t) (oid : ObjectId)
    (w : World) :
  (Exists (fun d => d !! "ISBN"%string = Some (VStr (BookBase.ISBN b))) (books w) ->
   create_book b oid w =
   (Raise (HTTPException 400 (Detail "Book with this ISBN already exists")),
    logged w [OpFindOne])) /\
  (BookCreate raw = Ok b ->
   Forall (fun d => d !! "_id"%string <> Some (VOid oid)) (books w) ->
   Forall (fun d => d !! "ISBN"%string <> Some (VStr (BookBase.ISBN b))) (books w) ->
   create_book b oid w =
   (Ok (BookResponse.mk b oid),
    mkWorld (books w ++ [stored b oid]) (unique_ISBN w)
            (ops w ++ [OpFindOne; OpInsertOne; OpFindOne]))).
Proof.
  split.
  - intros Hex. unfold create_book. run. rewrite find_one_eq by discriminate.
    destruct (exists_find (fun d => bool_decide (d !! "ISBN"%string = Some (VStr (BookBase.ISBN b))))
                (books w)) as (d & -> & Hd).
    { eapply Exists_impl; [exact Hex|]. intros d Hd. now apply bool_decide_eq_true. }
    apply bool_decide_eq_true in Hd.
    assert (truthy (Some d) = true) as ->; [|reflexivity].
    cbn [truthy]. apply negb_true_iff, bool_decide_eq_false. intros ->.
    now rewrite lookup_empty in Hd.
  - intros Hraw Hfresh Hisbn. apply BookCreate_ok, fields_dict in Hraw.
    now apply create_book_ok.
Qed.

Lemma create_checks_raw_isbn_witness :
  isbn_normalized (BookBase.ISBN dune) = isbn_normalized (BookBase.ISBN messiah) /\
  create_book dune messiah_id library =
    (Raise (HTTPException 400 (Detail "Book with this ISBN already exists")),
     logged library [OpFindOne]) /\
  create_book messiah messiah_id library =
    (Ok (BookResponse.mk messiah messiah_id),
     mkWorld (books library ++ [stored messiah messiah_id]) (unique_ISBN library)
             (ops library ++ [OpFindOne; OpInsertOne; OpFindOne])).
Proof.
  split; [reflexivity|]. split.
  - apply (create_checks_raw_isbn messiah_request dune messiah_id library).
    constructor. reflexivity.
  - apply (create_checks_raw_isbn messiah_request messiah messiah_id library);
      [reflexivity | |]; (constructor; [vm_compute; discriminate | constructor]).
Defined.

(* ===================================================================== *)
(** * Update *)
(* ===================================================================== *)

(** C10: for a well-formed id that no stored book has, an update is
    answered with 404 whatever the payload is, the empty one included: the
    handler looks the book up before it looks at the payload. *)
Theorem update_unknown_id_not_found (book_id : string) (oid : ObjectId)
    (p : BookUpdate.t) (w : World) :
  ObjectIds.of_str book_id = Some oid ->
  Forall (fun d => d !! "_id"%string <> Some (VOid oid)) (books w) ->
  update_book book_id p w =
    (Raise (HTTPException 404 (Detail "Book not found")), logged w [OpFindOne]) /\
  update_book book_id empty_update w =
    (Raise (HTTPException 404 (Detail "Book not found")), logged w [OpFindOne]).
Proof.
  intros Hoid Hnone.
  assert (forall q, update_book book_id q w =
    (Raise (HTTPException 404 (Detail "Book not found")), logged w [OpFindOne])) as H.
  { intros q. unfold update_book, ObjectId_new.
    rewrite (is_valid_of_str _ _ Hoid), Hoid. cbn [negb]. run.
    rewrite find_one_id, find_none; [reflexivity|].
    eapply Forall_impl; [exact Hnone|]. intros d Hd.
    unfold has_id. now apply bool_decide_eq_false. }
  split; apply H.
Qed.

Lemma update_unknown_id_not_found_witness :
  ObjectIds.is_valid messiah_id = true /\
  update_book messiah_id empty_update library =
    (Raise (HTTPException 404 (Detail "Book not found")), logged library [OpFindOne]).
Proof.
  split; [reflexivity|].
  apply (update_unknown_id_not_found messiah_id messiah_id empty_update library);
    [reflexivity|].
  constructor; [vm_compute; discriminate | constructor].
Defined.

(** C7: for a stored book, an update whose payload is empty, or whose
    fields all have the stored values already, is refused with a 400 and
    the collection stays as it is. *)
Theorem update_without_change_refused (book_id : string) (oid : ObjectId)
    (d : gmap string value) (p : BookUpdate.t) (w : World) :
  ObjectIds.of_str book_id = Some oid ->
  List.find (has_id oid) (books w) = Some d ->
  BookUpdate.dict_exclude_unset p = ∅ \/ BookUpdate.dict_exclude_unset p ∪ d = d ->
  exists msg w',
    update_book book_id p w = (Raise (HTTPException 400 (Detail msg)), w') /\
    books w' = books w.
Proof.
  intros Hoid Hfind Hnop.
  destruct (update_book book_id p w) as [r w'] eqn:E.
  destruct (update_book_cases _ _ _ _ _ _ _ Hoid Hfind E)
    as [(_ & _ & _ & H1 & H2)|[(Hb & _ & msg & ->)|(H1 & H2 & _)]].
  - destruct Hnop; contradiction.
  - eauto.
  - destruct Hnop; contradiction.
Qed.

Lemma update_without_change_refused_witness :
  BookUpdate.dict_exclude_unset same_title ∪ stored dune dune_id = stored dune dune_id /\
  exists msg w',
    update_book dune_id same_title library = (Raise (HTTPException 400 (Detail msg)), w') /\
    books w' = books library.
Proof.
  split; [reflexivity|].
  apply (update_without_change_refused dune_id dune_id (stored dune dune_id) same_title library);
    [reflexivity | reflexivity | right; reflexivity].
Defined.

(** The two refusals, with their messages. *)
Lemma update_refusals :
  fst (update_book dune_id empty_update library) =
    Raise (HTTPException 400 (Detail "No fields to update")) /\
  fst (update_book dune_id same_title library) =
    Raise (HTTPException 400 (Detail "No changes made to the book")).
Proof. split; reflexivity. Qed.

(** ** What an update leaves alone *)

Lemma optional_str_settled (hi : Z) (raw : gmap string value) (k : string)
    (f : option (option string)) :
  BookUpdate.optional_str 1 hi BookUpdate.validate_strings raw k = Pass f ->
  raw !! k <> Some VNull ->
  settled (fun v => check_bind (constr_length 1 hi v) BookBase.validate_strings = Pass v) f.
Proof.
  unfold BookUpdate.optional_str. intros H Hnull.
  destruct (raw !! k) as [[|s| |]|]; try discriminate; try congruence.
  - apply check_bind_pass in H as (s' & Hs' & H).
    apply check_bind_pass in H as (v & Hv & [= <-]).
    unfold BookUpdate.validate_strings in Hv.
    destruct (String.eqb_spec (PyStr.strip s') "") as [E|E]; [discriminate|].
    injection Hv as <-. cbn [settled].
    apply (bounded_string_stable hi s'). apply bounded_string_pass.
    apply constr_length_pass in Hs' as [Hlen ->]. auto.
  - now injection H as <-.
Qed.

Lemma optional_isbn_settled (raw : gmap string value) (f : option (option string)) :
  BookUpdate.optional_str 10 17 BookUpdate.validate_isbn raw "ISBN" = Pass f ->
  raw !! "ISBN"%string <> Some VNull ->
  settled (fun v => BookBase.check_ISBN v = Pass v) f.
Proof.
  unfold BookUpdate.optional_str. intros H Hnull.
  destruct (raw !! "ISBN"%string) as [[|s| |]|]; try discriminate; try congruence.
  - apply check_bind_pass in H as (s' & Hs' & H).
    apply check_bind_pass in H as (v & Hv & [= <-]).
    apply update_validate_isbn_same in Hv as (v' & -> & Hv). cbn [settled].
    apply (check_ISBN_stable s). unfold BookBase.check_ISBN. rewrite Hs'. exact Hv.
  - now injection H as <-.
Qed.

Lemma optional_int_settled (raw : gmap string value) (f : option (option Z)) :
  BookUpdate.optional_int 1000 2024 raw "publication_year" = Pass f ->
  raw !! "publication_year"%string <> Some VNull ->
  settled (fun v => BookBase.check_publication_year v = Pass v) f.
Proof.
  unfold BookUpdate.optional_int. intros H Hnull.
  destruct (raw !! "publication_year"%string) as [[| |z|]|]; try discriminate; try congruence.
  - apply check_bind_pass in H as (z' & Hz & [= <-]). cbn [settled].
    unfold BookBase.check_publication_year.
    apply number_range_pass in Hz as [Hr ->]. now apply number_range_pass.
  - now injection H as <-.
Qed.

(** A payload that passed validation and sets no field to [null]. *)
Lemma new_settled (raw : gmap string value) (p : BookUpdate.t) :
  BookUpdate.new raw = Ok p ->
  (forall k, raw !! k <> Some VNull) ->
  payload_settled p.
Proof.
  unfold BookUpdate.new. intros H Hnull.
  destruct (BookUpdate.field_title raw) as [t| |] eqn:Et.
  2,3: destruct (_ || _); discriminate.
  destruct (BookUpdate.field_author raw) as [a| |] eqn:Ea.
  2,3: destruct (_ || _); discriminate.
  destruct (BookUpdate.field_ISBN raw) as [i| |] eqn:Ei.
  2,3: destruct (_ || _); discriminate.
  destruct (BookUpdate.field_genre raw) as [g| |] eqn:Eg.
  2,3: destruct (_ || _); discriminate.
  destruct (BookUpdate.field_publication_year raw) as [y| |] eqn:Ey.
  2,3: destruct (_ || _); discriminate.
  injection H as <-. unfold payload_settled. cbn.
  split_and!.
  - exact (optional_str_settled 200 _ _ _ Et (Hnull _)).
  - exact (optional_str_settled 100 _ _ _ Ea (Hnull _)).
  - exact (optional_isbn_settled _ _ Ei (Hnull _)).
  - exact (optional_str_settled 50 _ _ _ Eg (Hnull _)).
  - exact (optional_int_settled _ _ Ey (Hnull _)).
Qed.

Lemma put_lookup_eq {A} (k : string) (inj : A -> value) (f : option (option A))
    (m : gmap string value) :
  m !! k = None ->
  BookUpdate.put k inj f m !! k =
  match f with
  | None => None
  | Some None => Some VNull
  | Some (Some v) => Some (inj v)
  end.
Proof. intros Hm. destruct f as [[v|]|]; cbn; rewrite ?lookup_insert_eq; auto. Qed.

Lemma put_lookup_ne {A} (k k' : string) (inj : A -> value) (f : option (option A))
    (m : gmap string value) :
  k <> k' -> BookUpdate.put k inj f m !! k' = m !! k'.
Proof. intros Hk. destruct f as [[v|]|]; cbn; rewrite ?lookup_insert_ne; auto. Qed.

Lemma payload_lookup (p : BookUpdate.t) :
  let U := BookUpdate.dict_exclude_unset p in
  let shown {A} (inj : A -> value) (f : option (option A)) :=
    match f with
    | None => None
    | Some None => Some VNull
    | Some (Some v) => Some (inj v)
    end in
  U !! "title"%string = shown VStr (BookUpdate.title p) /\
  U !! "author"%string = shown VStr (BookUpdate.author p) /\
  U !! "ISBN"%string = shown VStr (BookUpdate.ISBN p) /\
  U !! "genre"%string = shown VStr (BookUpdate.genre p) /\
  U !! "publication_year"%string = shown VInt (BookUpdate.publication_year p).
Proof.
  cbv zeta. unfold BookUpdate.dict_exclude_unset.
  split_and!;
    rewrite ?(put_lookup_ne "title") by discriminate;
    rewrite ?(put_lookup_ne "author") by discriminate;
    rewrite ?(put_lookup_ne "ISBN") by discriminate;
    rewrite ?(put_lookup_ne "genre") by discriminate;
    rewrite put_lookup_eq; try reflexivity;
    rewrite ?(put_lookup_ne "author") by discriminate;
    rewrite ?(put_lookup_ne "ISBN") by discriminate;
    rewrite ?(put_lookup_ne "genre") by discriminate;
    rewrite ?(put_lookup_ne "publication_year") by discriminate;
    apply lookup_empty.
Qed.

(** A merge of a stored book with a settled payload is the book [merged]. *)
Lemma merged_fields (p : BookUpdate.t) (d : gmap string value) (b : BookBase.t) :
  payload_settled p ->
  BookBase.fields d = Some b ->
  BookBase.fields (BookUpdate.dict_exclude_unset p ∪ d) = Some (merged p b).
Proof.
  intros (Ht & Ha & Hi & Hg & Hy) Hb.
  destruct (payload_lookup p) as (Lt & La & Li & Lg & Ly). cbv zeta in *.
  apply fields_some in Hb as ((t & Dt & Ct) & (a & Da & Ca) & (i & Di & Ci) &
                              (g & Dg & Cg) & (y & Dy & Cy)).
  apply fields_some. unfold merged. cbn.
  split_and!.
  - destruct (BookUpdate.title p) as [[v|]|]; cbn in Ht; try contradiction.
    + exists v. split; [|exact Ht]. now apply lookup_union_Some_l.
    + exists t. split; [|exact Ct]. now rewrite lookup_union_r.
  - destruct (BookUpdate.author p) as [[v|]|]; cbn in Ha; try contradiction.
    + exists v. split; [|exact Ha]. now apply lookup_union_Some_l.
    + exists a. split; [|exact Ca]. now rewrite lookup_union_r.
  - destruct (BookUpdate.ISBN p) as [[v|]|]; cbn in Hi; try contradiction.
    + exists v. split; [|exact Hi]. now apply lookup_union_Some_l.
    + exists i. split; [|exact Ci]. now rewrite lookup_union_r.
  - destruct (BookUpdate.genre p) as [[v|]|]; cbn in Hg; try contradiction.
    + exists v. split; [|exact Hg]. now apply lookup_union_Some_l.
    + exists g. split; [|exact Cg]. now rewrite lookup_union_r.
  - destruct (BookUpdate.publication_year p) as [[v|]|]; cbn in Hy; try contradiction.
    + exists v. split; [|exact Hy]. now apply lookup_union_Some_l.
    + exists y. split; [|exact Cy]. now rewrite lookup_union_r.
Qed.

Lemma dict_lookup_other (b : BookBase.t) (k : string) :
  ~ In k book_keys -> BookBase.dict b !! k = None.
Proof.
  unfold book_keys. cbn [In]. intros H. unfold BookBase.dict.
  rewrite !lookup_insert_ne by (intros <-; tauto). apply lookup_empty.
Qed.

(** Field by field: what the payload sets is what [merged] holds, the rest
    is what the book held. *)
Lemma merged_lookup (p : BookUpdate.t) (b : BookBase.t) (k : string) :
  payload_settled p ->
  match BookUpdate.dict_exclude_unset p !! k with
  | Some v => BookBase.dict (merged p b) !! k = Some v
  | None => BookBase.dict (merged p b) !! k = BookBase.dict b !! k
  end.
Proof.
  intros (Ht & Ha & Hi & Hg & Hy).
  destruct (payload_lookup p) as (Lt & La & Li & Lg & Ly). cbv zeta in *.
  destruct (decide (In k book_keys)) as [Hin|Hout].
  - unfold book_keys in Hin. cbn [In] in Hin.
    destruct Hin as [<-|[<-|[<-|[<-|[<-|[]]]]]].
    + rewrite Lt. unfold merged.
      destruct (BookUpdate.title p) as [[v|]|]; cbn in Ht; try contradiction; reflexivity.
    + rewrite La. unfold merged.
      destruct (BookUpdate.author p) as [[v|]|]; cbn in Ha; try contradiction; reflexivity.
    + rewrite Li. unfold merged.
      destruct (BookUpdate.ISBN p) as [[v|]|]; cbn in Hi; try contradiction; reflexivity.
    + rewrite Lg. unfold merged.
      destruct (BookUpdate.genre p) as [[v|]|]; cbn in Hg; try contradiction; reflexivity.
    + rewrite Ly. unfold merged.
      destruct (BookUpdate.publication_year p) as [[v|]|]; cbn in Hy; try contradiction;
        reflexivity.
  - rewrite (payload_no_id p k Hout). now rewrite !dict_lookup_other.
Qed.

Lemma replaced_lookup (pre post : list (gmap string value)) (d d' x : gmap string value)
    (i : nat) :
  (pre ++ d :: post) !! i = Some x ->
  exists x', (pre ++ d' :: post) !! i = Some x' /\
             (x' = x \/ (i = length pre /\ x = d /\ x' = d')).
Proof.
  intros H. destruct (lt_eq_lt_dec i (length pre)) as [[Hlt|Heq]|Hgt].
  - rewrite lookup_app_l in H |- * by exact Hlt. eauto.
  - subst i. rewrite list_lookup_middle in H |- * by reflexivity.
    injection H as <-. eauto 6.
  - rewrite lookup_app_r in H |- * by lia.
    destruct (i - length pre)%nat as [|n] eqn:E; [lia|]. cbn in H |- *. eauto.
Qed.

Lemma field_eq_index_key (f : option value) (v : value) :
  field_eq f v = bool_decide (default VNull f = v).
Proof.
  destruct v, f as [[]|]; cbn; try reflexivity;
    apply bool_decide_ext; split; congruence.
Qed.

Lemma no_conflict (isbn : value) (oid : ObjectId) (d0 : gmap string value)
    (pre post : list (gmap string value)) :
  Forall (fun x => index_key x <> isbn) (pre ++ post) ->
  d0 !! "_id"%string = Some (VOid oid) ->
  Forall (fun x => conflicts isbn oid x = false) (pre ++ d0 :: post).
Proof.
  intros Hfree Hid. apply Forall_app in Hfree as [Hpre Hpost].
  assert (forall x, index_key x <> isbn -> conflicts isbn oid x = false) as H.
  { intros x Hx. unfold conflicts. rewrite field_eq_index_key.
    fold (index_key x). now rewrite bool_decide_eq_false_2. }
  apply Forall_app. split; [eapply Forall_impl; eauto|].
  constructor; [|eapply Forall_impl; eauto].
  unfold conflicts. rewrite Hid. cbn [field_eq].
  rewrite (bool_decide_eq_true_2 (Some (VOid oid) = Some (VOid oid))) by reflexivity.
  apply andb_false_r.
Qed.

(** What an update does to the collection, whatever its payload and
    outcome: the documents keep their places, a field that the payload does
    not name keeps its value, and a document with another id is not
    touched. *)
Lemma update_frame (book_id : string) (oid : ObjectId) (d0 : gmap string value)
    (p : BookUpdate.t) (w w' : World) (r : outcome BookResponse.t) :
  ObjectIds.of_str book_id = Some oid ->
  List.find (has_id oid) (books w) = Some d0 ->
  update_book book_id p w = (r, w') ->
  length (books w') = length (books w) /\
  forall i d,
    books w !! i = Some d ->
    exists d',
      books w' !! i = Some d' /\
      (forall k, BookUpdate.dict_exclude_unset p !! k = None -> d' !! k = d !! k) /\
      (d !! "_id"%string <> Some (VOid oid) -> d' = d).
Proof.
  intros Hoid Hfind Hupd. destruct (find_has_id _ _ _ Hfind) as [Hid _].
  destruct (update_book_cases _ _ _ _ _ _ _ Hoid Hfind Hupd)
    as [(Hb & _)|[(Hb & _)|(_ & _ & pre & post & Hw & _ & Hw' & _)]].
  1,2: split; [now rewrite Hb|]; intros i d Hd; exists d; rewrite Hb; auto.
  split; [rewrite Hw, Hw', !length_app; reflexivity|].
  intros i d Hd. rewrite Hw in Hd. rewrite Hw'.
  destruct (replaced_lookup pre post d0 (BookUpdate.dict_exclude_unset p ∪ d0) d i Hd)
    as (d' & Hd' & [->|(_ & -> & ->)]).
  - exists d. auto.
  - eexists. split; [exact Hd'|]. split.
    + intros k Hk. now apply lookup_union_r.
    + intros Hne. contradiction.
Qed.

(** An update is accepted when the payload is valid, sets something, changes
    something, and names no ISBN that another document holds. *)
Lemma update_book_accepted (book_id : string) (oid : ObjectId) (d0 : gmap string value)
    (pre post : list (gmap string value)) (p : BookUpdate.t) (b : BookBase.t) (w : World) :
  ObjectIds.of_str book_id = Some oid ->
  books w = pre ++ d0 :: post ->
  Forall (fun x => has_id oid x = false) (pre ++ post) ->
  d0 !! "_id"%string = Some (VOid oid) ->
  BookBase.fields d0 = Some b ->
  payload_settled p ->
  BookUpdate.dict_exclude_unset p <> ∅ ->
  BookUpdate.dict_exclude_unset p ∪ d0 <> d0 ->
  (forall isbn, BookUpdate.dict_exclude_unset p !! "ISBN"%string = Some isbn ->
                Forall (fun x => index_key x <> isbn) (pre ++ post)) ->
  exists w',
    update_book book_id p w = (Ok (BookResponse.mk (merged p b) oid), w') /\
    books w' = pre ++ (BookUpdate.dict_exclude_unset p ∪ d0) :: post.
Proof.
  intros Hoid Hw Hothers Hid Hb Hset HU Hch Hfree.
  apply Forall_app in Hothers as Hpp. destruct Hpp as [Hpre Hpost].
  assert (List.find (has_id oid) (books w) = Some d0) as Hfind
    by (rewrite Hw; apply find_middle; [exact Hpre | now apply has_id_lookup]).
  destruct (split_first_find _ _ _ Hfind) as (pre' & post' & Hsplit & Hw2 & Hpre').
  assert (pre' = pre /\ post' = post) as [-> ->].
  { rewrite Hw in Hw2. clear -Hw2 Hpre Hpre' Hid.
    apply has_id_lookup in Hid.
    revert pre' Hw2 Hpre'. induction Hpre as [|x pre Hx _ IH]; intros pre' Hw2 Hpre'.
    - destruct pre' as [|y pre']; [now injection Hw2 as ->|].
      injection Hw2 as -> _. apply Forall_cons in Hpre' as [Hy _]. congruence.
    - destruct pre' as [|y pre'].
      + injection Hw2 as -> _. congruence.
      + injection Hw2 as -> Hw2. apply Forall_cons in Hpre' as [_ Hpre'].
        destruct (IH _ Hw2 Hpre') as [-> ->]. auto. }
  set (U := BookUpdate.dict_exclude_unset p) in *.
  assert (has_id oid (U ∪ d0) = true) as Hnew
    by (apply has_id_lookup; unfold U; now rewrite union_keeps_id).
  assert (response_of (U ∪ d0) = Ok (BookResponse.mk (merged p b) oid)) as Hresp.
  { apply response_of_fields; [now apply has_id_lookup | now apply merged_fields]. }
  assert (with_public_id (Some (U ∪ d0)) = Ok (delete "_id" (<["id" := VStr oid]> (U ∪ d0))))
    as Hpub by (unfold with_public_id, U; now rewrite union_keeps_id, Hid).
  unfold response_of in Hresp. rewrite Hpub in Hresp. cbn [outcome_bind] in Hresp.
  assert (unique_ISBN w && negb (bool_decide (index_key (U ∪ d0) = index_key d0)) &&
          existsb (fun x => bool_decide (index_key x = index_key (U ∪ d0))) (pre ++ post)
          = false) as Hindex.
  { destruct (U !! "ISBN"%string) as [isbn|] eqn:E.
    - rewrite existsb_none; [apply andb_false_r|].
      eapply Forall_impl; [exact (Hfree isbn eq_refl)|]. intros x Hx.
      apply bool_decide_eq_false. unfold index_key at 2.
      now rewrite (lookup_union_Some_l _ _ _ _ E).
    - assert (index_key (U ∪ d0) = index_key d0) as ->
        by (unfold index_key; f_equal; now apply lookup_union_r).
      rewrite (bool_decide_eq_true_2 _ eq_refl). cbn [negb].
      now rewrite andb_false_r. }
  assert (forall isbn, U !! "ISBN"%string = Some isbn ->
            List.find (conflicts isbn oid) (books w) = None) as Hfreefind.
  { intros isbn E. rewrite Hw. apply find_none, (no_conflict _ _ _ _ _ (Hfree isbn E) Hid). }
  unfold update_book, ObjectId_new.
  rewrite (is_valid_of_str _ _ Hoid), Hoid. cbn [negb]. run.
  rewrite find_one_id, Hfind.
  destruct (find_has_id _ _ _ Hfind) as [_ ->]. cbn [negb]. fold U.
  destruct (U !! "ISBN"%string) as [isbn|] eqn:E;
    [rewrite find_one_conflict; cbn [logged books];
     rewrite (Hfreefind isbn eq_refl); cbn [truthy]; run|].
  all: rewrite bool_decide_eq_false_2 by exact HU; run.
  all: erewrite (update_one_id _ _ _ _ _ _ HU) by (cbn [logged books]; exact Hsplit).
  all: rewrite bool_decide_eq_false_2 by exact Hch.
  all: cbn [logged books unique_ISBN ops]; rewrite Hindex; run.
  all: cbn [modified_count Z.eqb]; run; rewrite find_one_id; cbn [books logged].
  all: rewrite (find_middle (has_id oid) pre post (U ∪ d0) Hpre Hnew), Hpub, Hresp.
  all: eexists; split; reflexivity.
Qed.

(** X28: an update of a stored book leaves every field that the payload
    does not name as it was on the stored document, keeps the id, and
    touches no other document, whatever the payload and the answer; and
    with a payload that names no field with [null] a fetch afterwards
    shows the same id and the same values in all fields that the payload
    does not name, and, when the update was accepted, the payload's values
    in the fields that it names. *)
Theorem update_leaves_other_fields (book_id : string) (p : BookUpdate.t)
    (b : BookResponse.t) (w w0 w' : World) (r : outcome BookResponse.t) :
  get_book book_id w = (Ok b, w0) ->
  update_book book_id p w = (r, w') ->
  (length (books w') = length (books w) /\
   forall i d,
     books w !! i = Some d ->
     exists d',
       books w' !! i = Some d' /\
       (forall k, BookUpdate.dict_exclude_unset p !! k = None -> d' !! k = d !! k) /\
       (d !! "_id"%string <> Some (VOid (BookResponse.id b)) -> d' = d)) /\
  (forall raw,
     BookUpdate.new raw = Ok p ->
     (forall k, raw !! k <> Some VNull) ->
     exists b' w1,
       get_book book_id w' = (Ok b', w1) /\
       BookResponse.id b' = BookResponse.id b /\
       (forall k, BookUpdate.dict_exclude_unset p !! k = None ->
                  BookBase.dict (BookResponse.base b') !! k =
                  BookBase.dict (BookResponse.base b) !! k) /\
       (forall x, r = Ok x ->
                  x = b' /\
                  forall k v, BookUpdate.dict_exclude_unset p !! k = Some v ->
                              BookBase.dict (BookResponse.base b') !! k = Some v)).
Proof.
  intros Hget Hupd.
  destruct (get_book_ok_inv _ _ _ _ Hget) as (oid & d0 & Hoid & Hfind & Hresp).
  destruct (response_of_inv _ _ Hresp) as [Hid Hfields].
  destruct (find_has_id _ _ _ Hfind) as [Hid' _].
  assert (oid = BookResponse.id b) as Eoid by congruence.
  split; [rewrite <- Eoid; exact (update_frame _ _ _ _ _ _ _ Hoid Hfind Hupd)|].
  intros raw Hnew Hnull.
  pose proof (new_settled _ _ Hnew Hnull) as Hset.
  set (U := BookUpdate.dict_exclude_unset p) in *.
  assert (forall e msg, r = Raise (HTTPException e msg) -> books w' = books w ->
    exists b' w1, get_book book_id w' = (Ok b', w1) /\
      BookResponse.id b' = BookResponse.id b /\
      (forall k, U !! k = None ->
         BookBase.dict (BookResponse.base b') !! k = BookBase.dict (BookResponse.base b) !! k) /\
      (forall x, r = Ok x -> x = b' /\
         forall k v, U !! k = Some v -> BookBase.dict (BookResponse.base b') !! k = Some v))
    as Hsame.
  { intros e msg -> Hb.
    exists b, (logged w' [OpFindOne]). split_and!; auto; [|discriminate].
    rewrite (get_book_found book_id oid d0); [now rewrite Hresp | exact Hoid |].
    now rewrite Hb. }
  destruct (update_book_cases _ _ _ _ _ _ _ Hoid Hfind Hupd)
    as [(Hb & _ & (e & ->) & _)|[(Hb & _ & msg & ->)|(HU & Hch & pre & post & Hw & Hpre & Hw' & Hr)]];
    [eapply Hsame; eauto..|].
  fold U in HU, Hch, Hw', Hr.
  assert ((U ∪ d0) !! "_id"%string = Some (VOid oid)) as Hnewid
    by (unfold U; now rewrite union_keeps_id).
  assert (response_of (U ∪ d0) = Ok (BookResponse.mk (merged p (BookResponse.base b)) oid))
    as Hnewresp.
  { apply response_of_fields; [exact Hnewid|]. now apply merged_fields. }
  exists (BookResponse.mk (merged p (BookResponse.base b)) oid), (logged w' [OpFindOne]).
  split_and!.
  - rewrite (get_book_found book_id oid (U ∪ d0)); [now rewrite Hnewresp | exact Hoid |].
    rewrite Hw'. apply find_middle; [exact Hpre | now apply has_id_lookup].
  - exact Eoid.
  - intros k Hk. cbn [BookResponse.base].
    pose proof (merged_lookup p (BookResponse.base b) k Hset) as H.
    fold U in H. now rewrite Hk in H.
  - intros x Hx. rewrite Hr, Hnewresp in Hx. cbn [handled] in Hx. injection Hx as <-.
    split; [reflexivity|]. intros k v Hk. cbn [BookResponse.base].
    pose proof (merged_lookup p (BookResponse.base b) k Hset) as H.
    fold U in H. now rewrite Hk in H.
Qed.

Lemma update_leaves_other_fields_witness :
  BookUpdate.new retitle_request = Ok retitle /\
  fst (update_book dune_id retitle library) =
    Ok (BookResponse.mk (merged retitle dune) dune_id) /\
  exists b' w1,
    get_book dune_id (snd (update_book dune_id retitle library)) = (Ok b', w1) /\
    BookResponse.id b' = dune_id /\
    (forall k, BookUpdate.dict_exclude_unset retitle !! k = None ->
               BookBase.dict (BookResponse.base b') !! k = BookBase.dict dune !! k) /\
    (forall x, fst (update_book dune_id retitle library) = Ok x ->
               x = b' /\
               forall k v, BookUpdate.dict_exclude_unset retitle !! k = Some v ->
                           BookBase.dict (BookResponse.base b') !! k = Some v).
Proof.
  split; [reflexivity|]. split; [reflexivity|].
  apply (proj2 (update_leaves_other_fields dune_id retitle
           (BookResponse.mk dune dune_id) library (logged library [OpFindOne])
           (snd (update_book dune_id retitle library))
           (fst (update_book dune_id retitle library)) eq_refl eq_refl) retitle_request).
  - reflexivity.
  - intros k. unfold retitle_request.
    destruct (decide (k = "title"%string)) as [->|Hk].
    + rewrite lookup_singleton_eq. discriminate.
    + rewrite lookup_singleton_ne by congruence. discriminate.
Defined.

(** A payload that sets a field to [null] passes validation; the update
    stores the [null], and then fails to build its response. *)
Lemma update_null_genre_stored :
  BookUpdate.new {[ "genre"%string := VNull ]} = Ok null_genre /\
  update_book dune_id null_genre library =
    (Raise (HTTPException 500
              (DetailOf "Error updating book: " (ValidationError [("genre"%string, NoneNotAllowed)]))),
     mkWorld [<["genre" := VNull]> (stored dune dune_id)] true
             [OpFindOne; OpUpdateOne; OpFindOne]).
Proof. split; reflexivity. Qed.

(** C4 fails for the payload that names the genre with [null]: the payload
    passes the validation of [BookUpdate], the book is stored and can be
    fetched, the update writes the [null] over the genre and answers 500,
    and the fetch that follows answers 500 as well, where the claim has it
    show the book with its other fields unchanged. *)
Theorem update_null_genre_then_fetch_fails :
  BookUpdate.new {[ "genre"%string := VNull ]} = Ok null_genre /\
  fst (get_book dune_id library) = Ok (BookResponse.mk dune dune_id) /\
  fst (update_book dune_id null_genre library) =
    Raise (HTTPException 500
             (DetailOf "Error updating book: "
                (ValidationError [("genre"%string, NoneNotAllowed)]))) /\
  books (snd (update_book dune_id null_genre library)) =
    [<["genre" := VNull]> (stored dune dune_id)] /\
  fst (get_book dune_id (snd (update_book dune_id null_genre library))) =
    Raise (HTTPException 500
             (DetailOf "Error retrieving book: "
                (ValidationError [("genre"%string, NoneNotAllowed)]))).
Proof. split_and!; reflexivity. Qed.


(* ===================================================================== *)
(** * Counting by genre *)
(* ===================================================================== *)

(** The example of the specification, with the two groups of one book in
    the order in which they were met. *)
Lemma count_example_shelf :
  count_books_by_genre example_shelf =
  (Ok [("Fiction"%string, 3); ("Sci-Fi"%string, 1); ("Unknown"%string, 1)],
   logged example_shelf [OpAggregate]).
Proof. reflexivity. Qed.

(** The store promises no order among groups of equal count: in whatever
    order it returns them, the answer holds the same three entries, the
    largest group first. *)
Lemma count_example_shelf_any_order (out : list (value * Z)) :
  Permutation (group_count "genre" (books example_shelf)) out ->
  descending out ->
  format_counts out =
    Ok [("Fiction"%string, 3); ("Sci-Fi"%string, 1); ("Unknown"%string, 1)] \/
  format_counts out =
    Ok [("Fiction"%string, 3); ("Unknown"%string, 1); ("Sci-Fi"%string, 1)].
Proof.
  intros Hp Hs.
  change (group_count "genre" (books example_shelf))
    with [(VStr "Fiction", 3); (VStr "Sci-Fi", 1); (VNull, 1)] in Hp.
  pose proof (Permutation_length Hp) as Hlen.
  destruct out as [|a [|b [|c [|? ?]]]]; try discriminate Hlen.
  pose proof (Permutation_in _ (Permutation_sym Hp) (or_introl eq_refl)) as Ha.
  pose proof (Permutation_in _ (Permutation_sym Hp) (or_intror (or_introl eq_refl))) as Hb.
  pose proof (Permutation_in _ (Permutation_sym Hp)
                (or_intror (or_intror (or_introl eq_refl)))) as Hc.
  pose proof (Permutation_in _ Hp (or_introl eq_refl)) as H1.
  pose proof (Permutation_in _ Hp (or_intror (or_introl eq_refl))) as H2.
  pose proof (Permutation_in _ Hp (or_intror (or_intror (or_introl eq_refl)))) as H3.
  unfold descending in Hs. inversion Hs as [|? ? Hs' Hab]; subst.
  inversion Hs' as [|? ? _ Hbc]; subst.
  inversion Hab as [|? ? Hle1]; subst. inversion Hbc as [|? ? Hle2]; subst.
  cbn in Ha, Hb, Hc.
  destruct Ha as [<-|[<-|[<-|[]]]], Hb as [<-|[<-|[<-|[]]]], Hc as [<-|[<-|[<-|[]]]];
    cbn in Hle1, Hle2; try lia.
  all: first [ left; reflexivity | right; reflexivity
             | exfalso; cbn in H1, H2, H3; intuition discriminate ].
Qed.

(** C9 fails on a shelf with three books of genre "Unknown" and one book
    without a genre: the group of the books without a genre is written
    over the entry of the genre "Unknown", and the three books are lost
    from the counts. *)
Theorem count_unknown_shelf :
  group_count "genre" (books unknown_shelf) = [(VStr "Unknown", 3); (VNull, 1)] /\
  count_books_by_genre unknown_shelf =
  (Ok [("Unknown"%string, 1)], logged unknown_shelf [OpAggregate]).
Proof. split; reflexivity. Qed.

(** The same in whatever order the store returns groups of equal count. *)
Lemma count_unknown_shelf_any_order (out : list (value * Z)) :
  Permutation (group_count "genre" (books unknown_shelf)) out ->
  descending out ->
  format_counts out = Ok [("Unknown"%string, 1)].
Proof.
  intros Hp Hs.
  change (group_count "genre" (books unknown_shelf))
    with [(VStr "Unknown", 3); (VNull, 1)] in Hp.
  apply Permutation_length_2_inv in Hp as [-> | ->]; [reflexivity|].
  exfalso. unfold descending in Hs. inversion Hs as [|? ? _ Hh]; subst.
  inversion Hh as [|? ? Hle]; subst. cbn in Hle. lia.
Qed.

(** ** Counting without a collision *)

Lemma count_in_bump (k k' : value) (acc : list (value * Z)) :
  count_in k' (bump k acc) = count_in k' acc + (if bool_decide (k = k') then 1 else 0).
Proof.
  induction acc as [|[x n] acc IH]; cbn [bump count_in].
  - repeat case_bool_decide; congruence || lia.
  - destruct (bool_decide (k = x)) eqn:E.
    + apply bool_decide_eq_true in E as <-. cbn [count_in].
      repeat case_bool_decide; congruence || lia.
    + apply bool_decide_eq_false in E. cbn [count_in].
      destruct (bool_decide (x = k')) eqn:E'; [|exact IH].
      apply bool_decide_eq_true in E' as <-.
      rewrite bool_decide_eq_false_2 by exact E. lia.
Qed.

Lemma keys_bump (k : value) (acc : list (value * Z)) :
  map fst (bump k acc) = map fst acc ++ (if bool_decide (k ∈ map fst acc) then [] else [k]).
Proof.
  induction acc as [|[x n] acc IH]; cbn [bump map fst].
  - rewrite bool_decide_eq_false_2 by apply not_elem_of_nil. reflexivity.
  - destruct (bool_decide (k = x)) eqn:E; cbn [map fst].
    + apply bool_decide_eq_true in E as <-.
      rewrite bool_decide_eq_true_2 by (apply elem_of_cons; auto). now rewrite app_nil_r.
    + apply bool_decide_eq_false in E. rewrite IH. cbn [app]. f_equal. f_equal.
      rewrite (bool_decide_ext (k ∈ x :: map fst acc) (k ∈ map fst acc)); [reflexivity|].
      rewrite elem_of_cons. tauto.
Qed.

Lemma NoDup_bump (k : value) (acc : list (value * Z)) :
  NoDup (map fst acc) -> NoDup (map fst (bump k acc)).
Proof.
  intros H. rewrite keys_bump. case_bool_decide as E; [now rewrite app_nil_r|].
  apply NoDup_app. split_and!; [exact H | | apply NoDup_singleton].
  intros x Hx Hx'. apply list_elem_of_singleton in Hx' as ->. contradiction.
Qed.

Lemma group_count_snoc (f : string) (l : list (gmap string value)) (d : gmap string value) :
  group_count f (l ++ [d]) = bump (default VNull (d !! f)) (group_count f l).
Proof. unfold group_count. now rewrite fold_left_app. Qed.

Lemma occurrences_snoc (k : value) (l : list (gmap string value)) (d : gmap string value) :
  occurrences k (l ++ [d]) = occurrences k l + (if bool_decide (genre_key d = k) then 1 else 0).
Proof.
  unfold occurrences. rewrite List.filter_app, length_app. cbn [List.filter].
  destruct (bool_decide (genre_key d = k)); cbn [length]; lia.
Qed.

(** The groups: one entry per key, in it the number of documents with
    that key. *)
Lemma group_count_spec (l : list (gmap string value)) :
  NoDup (map fst (group_count "genre" l)) /\
  (forall k, count_in k (group_count "genre" l) = occurrences k l) /\
  (forall k, k ∈ map fst (group_count "genre" l) <-> k ∈ map genre_key l).
Proof.
  induction l as [|d l (IH1 & IH2 & IH3)] using rev_ind.
  - split_and!; [constructor | reflexivity | reflexivity].
  - rewrite group_count_snoc. fold (genre_key d). split_and!.
    + now apply NoDup_bump.
    + intros k. now rewrite count_in_bump, occurrences_snoc, IH2.
    + intros k. rewrite keys_bump, map_app, !elem_of_app, IH3. cbn [map].
      rewrite list_elem_of_singleton.
      case_bool_decide as E.
      * rewrite elem_of_nil. apply IH3 in E. split; [tauto|]. intros [?| ->]; auto.
      * rewrite list_elem_of_singleton. tauto.
Qed.

Lemma count_in_entry (k : value) (n : Z) (acc : list (value * Z)) :
  NoDup (map fst acc) -> (k, n) ∈ acc -> count_in k acc = n.
Proof.
  induction acc as [|[x m] acc IH]; cbn [map fst count_in].
  - intros _ H. now apply elem_of_nil in H.
  - rewrite NoDup_cons. intros [Hx Hnd] Hin. apply elem_of_cons in Hin as [[= <- <-]|Hin].
    + now rewrite bool_decide_eq_true_2.
    + rewrite bool_decide_eq_false_2; [now apply IH|].
      intros ->. apply Hx. apply list_elem_of_fmap. exists (k, n). auto.
Qed.

Lemma insert_desc_perm (x : value * Z) (l : list (value * Z)) :
  Permutation (insert_desc x l) (x :: l).
Proof.
  induction l as [|y l IH]; cbn [insert_desc]; [reflexivity|].
  destruct (snd y <=? snd x); [reflexivity|].
  rewrite IH. apply perm_swap.
Qed.

Lemma sort_desc_perm (l : list (value * Z)) : Permutation (sort_desc l) l.
Proof.
  unfold sort_desc. induction l as [|x l IH]; cbn [foldr]; [reflexivity|].
  now rewrite insert_desc_perm, IH.
Qed.

Lemma insert_desc_sorted (x : value * Z) (l : list (value * Z)) :
  descending l -> descending (insert_desc x l).
Proof.
  unfold descending. induction 1 as [|y l Hs IH Hh]; cbn [insert_desc].
  - repeat constructor.
  - destruct (Z.leb_spec (snd y) (snd x)) as [Hle|Hgt].
    + repeat constructor; assumption.
    + constructor; [exact IH|].
      destruct Hh as [|z l Hz]; cbn [insert_desc].
      * constructor. lia.
      * destruct (snd z <=? snd x); constructor; lia || assumption.
Qed.

Lemma sort_desc_sorted (l : list (value * Z)) : descending (sort_desc l).
Proof.
  unfold sort_desc. induction l as [|x l IH]; cbn [foldr]; [constructor|].
  now apply insert_desc_sorted.
Qed.

Lemma dict_set_new (g : string) (n : Z) (result : list (string * Z)) :
  g ∉ map fst result -> dict_set g n result = result ++ [(g, n)].
Proof.
  induction result as [|[x m] result IH]; cbn [dict_set map fst app]; [reflexivity|].
  rewrite not_elem_of_cons. intros [Hx Hr].
  destruct (String.eqb_spec g x); [contradiction|]. now rewrite IH.
Qed.

Lemma genre_name_plain (k : value) : plain_genre k -> genre_name k = Ok (key_name k).
Proof. intros [->|(s & -> & _ & _)]; reflexivity. Qed.

Lemma format_counts_from (out : list (value * Z)) (result : list (string * Z)) :
  Forall (fun item => plain_genre (fst item)) out ->
  NoDup (map fst result ++ map (fun item => key_name (fst item)) out) ->
  fold_left (fun acc item =>
      outcome_bind acc (fun result =>
      outcome_bind (genre_name (fst item)) (fun genre =>
      Ok (dict_set genre (snd item) result))))
    out (Ok result) = Ok (result ++ map named out).
Proof.
  revert result. induction out as [|item out IH]; intros result Hp Hnd.
  - cbn. now rewrite app_nil_r.
  - apply Forall_cons in Hp as [Hk Hp]. cbn [fold_left outcome_bind].
    rewrite (genre_name_plain _ Hk). cbn [outcome_bind].
    cbn [map] in Hnd. apply NoDup_app in Hnd as Hnd'. destruct Hnd' as (_ & Hdisj & _).
    rewrite dict_set_new by (intros Hin; apply (Hdisj _ Hin); apply elem_of_cons; auto).
    rewrite IH; [|exact Hp|].
    + cbn [map]. now rewrite <- app_assoc.
    + rewrite map_app. cbn [map fst]. rewrite <- app_assoc. exact Hnd.
Qed.

Lemma key_name_inj (k k' : value) :
  plain_genre k -> plain_genre k' -> key_name k = key_name k' -> k = k'.
Proof.
  intros [->|(s & -> & Hs & Hu)] [->|(s' & -> & Hs' & Hu')]; cbn [key_name].
  - reflexivity.
  - destruct (String.eqb_spec s' ""); [contradiction | congruence].
  - destruct (String.eqb_spec s ""); [contradiction | congruence].
  - destruct (String.eqb_spec s ""), (String.eqb_spec s' ""); congruence.
Qed.

Lemma NoDup_map_on {A B} (f : A -> B) (l : list A) :
  NoDup l ->
  (forall x y, x ∈ l -> y ∈ l -> f x = f y -> x = y) ->
  NoDup (map f l).
Proof.
  induction 1 as [|x l Hx Hnd IH]; intros Hinj; cbn [map]; [constructor|].
  apply NoDup_cons. split.
  - intros Hin. apply list_elem_of_fmap in Hin as (y & Hxy & Hy).
    apply Hinj in Hxy; [congruence | apply elem_of_cons; auto | apply elem_of_cons; auto].
  - apply IH. intros a b Ha Hb. apply Hinj; apply elem_of_cons; auto.
Qed.

Lemma descending_named (l : list (value * Z)) :
  descending l -> Sorted (fun x y : string * Z => snd y <= snd x) (map named l).
Proof.
  unfold descending. induction 1 as [|x l Hs IH Hh]; cbn [map]; constructor; [exact IH|].
  destruct Hh; cbn [map]; constructor. assumption.
Qed.

Lemma occurrences_books_with (k : value) (l : list (gmap string value)) :
  plain_genre k ->
  Forall (fun d => plain_genre (genre_key d)) l ->
  occurrences k l = books_with (key_name k) l.
Proof.
  intros Hk Hl. unfold occurrences, books_with. f_equal. f_equal.
  apply List.filter_ext_in. intros d Hd.
  rewrite Forall_forall in Hl. apply list_elem_of_In, Hl in Hd.
  destruct (String.eqb_spec (key_name (genre_key d)) (key_name k)) as [E|E].
  - apply bool_decide_eq_true. now apply key_name_inj.
  - apply bool_decide_eq_false. congruence.
Qed.

Lemma occurrences_pos (k : value) (l : list (gmap string value)) :
  k ∈ map genre_key l -> 0 < occurrences k l.
Proof.
  intros Hin. apply list_elem_of_fmap in Hin as (d & -> & Hd).
  unfold occurrences. apply list_elem_of_In in Hd.
  assert (In d (List.filter (fun d' => bool_decide (genre_key d' = genre_key d)) l)) as H
    by (apply filter_In; split; [exact Hd | now apply bool_decide_eq_true]).
  destruct (List.filter _ l); [destruct H | cbn [length]; lia].
Qed.

Lemma books_with_pos (g : string) (l : list (gmap string value)) :
  0 < books_with g l -> exists d, d ∈ l /\ key_name (genre_key d) = g.
Proof.
  unfold books_with. intros H.
  destruct (List.filter _ l) as [|d f] eqn:E; [cbn in H; lia|].
  assert (In d (List.filter (fun d => String.eqb (key_name (genre_key d)) g) l)) as Hd
    by (rewrite E; left; reflexivity).
  apply filter_In in Hd as [Hd Hg]. exists d. split; [now apply list_elem_of_In|].
  now apply String.eqb_eq.
Qed.

(** Where no genre can be taken for the sentinel, the handler returns, in
    descending order of count, one entry per genre name with the number of
    books under that name, the books without a genre under "Unknown". *)
Lemma count_by_genre_plain (w : World) :
  Forall (fun d => plain_genre (genre_key d)) (books w) ->
  exists result,
    count_books_by_genre w = (Ok result, logged w [OpAggregate]) /\
    Sorted (fun x y : string * Z => snd y <= snd x) result /\
    NoDup (map fst result) /\
    forall g n, (g, n) ∈ result <-> 0 < n /\ n = books_with g (books w).
Proof.
  intros Hplain.
  destruct (group_count_spec (books w)) as (Hnd & Hcount & Hkeys).
  set (groups := group_count "genre" (books w)) in *.
  pose proof (sort_desc_perm groups) as Hperm.
  assert (forall k, k ∈ map fst groups -> plain_genre k) as Hgk.
  { intros k Hk. apply Hkeys, list_elem_of_fmap in Hk as (d & -> & Hd).
    rewrite Forall_forall in Hplain. now apply Hplain. }
  assert (forall item, item ∈ sort_desc groups -> plain_genre (fst item)) as Hsk.
  { intros item Hin. apply Hgk. rewrite <- Hperm. now apply list_elem_of_fmap_2. }
  assert (NoDup (map fst (sort_desc groups))) as Hnds by now rewrite Hperm.
  assert (NoDup (map (fun item : value * Z => key_name (fst item)) (sort_desc groups))) as Hndn.
  { rewrite <- (map_map fst key_name). apply NoDup_map_on; [exact Hnds|].
    intros x y Hx Hy. apply key_name_inj; apply Hgk; now rewrite <- Hperm. }
  exists (map named (sort_desc groups)). split_and!.
  - unfold count_books_by_genre, aggregate. run. cbn [books]. fold groups.
    unfold format_counts.
    rewrite (format_counts_from (sort_desc groups) []); [reflexivity | | exact Hndn].
    apply Forall_forall. exact Hsk.
  - apply descending_named, sort_desc_sorted.
  - rewrite map_map. exact Hndn.
  - intros g n. split.
    + intros Hin. apply list_elem_of_fmap in Hin as ([k m] & [= -> ->] & Hin).
      cbn [fst snd]. rewrite Hperm in Hin.
      assert (k ∈ map fst groups) as Hk by (apply list_elem_of_fmap; exists (k, m); auto).
      rewrite <- (count_in_entry k m groups Hnd Hin), Hcount.
      split; [now apply occurrences_pos, Hkeys|].
      apply occurrences_books_with; [now apply Hgk | exact Hplain].
    + intros [Hpos ->]. destruct (books_with_pos _ _ Hpos) as (d & Hd & <-).
      assert (genre_key d ∈ map fst groups) as Hk
        by (apply Hkeys; now apply list_elem_of_fmap_2).
      apply list_elem_of_fmap in Hk as ([k m] & Ek & Hin). cbn [fst] in Ek. subst k.
      apply list_elem_of_fmap. exists (genre_key d, m). split; [|now rewrite Hperm].
      unfold named. cbn [fst snd]. f_equal.
      rewrite <- (count_in_entry _ m groups Hnd Hin), Hcount. symmetry.
      apply occurrences_books_with; [apply Hgk; apply list_elem_of_fmap; exists (genre_key d, m); auto | exact Hplain].
Qed.

(* ===================================================================== *)
(** * Further properties: the validation layer *)
(* ===================================================================== *)

Lemma to_of_list_ascii (l : list ascii) :
  list_ascii_of_string (string_of_list_ascii l) = l.
Proof. apply list_ascii_of_string_of_list_ascii. Qed.

Lemma lstrip_nil (l : list ascii) : PyStr.lstrip l = [] <-> forallb PyStr.isspace l = true.
Proof.
  induction l as [|c l IH]; cbn [PyStr.lstrip forallb]; [tauto|].
  destruct (PyStr.isspace c); cbn [andb]; [exact IH | split; discriminate].
Qed.

Lemma rstrip_cons (c : ascii) (l : list ascii) :
  PyStr.isspace c = false -> PyStr.rstrip (c :: l) = c :: PyStr.rstrip l.
Proof.
  intros Hc. unfold PyStr.rstrip. cbn [rev].
  rewrite (lstrip_snoc _ _ Hc), rev_app_distr. reflexivity.
Qed.

Lemma strip_chars_nil (l : list ascii) :
  PyStr.strip_chars l = [] <-> forallb PyStr.isspace l = true.
Proof.
  rewrite <- lstrip_nil. unfold PyStr.strip_chars.
  pose proof (lstrip_clean l) as Hc.
  destruct (PyStr.lstrip l) as [|c l']; [split; reflexivity|].
  cbn [left_clean] in Hc. rewrite (rstrip_cons _ _ Hc). split; discriminate.
Qed.

Lemma strip_empty (v : string) : PyStr.strip v = EmptyString <-> all_space v = true.
Proof.
  unfold PyStr.strip, all_space. rewrite <- strip_chars_nil.
  destruct (PyStr.strip_chars (list_ascii_of_string v)); cbn; split; congruence.
Qed.

Lemma strip_trimmed (v : string) : trimmed (PyStr.strip v).
Proof.
  unfold trimmed, PyStr.strip. rewrite to_of_list_ascii. split.
  - apply rstrip_clean, lstrip_clean.
  - unfold PyStr.strip_chars, PyStr.rstrip. rewrite rev_involutive. apply lstrip_clean.
Qed.

(** X1: the validator of title, author and genre, on create and on update,
    rejects exactly the values made of white space only (the empty one
    included); every other value is accepted and kept trimmed: not empty,
    and with no white space at either end. *)
Theorem validate_strings_whitespace (v : string) :
  (BookBase.validate_strings v =
     Fail (ValueError "Field cannot be empty or just whitespace") <-> all_space v = true) /\
  (BookUpdate.validate_strings (Some v) =
     Fail (ValueError "Field cannot be empty or just whitespace") <-> all_space v = true) /\
  (all_space v = false <->
     BookBase.validate_strings v = Pass (PyStr.strip v) /\
     BookUpdate.validate_strings (Some v) = Pass (Some (PyStr.strip v)) /\
     PyStr.strip v <> EmptyString /\ trimmed (PyStr.strip v)).
Proof.
  unfold BookBase.validate_strings, BookUpdate.validate_strings.
  pose proof (strip_empty v) as He. pose proof (strip_trimmed v) as Ht.
  destruct (String.eqb_spec (PyStr.strip v) "") as [E|E].
  - assert (all_space v = true) as Ha by now apply He.
    split_and!; [tauto | tauto |]. rewrite Ha. split; [discriminate|].
    intros (H & _). discriminate.
  - assert (all_space v = false) as Ha.
    { destruct (all_space v); [|reflexivity]. exfalso. apply E. now apply He. }
    rewrite Ha. split_and!; try (split; discriminate). tauto.
Qed.

(** The verdict of a field of [BookUpdate], from the verdict of [BookBase]. *)
Lemma optional_str_given (lo hi : Z) (s : string) (d : gmap string value) (k : string)
    (create : string -> check string) (update : option string -> check (option string)) :
  (forall s', update (Some s') = check_bind (create s') (fun v => Pass (Some v))) ->
  BookUpdate.optional_str lo hi update (<[k := VStr s]> d) k =
  check_bind (check_bind (constr_length lo hi s) create) (fun v => Pass (Some (Some v))).
Proof.
  intros H. unfold BookUpdate.optional_str. rewrite lookup_insert_eq.
  destruct (constr_length lo hi s) as [s'| |]; cbn [check_bind]; try reflexivity.
  rewrite H. destruct (create s'); reflexivity.
Qed.

Lemma update_strings_same (s : string) :
  BookUpdate.validate_strings (Some s) =
  check_bind (BookBase.validate_strings s) (fun v => Pass (Some v)).
Proof.
  unfold BookUpdate.validate_strings, BookBase.validate_strings.
  destruct (String.eqb (PyStr.strip s) ""); reflexivity.
Qed.

Lemma update_isbn_same (s : string) :
  BookUpdate.validate_isbn (Some s) =
  check_bind (BookBase.validate_isbn s) (fun v => Pass (Some v)).
Proof.
  unfold BookUpdate.validate_isbn, BookBase.validate_isbn.
  repeat case_match; reflexivity.
Qed.

(** X2: a field that an update names with a value gets the verdict that
    the same value gets in a new book, reason of rejection included; this
    holds for all five fields. *)
Theorem update_checks_as_create (s : string) (z : Z) (d : gmap string value) :
  BookUpdate.field_title (<["title" := VStr s]> d) =
    check_bind (BookBase.check_title s) (fun v => Pass (Some (Some v))) /\
  BookUpdate.field_author (<["author" := VStr s]> d) =
    check_bind (BookBase.check_author s) (fun v => Pass (Some (Some v))) /\
  BookUpdate.field_ISBN (<["ISBN" := VStr s]> d) =
    check_bind (BookBase.check_ISBN s) (fun v => Pass (Some (Some v))) /\
  BookUpdate.field_genre (<["genre" := VStr s]> d) =
    check_bind (BookBase.check_genre s) (fun v => Pass (Some (Some v))) /\
  BookUpdate.field_publication_year (<["publication_year" := VInt z]> d) =
    check_bind (BookBase.check_publication_year z) (fun v => Pass (Some (Some v))).
Proof.
  unfold BookUpdate.field_title, BookUpdate.field_author, BookUpdate.field_ISBN,
    BookUpdate.field_genre, BookBase.check_title, BookBase.check_author,
    BookBase.check_ISBN, BookBase.check_genre.
  split_and!; try (apply optional_str_given; first [apply update_strings_same | apply update_isbn_same]).
  unfold BookUpdate.field_publication_year, BookUpdate.optional_int,
    BookBase.check_publication_year.
  now rewrite lookup_insert_eq.
Qed.

(** A set of fields that passes the checks obeys the entity rules. *)
Lemma fields_rules (d : gmap string value) (b : BookBase.t) :
  BookBase.fields d = Some b -> book_rules b.
Proof.
  intros H. apply fields_some in H
    as ((t & _ & Ht) & (a & _ & Ha) & (i & _ & Hi) & (g & _ & Hg) & (y & _ & Hy)).
  unfold book_rules.
  assert (forall hi v v',
    check_bind (constr_length 1 hi v) BookBase.validate_strings = Pass v' ->
    1 <= PyStr.len v' <= hi /\ trimmed v') as Hstr.
  { intros hi v v' Hv. apply bounded_string_pass in Hv as (Hlen & Hne & ->).
    split; [|apply strip_trimmed].
    split; [now apply len_pos | pose proof (strip_len v); lia]. }
  pose proof (Hstr 200 _ _ Ht) as Rt. pose proof (Hstr 100 _ _ Ha) as Ra.
  pose proof (Hstr 50 _ _ Hg) as Rg.
  unfold BookBase.check_ISBN in Hi. apply check_bind_pass in Hi as (s & Hs & Hv).
  apply constr_length_pass in Hs as [Hlen ->]. apply validate_isbn_pass in Hv as [Hv Hi].
  unfold BookBase.check_publication_year in Hy. apply number_range_pass in Hy as [Hr Hy].
  rewrite Hi, Hy. tauto.
Qed.

Ltac run_in H :=
  cbv beta iota zeta delta
    [mbind M_bind mret M_ret sent lift get_books put_books has_unique_ISBN raise
     try_except reraise_or_wrap wrap outcome_bind] in H.

Lemma mapM_ok {A B} (f : A -> outcome B) (l : list A) (rs : list B) :
  outcome_mapM f l = Ok rs <-> Forall2 (fun a b => f a = Ok b) l rs.
Proof.
  revert rs. induction l as [|a l IH]; intros rs; cbn [outcome_mapM].
  - split; [intros [= <-]; constructor | inversion 1; reflexivity].
  - destruct (f a) as [b| |] eqn:E; cbn [outcome_bind].
    + destruct (outcome_mapM f l) as [bs| |]; cbn [outcome_bind].
      * split.
        -- intros [= <-]. constructor; [exact E | now apply IH].
        -- inversion 1 as [|? b' ? bs' Hb Hbs]; subst.
           apply IH in Hbs. congruence.
      * split; [discriminate|]. inversion 1 as [|? ? ? bs' _ Hbs]; subst.
        apply IH in Hbs. discriminate.
      * split; [discriminate|]. inversion 1 as [|? ? ? bs' _ Hbs]; subst.
        apply IH in Hbs. discriminate.
    + split; [discriminate|]. inversion 1; congruence.
    + split; [discriminate|]. inversion 1; congruence.
Qed.

Lemma new_rules (d : gmap string value) (r : BookResponse.t) :
  BookResponse.new d = Ok r -> book_rules (BookResponse.base r).
Proof.
  unfold BookResponse.new. destruct (BookBase.fields d) as [b|] eqn:E.
  - destruct (BookResponse.field_id d); try (destruct (_ || _); discriminate).
    intros [= <-]. now apply fields_rules in E.
  - destruct (_ || _); discriminate.
Qed.

(** A list of responses has one response per document, each within the
    entity rules. *)
Lemma responses_ok (l : list (gmap string value)) (rs : list BookResponse.t) :
  responses l = Ok rs ->
  length rs = length l /\ Forall (fun r => book_rules (BookResponse.base r)) rs.
Proof.
  unfold responses.
  destruct (outcome_mapM (fun b => with_public_id (Some b)) l) as [ds| |] eqn:E;
    cbn [outcome_bind]; try discriminate.
  intros H. apply mapM_ok in E, H. split.
  - apply Forall2_length in E, H. congruence.
  - clear E. induction H as [|d r ds rs Hr _ IH]; constructor; [|exact IH].
    now apply new_rules in Hr.
Qed.

(** X3: whatever book [get_book], [create_book] or [update_book] returns
    obeys the entity rules: title, author and genre trimmed, not empty and
    within 200, 100 and 50 characters; an ISBN of 10 to 17 characters that
    passes the validator; a year from 1000 to 2024. *)
Theorem returned_book_obeys_rules (book_id : string) (b : BookBase.t) (oid : ObjectId)
    (p : BookUpdate.t) (w w' : World) (r : BookResponse.t) :
  get_book book_id w = (Ok r, w') \/
  create_book b oid w = (Ok r, w') \/
  update_book book_id p w = (Ok r, w') ->
  book_rules (BookResponse.base r).
Proof.
  intros [H|[H|H]].
  - unfold get_book in H. run_in H.
    repeat (case_match; try discriminate); simplify_eq; eauto using new_rules.
  - unfold create_book in H. run_in H.
    repeat (case_match; try discriminate); simplify_eq; eauto using new_rules.
  - unfold update_book in H. run_in H.
    repeat (case_match; try discriminate); simplify_eq; eauto using new_rules.
Qed.

Lemma returned_book_obeys_rules_witness :
  book_rules (BookResponse.base (BookResponse.mk dune dune_id)).
Proof.
  apply (returned_book_obeys_rules dune_id dune dune_id empty_update library
           (logged library [OpFindOne]) (BookResponse.mk dune dune_id)).
  left. reflexivity.
Defined.

(* ===================================================================== *)
(** * Further properties: lists and pages *)
(* ===================================================================== *)

Lemma find_ok_inv (q : query) (skip limit : Z) (w w' : World) (l : list (gmap string value)) :
  find q skip limit w = (Ok l, w') ->
  0 <= skip /\ 1 <= limit /\ w' = logged w [OpFind] /\
  exists cq, compile_query q = Ok cq /\
             l = page skip limit (List.filter (matches cq) (books w)).
Proof.
  unfold find. run. destruct (compile_query q) as [cq| |]; try discriminate.
  destruct (Z.ltb_spec skip 0); cbn [orb]; try discriminate.
  destruct (Z.ltb_spec limit 1); cbn [orb]; try discriminate.
  intros [= <- <-]. split_and!; try lia; [reflexivity|]. exists cq. auto.
Qed.

Lemma page_length (skip limit : Z) (l : list (gmap string value)) :
  1 <= limit -> Z.of_nat (length (page skip limit l)) <= limit.
Proof. intros H. unfold page. rewrite length_take. lia. Qed.

(** X4: a list that [get_all_books], [search_books] or [filter_books]
    returns never has more than [limit] books, and each of them obeys the
    entity rules. *)
Theorem listed_books_bounded (query : string) (genre : option string)
    (publication_year : option Z) (skip limit : Z) (w w' : World)
    (rs : list BookResponse.t) :
  get_all_books skip limit w = (Ok rs, w') \/
  search_books query skip limit w = (Ok rs, w') \/
  filter_books genre publication_year skip limit w = (Ok rs, w') ->
  Z.of_nat (length rs) <= limit /\
  Forall (fun r => book_rules (BookResponse.base r)) rs.
Proof.
  assert (forall q w1 l, find q skip limit w = (Ok l, w1) -> responses l = Ok rs ->
            Z.of_nat (length rs) <= limit /\
            Forall (fun r => book_rules (BookResponse.base r)) rs) as Hfind.
  { intros q w1 l Hf Hr. apply find_ok_inv in Hf as (_ & Hl & _ & cq & _ & ->).
    apply responses_ok in Hr as [Hlen Hrules]. split; [|exact Hrules].
    rewrite Hlen. now apply page_length. }
  intros [H|[H|H]].
  - unfold get_all_books in H. run_in H.
    repeat (case_match; try discriminate); simplify_eq; eauto.
  - unfold search_books in H. run_in H.
    repeat (case_match; try discriminate); simplify_eq; eauto.
  - unfold filter_books in H. run_in H.
    repeat (case_match; try discriminate); simplify_eq; eauto.
Qed.

Lemma listed_books_bounded_witness :
  Z.of_nat (length [BookResponse.mk dune dune_id]) <= 10 /\
  Forall (fun r => book_rules (BookResponse.base r)) [BookResponse.mk dune dune_id].
Proof.
  apply (listed_books_bounded "" None None 0 10 library (logged library [OpFind])
           [BookResponse.mk dune dune_id]).
  left. reflexivity.
Defined.

Lemma filter_all (l : list (gmap string value)) :
  List.filter (matches (KDict [])) l = l.
Proof. induction l as [|d l IH]; cbn; [reflexivity | now rewrite IH]. Qed.









Lemma responses_each (l : list (gmap string value)) (rs : list BookResponse.t) :
  responses l = Ok rs -> Forall (fun d => exists r, response_of d = Ok r) l.
Proof.
  unfold responses.
  destruct (outcome_mapM (fun b => with_public_id (Some b)) l) as [ds| |] eqn:E;
    cbn [outcome_bind]; try discriminate.
  intros H. apply mapM_ok in E, H. revert rs H.
  induction E as [|d d' l ds Hd _ IH]; intros rs H; [constructor|].
  inversion H as [|? r ? rs' Hr Hrs]; subst. constructor; [|now apply (IH rs')].
  exists r. unfold response_of. now rewrite Hd.
Qed.

(** X7: one stored document that cannot be shown as a book makes every
    page of the list that holds it fail as a whole: no list is returned. *)
Theorem get_all_books_spoiled (skip limit : Z) (w : World) (d : gmap string value)
    (rs : list BookResponse.t) :
  d ∈ page skip limit (books w) ->
  (forall r, response_of d <> Ok r) ->
  fst (get_all_books skip limit w) <> Ok rs.
Proof.
  intros Hd Hbad H.
  destruct (get_all_books skip limit w) as [o w'] eqn:E. cbn [fst] in H. subst o.
  unfold get_all_books in E. run_in E.
  destruct (find (QDict []) skip limit w) as [[l| |] w1] eqn:Ef; try discriminate.
  apply find_ok_inv in Ef as (_ & _ & _ & cq & [= <-] & ->).
  rewrite filter_all in E.
  destruct (responses (page skip limit (books w))) as [rs'| |] eqn:Er; try discriminate.
  apply responses_each in Er. rewrite Forall_forall in Er.
  destruct (Er d Hd) as (r & Hr). now apply (Hbad r).
Qed.

Lemma get_all_books_spoiled_witness :
  fst (get_all_books 0 10 (snd (update_book dune_id null_genre library))) <> Ok [].
Proof.
  apply (get_all_books_spoiled 0 10 (snd (update_book dune_id null_genre library))
           (<["genre" := VNull]> (stored dune dune_id)) []).
  - apply list_elem_of_singleton. reflexivity.
  - intros r. vm_compute. discriminate.
Defined.

(* ===================================================================== *)
(** * Further properties: identifiers *)
(* ===================================================================== *)

Lemma of_str_length (s : string) (oid : ObjectId) :
  ObjectIds.of_str s = Some oid -> String.length s = 24%nat.
Proof.
  unfold ObjectIds.of_str. destruct (Nat.eqb_spec (String.length s) 24); [auto | discriminate].
Qed.

(** X8: an id that is not well formed (any text that is not 24 characters
    long, for one) is refused with a 400 by [get_book], [update_book] and
    [delete_book] alike, and the world stays as it is. *)
Theorem malformed_id_refused (book_id : string) (p : BookUpdate.t) (w : World) :
  (String.length book_id <> 24%nat -> ObjectIds.is_valid book_id = false) /\
  (ObjectIds.is_valid book_id = false ->
   get_book book_id w = (Raise (HTTPException 400 (Detail "Invalid book ID format")), w) /\
   update_book book_id p w = (Raise (HTTPException 400 (Detail "Invalid book ID format")), w) /\
   delete_book book_id w = (Raise (HTTPException 400 (Detail "Invalid book ID format")), w)).
Proof.
  split.
  - intros Hlen. unfold ObjectIds.is_valid.
    destruct (ObjectIds.of_str book_id) eqn:E; [|reflexivity].
    now apply of_str_length in E.
  - intros H. unfold get_book, update_book, delete_book. rewrite H. auto.
Qed.

Lemma malformed_id_refused_witness :
  get_book "abc" library = (Raise (HTTPException 400 (Detail "Invalid book ID format")), library) /\
  update_book "abc" retitle library =
    (Raise (HTTPException 400 (Detail "Invalid book ID format")), library) /\
  delete_book "abc" library =
    (Raise (HTTPException 400 (Detail "Invalid book ID format")), library).
Proof.
  apply (malformed_id_refused "abc" retitle library).
  apply (malformed_id_refused "abc" retitle library). cbn. lia.
Defined.

Lemma hex_digit (c : ascii) :
  ObjectIds.is_hex c = true ->
  ObjectIds.is_ascii_space c = false /\
  PyStr.between 48 57 (ObjectIds.lower_hex c) || PyStr.between 97 102 (ObjectIds.lower_hex c) = true.
Proof.
  intros H. unfold ObjectIds.is_hex in H. unfold ObjectIds.is_ascii_space, ObjectIds.lower_hex.
  unfold PyStr.between, PyStr.ord in *.
  destruct ((65 <=? N_of_ascii c) && (N_of_ascii c <=? 70))%N eqn:Eu.
  - apply andb_true_iff in Eu as [E1 E2]. apply N.leb_le in E1, E2.
    rewrite N_ascii_embedding by lia.
    split;
      repeat match goal with
             | |- context [(?a <=? ?b)%N] => destruct (N.leb_spec a b)
             | |- context [(?a =? ?b)%N] => destruct (N.eqb_spec a b)
             end; cbn; try reflexivity; lia.
  - split;
      repeat match goal with
             | |- context [(?a <=? ?b)%N] => destruct (N.leb_spec a b)
             | |- context [(?a =? ?b)%N] => destruct (N.eqb_spec a b)
             | H : context [(?a <=? ?b)%N] |- _ => destruct (N.leb_spec a b)
             end; cbn in *; try discriminate; auto; lia.
Qed.

Lemma fromhex_hex (n : nat) (l : list ascii) :
  length l = (2 * n)%nat ->
  forallb ObjectIds.is_hex l = true ->
  ObjectIds.fromhex l = Some (map ObjectIds.lower_hex l).
Proof.
  revert l. induction n as [|n IH]; intros l Hlen Hl.
  - destruct l; [reflexivity | discriminate Hlen].
  - destruct l as [|c [|d l]]; try (simpl in Hlen; lia).
    cbn [forallb] in Hl. apply andb_true_iff in Hl as [Hc Hl].
    apply andb_true_iff in Hl as [Hd Hl].
    destruct (hex_digit c Hc) as (Hc1 & _).
    cbn [ObjectIds.fromhex map]. rewrite Hc1, Hc, Hd. cbn [andb].
    rewrite IH; [reflexivity | simpl in Hlen; lia | exact Hl].
Qed.

Lemma of_str_hex (s : string) :
  String.length s = 24%nat ->
  forallb ObjectIds.is_hex (list_ascii_of_string s) = true ->
  ObjectIds.of_str s = Some (lower_id s) /\ ObjectIds.canonical (lower_id s) = true.
Proof.
  intros Hlen Hhex. split.
  - unfold ObjectIds.of_str. rewrite Hlen. cbn [Nat.eqb].
    rewrite (fromhex_hex 12); [reflexivity | now rewrite length_to_list_ascii | exact Hhex].
  - unfold ObjectIds.canonical, lower_id.
    rewrite length_of_list_ascii, length_map, length_to_list_ascii, Hlen, to_of_list_ascii.
    cbn [Nat.eqb andb]. rewrite forallb_forall in Hhex |- *.
    intros c Hc. apply in_map_iff in Hc as (x & <- & Hx). now apply hex_digit, Hhex.
Qed.

Lemma same_id (s s' : string) (p : BookUpdate.t) (w : World) :
  ObjectIds.of_str s = ObjectIds.of_str s' ->
  get_book s w = get_book s' w /\
  update_book s p w = update_book s' p w /\
  delete_book s w = delete_book s' w.
Proof.
  intros H. unfold get_book, update_book, delete_book, ObjectId_new, ObjectIds.is_valid.
  now rewrite H.
Qed.

(** X9: the case of the hexadecimal letters of an id does not matter: an id
    of 24 hexadecimal digits and the same id in lower case name the same
    book for [get_book], [update_book] and [delete_book]. *)
Theorem id_case_ignored (book_id : string) (p : BookUpdate.t) (w : World) :
  String.length book_id = 24%nat ->
  forallb ObjectIds.is_hex (list_ascii_of_string book_id) = true ->
  ObjectIds.is_valid book_id = true /\
  get_book book_id w = get_book (lower_id book_id) w /\
  update_book book_id p w = update_book (lower_id book_id) p w /\
  delete_book book_id w = delete_book (lower_id book_id) w.
Proof.
  intros Hlen Hhex. destruct (of_str_hex _ Hlen Hhex) as [Hs Hc].
  split; [now apply (is_valid_of_str _ _ Hs)|].
  apply same_id. now rewrite Hs, (of_str_canonical _ Hc).
Qed.

Lemma id_case_ignored_witness :
  lower_id "507F1F77BCF86CD799439011" = dune_id /\
  get_book "507F1F77BCF86CD799439011" library = get_book dune_id library.
Proof.
  split; [reflexivity|].
  apply (id_case_ignored "507F1F77BCF86CD799439011" empty_update library); reflexivity.
Defined.

Lemma find_none_iff (oid : ObjectId) (l : list (gmap string value)) :
  List.find (has_id oid) l = None <-> Forall (fun d => d !! "_id"%string <> Some (VOid oid)) l.
Proof.
  split.
  - intros H. apply Forall_forall. intros d Hd Hid.
    apply list_elem_of_In in Hd. apply (List.find_none _ _ H) in Hd.
    apply has_id_lookup in Hid. congruence.
  - intros H. apply find_none. eapply Forall_impl; [exact H|]. intros d Hd.
    unfold has_id. now apply bool_decide_eq_false.
Qed.

(** X10: for a well-formed id, [get_book] answers 404 exactly when no
    stored document has that id. *)
Theorem get_book_not_found_iff (book_id : string) (oid : ObjectId) (w : World) :
  ObjectIds.of_str book_id = Some oid ->
  (fst (get_book book_id w) = Raise (HTTPException 404 (Detail "Book not found")) <->
   Forall (fun d => d !! "_id"%string <> Some (VOid oid)) (books w)).
Proof.
  intros Hoid. rewrite <- find_none_iff.
  destruct (List.find (has_id oid) (books w)) as [d|] eqn:E.
  - rewrite (get_book_found _ _ _ _ Hoid E). cbn [fst].
    split; [|discriminate]. destruct (response_of d); discriminate.
  - rewrite (get_book_missing _ _ _ Hoid E). cbn [fst]. tauto.
Qed.

Lemma get_book_not_found_iff_witness :
  fst (get_book messiah_id library) = Raise (HTTPException 404 (Detail "Book not found")) <->
  Forall (fun d => d !! "_id"%string <> Some (VOid messiah_id)) (books library).
Proof. apply (get_book_not_found_iff messiah_id messiah_id library). reflexivity. Defined.

(* ===================================================================== *)
(** * Further properties: deleting *)
(* ===================================================================== *)

Lemma split_first_some (p : gmap string value -> bool) (l pre post : list (gmap string value))
    (d : gmap string value) :
  split_first p l = Some (pre, d, post) ->
  l = pre ++ d :: post /\ p d = true /\ Forall (fun x => p x = false) pre.
Proof.
  revert pre. induction l as [|x l IH]; intros pre; cbn [split_first]; [discriminate|].
  destruct (p x) eqn:Hx.
  - intros [= <- <- <-]. auto.
  - destruct (split_first p l) as [[[pre' d'] post']|]; [|discriminate].
    intros [= <- <- <-]. destruct (IH pre' eq_refl) as (-> & Hd & Hpre). auto.
Qed.

Lemma split_first_none (p : gmap string value -> bool) (l : list (gmap string value)) :
  List.find p l = None -> split_first p l = None.
Proof.
  induction l as [|x l IH]; cbn; [reflexivity|].
  destruct (p x); [discriminate|]. intros H. now rewrite (IH H).
Qed.

Lemma split_first_middle (p : gmap string value -> bool) (pre post : list (gmap string value))
    (d : gmap string value) :
  Forall (fun x => p x = false) pre -> p d = true ->
  split_first p (pre ++ d :: post) = Some (pre, d, post).
Proof.
  intros Hpre Hd. induction Hpre as [|x pre Hx _ IH]; cbn; [now rewrite Hd|].
  now rewrite Hx, IH.
Qed.

Lemma delete_one_id (oid : ObjectId) (w : World) :
  delete_one (QDict [("_id"%string, CEq (VOid oid))]) w =
  match split_first (has_id oid) (books w) with
  | None => (Ok (mkDeleteResult 0), w)
  | Some (pre, _, post) =>
    (Ok (mkDeleteResult 1), mkWorld (pre ++ post) (unique_ISBN w) (ops w))
  end.
Proof.
  unfold delete_one, compile_query, compile_fields.
  cbn [outcome_mapM compile_cond snd fst]. run.
  rewrite (split_first_ext _ (has_id oid)).
  2: { intros x. cbn [matches matches_fields forallb holds fst snd field_eq].
       now rewrite andb_true_r. }
  destruct (split_first (has_id oid) (books w)) as [[[pre d] post]|]; reflexivity.
Qed.

Lemma delete_book_eq (book_id : string) (oid : ObjectId) (w : World) :
  ObjectIds.of_str book_id = Some oid ->
  delete_book book_id w =
  match split_first (has_id oid) (books w) with
  | None => (Raise (HTTPException 404 (Detail "Book not found")), w)
  | Some (pre, _, post) =>
    (Ok "Book deleted successfully"%string, mkWorld (pre ++ post) (unique_ISBN w) (ops w))
  end.
Proof.
  intros Hoid. unfold delete_book, ObjectId_new.
  rewrite (is_valid_of_str _ _ Hoid), Hoid. cbn [negb]. run. rewrite delete_one_id.
  destruct (split_first (has_id oid) (books w)) as [[[pre d] post]|]; reflexivity.
Qed.

(** X11: deleting by the id of a stored book takes the first document with
    that id out of the collection and nothing else: the documents before
    and after it stay, in their order. *)
Theorem delete_book_removes (book_id : string) (oid : ObjectId)
    (pre post : list (gmap string value)) (d : gmap string value) (w : World) :
  ObjectIds.of_str book_id = Some oid ->
  books w = pre ++ d :: post ->
  Forall (fun x => x !! "_id"%string <> Some (VOid oid)) pre ->
  d !! "_id"%string = Some (VOid oid) ->
  delete_book book_id w =
  (Ok "Book deleted successfully"%string, mkWorld (pre ++ post) (unique_ISBN w) (ops w)).
Proof.
  intros Hoid Hw Hpre Hd. rewrite (delete_book_eq _ _ _ Hoid), Hw.
  rewrite split_first_middle; [reflexivity| |now apply has_id_lookup].
  eapply Forall_impl; [exact Hpre|]. intros x Hx. unfold has_id. now apply bool_decide_eq_false.
Qed.

Lemma delete_book_removes_witness :
  delete_book dune_id library = (Ok "Book deleted successfully"%string, mkWorld [] true []).
Proof.
  apply (delete_book_removes dune_id dune_id [] [] (stored dune dune_id) library);
    [reflexivity | reflexivity | constructor | reflexivity].
Defined.

(** X12: deleting by a well-formed id that no stored document has is
    answered with 404, and only then; the world stays as it is. *)
Theorem delete_book_not_found_iff (book_id : string) (oid : ObjectId) (w : World) :
  ObjectIds.of_str book_id = Some oid ->
  (Forall (fun d => d !! "_id"%string <> Some (VOid oid)) (books w) ->
   delete_book book_id w = (Raise (HTTPException 404 (Detail "Book not found")), w)) /\
  (fst (delete_book book_id w) = Raise (HTTPException 404 (Detail "Book not found")) ->
   Forall (fun d => d !! "_id"%string <> Some (VOid oid)) (books w)).
Proof.
  intros Hoid. rewrite (delete_book_eq _ _ _ Hoid), <- find_none_iff. split.
  - intros H. now rewrite (split_first_none _ _ H).
  - destruct (List.find (has_id oid) (books w)) as [d|] eqn:E; [|reflexivity].
    destruct (split_first_find _ _ _ E) as (pre & post & -> & _). discriminate.
Qed.

Lemma delete_book_not_found_iff_witness :
  delete_book messiah_id library =
  (Raise (HTTPException 404 (Detail "Book not found")), library).
Proof.
  apply (delete_book_not_found_iff messiah_id messiah_id library); [reflexivity|].
  constructor; [vm_compute; discriminate | constructor].
Defined.

Lemma delete_book_ok_inv (book_id : string) (w w' : World) (m : string) :
  delete_book book_id w = (Ok m, w') ->
  exists oid pre d post,
    ObjectIds.of_str book_id = Some oid /\
    books w = pre ++ d :: post /\
    d !! "_id"%string = Some (VOid oid) /\
    Forall (fun x => has_id oid x = false) pre /\
    w' = mkWorld (pre ++ post) (unique_ISBN w) (ops w).
Proof.
  destruct (ObjectIds.of_str book_id) as [oid|] eqn:Hoid.
  - rewrite (delete_book_eq _ _ _ Hoid).
    destruct (split_first (has_id oid) (books w)) as [[[pre d] post]|] eqn:E; [|discriminate].
    intros [= <- <-]. apply split_first_some in E as (Hw & Hd & Hpre).
    exists oid, pre, d, post. split_and!; auto. now apply has_id_lookup.
  - unfold delete_book, ObjectIds.is_valid. rewrite Hoid. discriminate.
Qed.

Lemma NoDup_ids_rest (oid : ObjectId) (pre post : list (gmap string value))
    (d : gmap string value) :
  NoDup (map (fun x => x !! "_id"%string) (pre ++ d :: post)) ->
  d !! "_id"%string = Some (VOid oid) ->
  Forall (fun x => x !! "_id"%string <> Some (VOid oid)) (pre ++ post).
Proof.
  intros Hnd Hd. rewrite map_app in Hnd. cbn [map] in Hnd.
  apply NoDup_app in Hnd as (_ & Hdisj & Hnd). apply NoDup_cons in Hnd as [Hpost _].
  apply Forall_app. split; apply Forall_forall; intros x Hx Hid.
  - apply (Hdisj (x !! "_id"%string)); [now apply list_elem_of_fmap_2|].
    rewrite Hid, <- Hd. apply elem_of_cons. auto.
  - apply Hpost. rewrite Hd, <- Hid. now apply list_elem_of_fmap_2.
Qed.

(** X13: in a collection without two documents of the same id, a book that
    was deleted is gone: fetching it and deleting it again are both
    answered with 404. *)
Theorem deleted_book_is_gone (book_id : string) (w w' : World) (m : string) :
  NoDup (map (fun d => d !! "_id"%string) (books w)) ->
  delete_book book_id w = (Ok m, w') ->
  get_book book_id w' =
    (Raise (HTTPException 404 (Detail "Book not found")), logged w' [OpFindOne]) /\
  delete_book book_id w' = (Raise (HTTPException 404 (Detail "Book not found")), w').
Proof.
  intros Hnd H. apply delete_book_ok_inv in H as (oid & pre & d & post & Hoid & Hw & Hd & _ & ->).
  rewrite Hw in Hnd. pose proof (NoDup_ids_rest _ _ _ _ Hnd Hd) as Hrest.
  split.
  - apply get_book_missing with (oid := oid); [exact Hoid|]. cbn [books].
    now apply find_none_iff.
  - rewrite (delete_book_eq _ _ _ Hoid). cbn [books].
    rewrite split_first_none; [reflexivity | now apply find_none_iff].
Qed.

Lemma deleted_book_is_gone_witness :
  get_book dune_id (mkWorld [] true []) =
    (Raise (HTTPException 404 (Detail "Book not found")),
     logged (mkWorld [] true []) [OpFindOne]) /\
  delete_book dune_id (mkWorld [] true []) =
    (Raise (HTTPException 404 (Detail "Book not found")), mkWorld [] true []).
Proof.
  apply (deleted_book_is_gone dune_id library (mkWorld [] true []) "Book deleted successfully").
  - cbn. apply NoDup_singleton.
  - reflexivity.
Defined.

(** X14: creating a book and then deleting it by the id that was returned
    gives back the collection as it was. *)
Theorem create_then_delete (raw : gmap string value) (b : BookBase.t) (oid : ObjectId)
    (w : World) :
  BookCreate raw = Ok b ->
  ObjectIds.canonical oid = true ->
  Forall (fun d => d !! "_id"%string <> Some (VOid oid)) (books w) ->
  Forall (fun d => d !! "ISBN"%string <> Some (VStr (BookBase.ISBN b))) (books w) ->
  exists r w1 w2,
    create_book b oid w = (Ok r, w1) /\
    delete_book (BookResponse.id r) w1 = (Ok "Book deleted successfully"%string, w2) /\
    books w2 = books w.
Proof.
  intros Hraw Hoid Hfresh Hisbn. apply BookCreate_ok, fields_dict in Hraw.
  eexists. eexists. eexists. split; [now apply create_book_ok|].
  cbn [BookResponse.id]. rewrite (delete_book_eq _ _ _ (of_str_canonical _ Hoid)).
  cbn [books]. rewrite split_first_middle.
  - split; [reflexivity|]. cbn [books]. apply app_nil_r.
  - eapply Forall_impl; [exact Hfresh|]. intros x Hx. unfold has_id.
    now apply bool_decide_eq_false.
  - now apply has_id_lookup.
Qed.

Lemma create_then_delete_witness :
  exists r w1 w2,
    create_book messiah messiah_id library = (Ok r, w1) /\
    delete_book (BookResponse.id r) w1 = (Ok "Book deleted successfully"%string, w2) /\
    books w2 = books library.
Proof.
  apply (create_then_delete messiah_request messiah messiah_id library);
    [reflexivity | reflexivity | |];
    (constructor; [vm_compute; discriminate | constructor]).
Defined.

(* ===================================================================== *)
(** * Further properties: creating *)
(* ===================================================================== *)

Lemma existsb_false {A} (p : A -> bool) (l : list A) :
  existsb p l = false -> Forall (fun x => p x = false) l.
Proof.
  induction l as [|x l IH]; cbn; [constructor|].
  intros H. apply orb_false_iff in H as [Hx Hl]. constructor; auto.
Qed.

Lemma find_not_truthy (k : string) (v : value) (l : list (gmap string value)) :
  truthy (List.find (fun d => bool_decide (d !! k = Some v)) l) = false ->
  Forall (fun d => d !! k <> Some v) l.
Proof.
  destruct (List.find _ l) as [d|] eqn:E.
  - apply find_some in E as [_ Hd]. apply bool_decide_eq_true in Hd.
    cbn [truthy]. rewrite negb_false_iff, bool_decide_eq_true. intros ->.
    now rewrite lookup_empty in Hd.
  - intros _. apply Forall_forall. intros d Hd Hk. apply list_elem_of_In in Hd.
    apply (List.find_none _ _ E) in Hd. apply bool_decide_eq_false in Hd. contradiction.
Qed.

(** The two ways a create request can go: refused with the collection as it
    was, or the document appended to it. *)
Lemma create_book_cases (b : BookBase.t) (oid : ObjectId) (w w' : World)
    (r : outcome BookResponse.t) :
  create_book b oid w = (r, w') ->
  (books w' = books w /\ unique_ISBN w' = unique_ISBN w /\ exists e, r = Raise e) \/
  (books w' = books w ++ [stored b oid] /\ unique_ISBN w' = unique_ISBN w /\
   Forall (fun d => d !! "_id"%string <> Some (VOid oid)) (books w) /\
   Forall (fun d => d !! "ISBN"%string <> Some (VStr (BookBase.ISBN b))) (books w) /\
   r = handled "Error creating book: " (response_of (stored b oid))).
Proof.
  unfold create_book. run. rewrite find_one_eq by discriminate.
  destruct (truthy (List.find _ (books w))) eqn:Et; run.
  { intros [= <- <-]. left. cbn [logged books unique_ISBN]. eauto. }
  apply find_not_truthy in Et.
  unfold insert_one. run. cbn [logged books unique_ISBN ops]. fold (stored b oid).
  destruct (existsb (fun d => bool_decide (d !! "_id"%string = Some (VOid oid))) (books w))
    eqn:Eid; run.
  { intros [= <- <-]. left. cbn [books unique_ISBN]. eauto. }
  destruct (unique_ISBN w && _) eqn:Ekey; run.
  { intros [= <- <-]. left. cbn [books unique_ISBN]. eauto. }
  apply existsb_false in Eid.
  assert (Forall (fun d => d !! "_id"%string <> Some (VOid oid)) (books w)) as Hfresh.
  { eapply Forall_impl; [exact Eid|]. intros d Hd. now apply bool_decide_eq_false in Hd. }
  rewrite find_one_id. cbn [logged books unique_ISBN ops].
  destruct (stored_lookup b oid) as (Hsid & _ & _).
  rewrite find_snoc; [|now apply find_none_iff|now apply has_id_lookup].
  intros H. right. unfold handled, response_of.
  destruct (with_public_id (Some (stored b oid))) as [d| |]; cbn [outcome_bind].
  - destruct (BookResponse.new d) as [x|e|]; [|destruct e|]; injection H as <- <-;
      cbn [books unique_ISBN]; auto.
  - destruct e; injection H as <- <-; cbn [books unique_ISBN]; auto.
  - injection H as <- <-; cbn [books unique_ISBN]; auto.
Qed.

(** X15: a create request with a validated book is all or nothing: either
    the book is returned and its document is the new last document of the
    collection, or an error is raised and the collection is as it was. *)
Theorem create_book_all_or_nothing (raw : gmap string value) (b : BookBase.t)
    (oid : ObjectId) (w w' : World) (r : outcome BookResponse.t) :
  BookCreate raw = Ok b ->
  create_book b oid w = (r, w') ->
  (r = Ok (BookResponse.mk b oid) /\ books w' = books w ++ [stored b oid]) \/
  ((exists e, r = Raise e) /\ books w' = books w).
Proof.
  intros Hraw H. apply BookCreate_ok, fields_dict in Hraw.
  apply create_book_cases in H as [(Hb & _ & He)|(Hb & _ & _ & _ & ->)]; [right; auto|].
  left. split; [|exact Hb].
  destruct (stored_lookup b oid) as (Hsid & _ & _).
  now rewrite (response_of_fields _ _ _ Hsid (stored_fields b oid Hraw)).
Qed.

Lemma create_book_all_or_nothing_witness :
  (fst (create_book messiah messiah_id library) = Ok (BookResponse.mk messiah messiah_id) /\
   books (snd (create_book messiah messiah_id library)) =
     books library ++ [stored messiah messiah_id]) \/
  ((exists e, fst (create_book messiah messiah_id library) = Raise e) /\
   books (snd (create_book messiah messiah_id library)) = books library).
Proof.
  apply (create_book_all_or_nothing messiah_request messiah messiah_id library
           (snd (create_book messiah messiah_id library))
           (fst (create_book messiah messiah_id library))); reflexivity.
Defined.

Lemma create_book_duplicate (b : BookBase.t) (oid : ObjectId) (w : World) :
  Exists (fun d => d !! "ISBN"%string = Some (VStr (BookBase.ISBN b))) (books w) ->
  create_book b oid w =
  (Raise (HTTPException 400 (Detail "Book with this ISBN already exists")),
   logged w [OpFindOne]).
Proof.
  intros Hex. unfold create_book. run. rewrite find_one_eq by discriminate.
  destruct (exists_find (fun d => bool_decide (d !! "ISBN"%string = Some (VStr (BookBase.ISBN b))))
              (books w)) as (d & -> & Hd).
  { eapply Exists_impl; [exact Hex|]. intros d Hd. now apply bool_decide_eq_true. }
  apply bool_decide_eq_true in Hd.
  assert (truthy (Some d) = true) as ->; [|reflexivity].
  cbn [truthy]. apply negb_true_iff, bool_decide_eq_false. intros ->.
  now rewrite lookup_empty in Hd.
Qed.

(** X16: once a book was created, every further create request with the
    same ISBN string is refused with a 400, whatever its other fields are,
    and the collection stays as it is. *)
Theorem create_twice_refused (b b2 : BookBase.t) (oid oid2 : ObjectId) (w w' : World)
    (r : BookResponse.t) :
  create_book b oid w = (Ok r, w') ->
  BookBase.ISBN b2 = BookBase.ISBN b ->
  create_book b2 oid2 w' =
  (Raise (HTTPException 400 (Detail "Book with this ISBN already exists")),
   logged w' [OpFindOne]).
Proof.
  intros H Hisbn. apply create_book_cases in H as [(_ & _ & e & [=])|(Hb & _)].
  apply create_book_duplicate. rewrite Hb, Hisbn. apply Exists_app. right.
  constructor. now destruct (stored_lookup b oid) as (_ & Hi & _).
Qed.

Lemma create_twice_refused_witness :
  create_book messiah dune_id (snd (create_book messiah messiah_id library)) =
  (Raise (HTTPException 400 (Detail "Book with this ISBN already exists")),
   logged (snd (create_book messiah messiah_id library)) [OpFindOne]).
Proof.
  apply (create_twice_refused messiah messiah messiah_id dune_id library
           (snd (create_book messiah messiah_id library))
           (BookResponse.mk messiah messiah_id)); reflexivity.
Defined.

(* ===================================================================== *)
(** * Further properties: updating *)
(* ===================================================================== *)

Lemma update_book_missing (book_id : string) (oid : ObjectId) (p : BookUpdate.t) (w : World) :
  ObjectIds.of_str book_id = Some oid ->
  List.find (has_id oid) (books w) = None ->
  update_book book_id p w =
  (Raise (HTTPException 404 (Detail "Book not found")), logged w [OpFindOne]).
Proof.
  intros Hoid Hnone. unfold update_book, ObjectId_new.
  rewrite (is_valid_of_str _ _ Hoid), Hoid. cbn [negb]. run.
  now rewrite find_one_id, Hnone.
Qed.

Lemma update_book_invalid (book_id : string) (p : BookUpdate.t) (w : World) :
  ObjectIds.of_str book_id = None ->
  update_book book_id p w = (Raise (HTTPException 400 (Detail "Invalid book ID format")), w).
Proof. intros H. unfold update_book, ObjectIds.is_valid. now rewrite H. Qed.

(** X17: an update that names the ISBN of another stored book is refused
    with a 400 and the collection stays as it is. *)
Theorem update_isbn_conflict (book_id : string) (oid : ObjectId) (d0 x : gmap string value)
    (i : string) (p : BookUpdate.t) (w : World) :
  ObjectIds.of_str book_id = Some oid ->
  List.find (has_id oid) (books w) = Some d0 ->
  BookUpdate.ISBN p = Some (Some i) ->
  x ∈ books w ->
  x !! "ISBN"%string = Some (VStr i) ->
  x !! "_id"%string <> Some (VOid oid) ->
  update_book book_id p w =
  (Raise (HTTPException 400 (Detail "Another book with this ISBN already exists")),
   logged (logged w [OpFindOne]) [OpFindOne]).
Proof.
  intros Hoid Hfind Hp Hx Hxi Hxid. unfold update_book, ObjectId_new.
  rewrite (is_valid_of_str _ _ Hoid), Hoid. cbn [negb]. run.
  rewrite find_one_id, Hfind. destruct (find_has_id _ _ _ Hfind) as [_ ->]. cbn [negb].
  destruct (payload_lookup p) as (_ & _ & Li & _). cbv zeta in Li. rewrite Hp in Li.
  rewrite Li, find_one_conflict. cbn [logged books].
  destruct (exists_find (conflicts (VStr i) oid) (books w)) as (d & -> & Hd).
  { apply Exists_exists. exists x. split; [exact Hx|]. unfold conflicts.
    rewrite Hxi. cbn [field_eq]. rewrite bool_decide_eq_true_2 by reflexivity.
    now rewrite bool_decide_eq_false_2. }
  assert (truthy (Some d) = true) as ->; [|reflexivity].
  cbn [truthy]. apply negb_true_iff, bool_decide_eq_false. intros ->.
  unfold conflicts in Hd. rewrite lookup_empty in Hd. discriminate Hd.
Qed.

Lemma update_isbn_conflict_witness :
  let w := snd (create_book messiah messiah_id library) in
  update_book messiah_id
    (BookUpdate.mk None None (Some (Some "0-306-40615-2"%string)) None None) w =
  (Raise (HTTPException 400 (Detail "Another book with this ISBN already exists")),
   logged (logged w [OpFindOne]) [OpFindOne]).
Proof.
  apply (update_isbn_conflict messiah_id messiah_id (stored messiah messiah_id)
           (stored dune dune_id) "0-306-40615-2"
           (BookUpdate.mk None None (Some (Some "0-306-40615-2"%string)) None None)
           (snd (create_book messiah messiah_id library)));
    try reflexivity.
  - apply elem_of_cons. left. reflexivity.
  - vm_compute. discriminate.
Defined.

Lemma update_book_ok_inv (book_id : string) (p : BookUpdate.t) (w w' : World)
    (x : BookResponse.t) :
  update_book book_id p w = (Ok x, w') ->
  exists oid d0,
    ObjectIds.of_str book_id = Some oid /\ List.find (has_id oid) (books w) = Some d0.
Proof.
  intros H. destruct (ObjectIds.of_str book_id) as [oid|] eqn:Hoid.
  - destruct (List.find (has_id oid) (books w)) as [d0|] eqn:Hfind; [eauto|].
    rewrite (update_book_missing _ _ _ _ Hoid Hfind) in H. discriminate.
  - rewrite (update_book_invalid _ _ _ Hoid) in H. discriminate.
Qed.

Lemma union_twice (U d : gmap string value) : U ∪ (U ∪ d) = U ∪ d.
Proof.
  apply map_eq. intros k. rewrite !lookup_union.
  destruct (U !! k), (d !! k); reflexivity.
Qed.

(** X18: an update that was accepted is refused when it is sent again:
    the second request finds nothing to change, is answered with a 400 and
    leaves the collection as the first one made it. *)
Theorem update_twice_refused (book_id : string) (p : BookUpdate.t) (w w' : World)
    (x : BookResponse.t) :
  update_book book_id p w = (Ok x, w') ->
  exists msg w'',
    update_book book_id p w' = (Raise (HTTPException 400 (Detail msg)), w'') /\
    books w'' = books w'.
Proof.
  intros H. destruct (update_book_ok_inv _ _ _ _ _ H) as (oid & d0 & Hoid & Hfind).
  destruct (update_book_cases _ _ _ _ _ _ _ Hoid Hfind H)
    as [(_ & _ & (e & [=]) & _)|[(_ & _ & msg & [=])|(_ & _ & pre & post & _ & Hpre & Hw' & _)]].
  set (U := BookUpdate.dict_exclude_unset p) in *.
  assert (List.find (has_id oid) (books w') = Some (U ∪ d0)) as Hfind'.
  { rewrite Hw'. apply find_middle; [exact Hpre|]. apply has_id_lookup.
    unfold U. rewrite union_keeps_id. now apply find_has_id in Hfind as [? _]. }
  destruct (update_book book_id p w') as [r2 w''] eqn:E2.
  destruct (update_book_cases _ _ _ _ _ _ _ Hoid Hfind' E2)
    as [(_ & _ & _ & _ & Hch)|[(Hb & _ & msg & ->)|(_ & Hch & _)]].
  - exfalso. apply Hch. apply union_twice.
  - eauto.
  - exfalso. apply Hch. apply union_twice.
Qed.

Lemma update_twice_refused_witness :
  exists msg w'',
    update_book dune_id retitle (snd (update_book dune_id retitle library)) =
      (Raise (HTTPException 400 (Detail msg)), w'') /\
    books w'' = books (snd (update_book dune_id retitle library)).
Proof.
  apply (update_twice_refused dune_id retitle library
           (snd (update_book dune_id retitle library))
           (BookResponse.mk (merged retitle dune) dune_id)).
  reflexivity.
Defined.

Lemma null_not_shown (p : BookUpdate.t) (d : gmap string value) (r : BookResponse.t) :
  names_null p -> response_of (BookUpdate.dict_exclude_unset p ∪ d) <> Ok r.
Proof.
  intros Hnull Hr. apply response_of_inv in Hr as [_ Hf].
  destruct (BookBase.fields _) as [b|] eqn:E; [clear Hf|discriminate].
  apply fields_some in E
    as ((t & Dt & _) & (a & Da & _) & (i & Di & _) & (g & Dg & _) & (y & Dy & _)).
  destruct (payload_lookup p) as (Lt & La & Li & Lg & Ly). cbv zeta in *.
  destruct Hnull as [H|[H|[H|[H|H]]]]; rewrite H in *.
  - rewrite (lookup_union_Some_l _ _ _ _ Lt) in Dt. discriminate.
  - rewrite (lookup_union_Some_l _ _ _ _ La) in Da. discriminate.
  - rewrite (lookup_union_Some_l _ _ _ _ Li) in Di. discriminate.
  - rewrite (lookup_union_Some_l _ _ _ _ Lg) in Dg. discriminate.
  - rewrite (lookup_union_Some_l _ _ _ _ Ly) in Dy. discriminate.
Qed.

(** X19: a payload in which a field is [null] passes the validation of
    [BookUpdate] as it is, but [update_book] never returns a book for it;
    and whenever such an update changed the collection, the book can no
    longer be fetched. *)
Theorem update_null_breaks_book (raw : gmap string value) (book_id : string)
    (p : BookUpdate.t) (w w' : World) (r : outcome BookResponse.t) (x : BookResponse.t) :
  (Forall (fun k => raw !! k = None \/ raw !! k = Some VNull) book_keys ->
   exists q, BookUpdate.new raw = Ok q) /\
  (names_null p ->
   update_book book_id p w = (r, w') ->
   r <> Ok x /\
   (books w' <> books w -> fst (get_book book_id w') <> Ok x)).
Proof.
  split.
  - unfold book_keys. rewrite !Forall_cons. intros (Ht & Ha & Hi & Hg & Hy & _).
    unfold BookUpdate.new, BookUpdate.field_title, BookUpdate.field_author,
      BookUpdate.field_ISBN, BookUpdate.field_genre, BookUpdate.field_publication_year,
      BookUpdate.optional_str, BookUpdate.optional_int.
    destruct Ht as [-> | ->], Ha as [-> | ->], Hi as [-> | ->], Hg as [-> | ->],
      Hy as [-> | ->]; cbn; eauto.
  - intros Hnull H.
    destruct (ObjectIds.of_str book_id) as [oid|] eqn:Hoid.
    2: { rewrite (update_book_invalid _ _ _ Hoid) in H. injection H as <- <-.
         split; [discriminate | congruence]. }
    destruct (List.find (has_id oid) (books w)) as [d0|] eqn:Hfind.
    2: { rewrite (update_book_missing _ _ _ _ Hoid Hfind) in H. injection H as <- <-.
         split; [discriminate | cbn [logged books]; congruence]. }
    destruct (update_book_cases _ _ _ _ _ _ _ Hoid Hfind H)
      as [(Hb & _ & (e & ->) & _)|[(Hb & _ & msg & ->)|(_ & _ & pre & post & _ & Hpre & Hw' & ->)]];
      [split; [discriminate | congruence]..|].
    pose proof (null_not_shown p d0 x Hnull) as Hbad. split.
    + unfold handled. destruct (response_of _) as [y|e|]; [congruence|destruct e|]; discriminate.
    + intros _. rewrite (get_book_found book_id oid (BookUpdate.dict_exclude_unset p ∪ d0)).
      * cbn [fst]. destruct (response_of _) as [y|e|]; [congruence|discriminate..].
      * exact Hoid.
      * rewrite Hw'. apply find_middle; [exact Hpre|]. apply has_id_lookup.
        rewrite union_keeps_id. now apply find_has_id in Hfind as [? _].
Qed.

Lemma update_null_breaks_book_witness :
  fst (update_book dune_id null_genre library) <> Ok (BookResponse.mk dune dune_id) /\
  (books (snd (update_book dune_id null_genre library)) <> books library ->
   fst (get_book dune_id (snd (update_book dune_id null_genre library))) <>
     Ok (BookResponse.mk dune dune_id)).
Proof.
  apply (update_null_breaks_book ∅ dune_id null_genre library
           (snd (update_book dune_id null_genre library))
           (fst (update_book dune_id null_genre library))
           (BookResponse.mk dune dune_id)).
  - right. right. right. left. reflexivity.
  - reflexivity.
Defined.

(* ===================================================================== *)
(** * Further properties: what the writing handlers keep *)
(* ===================================================================== *)

Lemma NoDup_replace {A} (l1 l2 : list A) (a b : A) :
  NoDup (l1 ++ a :: l2) -> b ∉ l1 ++ l2 -> NoDup (l1 ++ b :: l2).
Proof.
  rewrite !NoDup_app, !NoDup_cons, not_elem_of_app.
  intros (H1 & Hd & _ & H2) [Hb1 Hb2]. split_and!; auto.
  intros x Hx Hin. apply elem_of_cons in Hin as [->|Hin]; [contradiction|].
  apply (Hd x Hx). apply elem_of_cons. auto.
Qed.

Lemma NoDup_remove_middle {A} (l1 l2 : list A) (a : A) :
  NoDup (l1 ++ a :: l2) -> NoDup (l1 ++ l2).
Proof.
  rewrite !NoDup_app, NoDup_cons. intros (H1 & Hd & _ & H2). split_and!; auto.
  intros x Hx Hin. apply (Hd x Hx). apply elem_of_cons. auto.
Qed.

Lemma distinct_remove (pre post : list (gmap string value)) (d : gmap string value) :
  distinct_books (pre ++ d :: post) -> distinct_books (pre ++ post).
Proof.
  unfold distinct_books. rewrite !map_app. cbn [map].
  intros (Hid & Hnd & Hkey). split_and!.
  - apply Forall_app in Hid as [Hp Hq]. apply Forall_cons in Hq as [_ Hq].
    now apply Forall_app.
  - now apply NoDup_remove_middle in Hnd.
  - now apply NoDup_remove_middle in Hkey.
Qed.

Lemma update_book_conflict (book_id : string) (oid : ObjectId) (d0 : gmap string value)
    (p : BookUpdate.t) (isbn : value) (w : World) :
  ObjectIds.of_str book_id = Some oid ->
  List.find (has_id oid) (books w) = Some d0 ->
  BookUpdate.dict_exclude_unset p !! "ISBN"%string = Some isbn ->
  truthy (List.find (conflicts isbn oid) (books w)) = true ->
  update_book book_id p w =
  (Raise (HTTPException 400 (Detail "Another book with this ISBN already exists")),
   logged (logged w [OpFindOne]) [OpFindOne]).
Proof.
  intros Hoid Hfind Hisbn Ht. unfold update_book, ObjectId_new.
  rewrite (is_valid_of_str _ _ Hoid), Hoid. cbn [negb]. run.
  rewrite find_one_id, Hfind. destruct (find_has_id _ _ _ Hfind) as [_ ->]. cbn [negb].
  rewrite Hisbn, find_one_conflict. cbn [logged books]. now rewrite Ht.
Qed.

Lemma distinct_update (oid : ObjectId) (pre post : list (gmap string value))
    (d0 : gmap string value) (p : BookUpdate.t) :
  distinct_books (pre ++ d0 :: post) ->
  d0 !! "_id"%string = Some (VOid oid) ->
  (forall isbn, BookUpdate.dict_exclude_unset p !! "ISBN"%string = Some isbn ->
                truthy (List.find (conflicts isbn oid) (pre ++ d0 :: post)) = false) ->
  distinct_books (pre ++ (BookUpdate.dict_exclude_unset p ∪ d0) :: post).
Proof.
  intros (Hid & Hnd & Hkey) Hd Hfree.
  pose proof (NoDup_ids_rest _ _ _ _ Hnd Hd) as Hrest.
  set (U := BookUpdate.dict_exclude_unset p) in *.
  assert ((U ∪ d0) !! "_id"%string = d0 !! "_id"%string) as Hsame by apply union_keeps_id.
  unfold distinct_books. rewrite !map_app in *. cbn [map] in *. rewrite Hsame.
  split_and!; [|exact Hnd|].
  - apply Forall_app in Hid as [Hp Hq]. apply Forall_cons in Hq as [H0 Hq].
    apply Forall_app. split; [exact Hp|]. constructor; [now rewrite Hsame | exact Hq].
  - destruct (U !! "ISBN"%string) as [isbn|] eqn:E.
    + assert (index_key (U ∪ d0) = isbn) as ->
        by (unfold index_key; now rewrite (lookup_union_Some_l _ _ _ _ E)).
      apply (NoDup_replace _ _ _ _ Hkey). rewrite <- map_app.
      intros Hin. apply list_elem_of_fmap in Hin as (x & Hx & Hin).
      specialize (Hfree isbn eq_refl).
      assert (List.find (conflicts isbn oid) (pre ++ d0 :: post) = None) as Hnone.
      { apply find_truthy; [|exact Hfree].
        eapply Forall_impl; [exact Hid|].
        intros y [v Hy] ->. now rewrite lookup_empty in Hy. }
      assert (In x (pre ++ d0 :: post)) as Hin'.
      { apply list_elem_of_In. apply elem_of_app in Hin as [Hin|Hin];
          apply elem_of_app; [left | right; apply elem_of_cons; right]; exact Hin. }
      apply (List.find_none _ _ Hnone) in Hin'. unfold conflicts in Hin'.
      rewrite Forall_forall in Hrest. specialize (Hrest x Hin).
      rewrite field_eq_index_key in Hin'. fold (index_key x) in Hin'.
      rewrite bool_decide_eq_true_2 in Hin' by (symmetry; exact Hx).
      cbn [field_eq] in Hin'. rewrite bool_decide_eq_false_2 in Hin' by exact Hrest.
      discriminate Hin'.
    + assert (index_key (U ∪ d0) = index_key d0) as ->
        by (unfold index_key; now rewrite (lookup_union_r _ _ _ E)).
      exact Hkey.
Qed.

(** X20: the handlers that write keep the books apart: in a collection in
    which every document has an id, no two have the same id and no two the
    same ISBN, this is still so after a create, an update or a delete
    request, whatever the request and its outcome. *)
Theorem writes_keep_books_distinct (b : BookBase.t) (oid : ObjectId) (book_id : string)
    (p : BookUpdate.t) (w : World) :
  distinct_books (books w) ->
  distinct_books (books (snd (create_book b oid w))) /\
  distinct_books (books (snd (update_book book_id p w))) /\
  distinct_books (books (snd (delete_book book_id w))).
Proof.
  intros Hw. split_and!.
  - destruct (create_book b oid w) as [r w'] eqn:E. cbn [snd].
    apply create_book_cases in E as [(-> & _)|(-> & _ & Hfresh & Hisbn & _)]; [exact Hw|].
    destruct Hw as (Hid & Hnd & Hkey). destruct (stored_lookup b oid) as (Hsid & Hsi & _).
    unfold distinct_books. rewrite !map_app. cbn [map]. split_and!.
    + apply Forall_app. split; [exact Hid|]. constructor; [now rewrite Hsid | constructor].
    + apply NoDup_app. split_and!; [exact Hnd| |apply NoDup_singleton].
      intros x Hx Hin. apply list_elem_of_singleton in Hin as ->.
      apply list_elem_of_fmap in Hx as (d & Hd & Hin). rewrite Hsid in Hd.
      rewrite Forall_forall in Hfresh. now apply (Hfresh d Hin).
    + apply NoDup_app. split_and!; [exact Hkey| |apply NoDup_singleton].
      intros x Hx Hin. apply list_elem_of_singleton in Hin as ->.
      apply list_elem_of_fmap in Hx as (d & Hd & Hin).
      apply index_key_isbn in Hsi. rewrite Hsi in Hd. symmetry in Hd.
      apply index_key_isbn in Hd. rewrite Forall_forall in Hisbn. now apply (Hisbn d Hin).
  - destruct (update_book book_id p w) as [r w'] eqn:E. cbn [snd].
    destruct (ObjectIds.of_str book_id) as [o|] eqn:Hoid.
    2: { rewrite (update_book_invalid _ _ _ Hoid) in E. now injection E as <- <-. }
    destruct (List.find (has_id o) (books w)) as [d0|] eqn:Hfind.
    2: { rewrite (update_book_missing _ _ _ _ Hoid Hfind) in E. now injection E as <- <-. }
    destruct (update_book_cases _ _ _ _ _ _ _ Hoid Hfind E)
      as [(-> & _)|[(-> & _)|(_ & Hch & pre & post & Hbooks & _ & Hw' & _)]]; try exact Hw.
    rewrite Hw'. rewrite Hbooks in Hw. apply (distinct_update o); [exact Hw| |].
    + now apply find_has_id in Hfind as [? _].
    + intros isbn Hisbn. destruct (truthy _) eqn:Et; [|reflexivity]. exfalso.
      rewrite <- Hbooks in Et.
      rewrite (update_book_conflict _ _ _ _ _ _ Hoid Hfind Hisbn Et) in E.
      injection E as _ <-. cbn [logged books] in Hw'. rewrite Hbooks in Hw'.
      apply app_inv_head in Hw'. injection Hw' as Hw'. now apply Hch.
  - destruct (ObjectIds.of_str book_id) as [o|] eqn:Hoid.
    + rewrite (delete_book_eq _ _ _ Hoid).
      destruct (split_first (has_id o) (books w)) as [[[pre d] post]|] eqn:E; [|exact Hw].
      apply split_first_some in E as (Hb & _). cbn [snd books]. rewrite Hb in Hw.
      now apply distinct_remove in Hw.
    + unfold delete_book, ObjectIds.is_valid. rewrite Hoid. exact Hw.
Qed.

Lemma writes_keep_books_distinct_witness :
  distinct_books (books library) /\
  distinct_books (books (snd (create_book messiah messiah_id library))) /\
  distinct_books (books (snd (update_book dune_id retitle library))) /\
  distinct_books (books (snd (delete_book dune_id library))).
Proof.
  assert (distinct_books (books library)) as H.
  { split_and!; cbn.
    - constructor; [eexists; reflexivity | constructor].
    - apply NoDup_singleton.
    - apply NoDup_singleton. }
  split; [exact H|].
  apply (writes_keep_books_distinct messiah messiah_id dune_id retitle library H).
Defined.

(* ===================================================================== *)
(** * Further properties: reading and counting *)
(* ===================================================================== *)

(** X21: the handlers that read never change the collection: after
    [get_book], [get_all_books], [search_books], [filter_books],
    [count_total_books] and [count_books_by_genre], whatever they were
    asked and whatever they answered, the documents are as before. *)
Theorem reads_keep_collection (book_id query : string) (genre : option string)
    (publication_year : option Z) (skip limit : Z) (w : World) :
  books (snd (get_book book_id w)) = books w /\
  books (snd (get_all_books skip limit w)) = books w /\
  books (snd (search_books query skip limit w)) = books w /\
  books (snd (filter_books genre publication_year skip limit w)) = books w /\
  books (snd (count_total_books w)) = books w /\
  books (snd (count_books_by_genre w)) = books w.
Proof.
  split_and!.
  - unfold get_book, ObjectId_new, find_one. run.
    repeat (case_match; cbn [snd books logged]); simplify_eq; cbn [snd books logged];
      reflexivity.
  - unfold get_all_books, find. run.
    repeat (case_match; cbn [snd books logged]); simplify_eq; cbn [snd books logged];
      reflexivity.
  - unfold search_books, find. run.
    repeat (case_match; cbn [snd books logged]); simplify_eq; cbn [snd books logged];
      reflexivity.
  - unfold filter_books, find. run.
    repeat (case_match; cbn [snd books logged]); simplify_eq; cbn [snd books logged];
      reflexivity.
  - unfold count_total_books, count_documents. run.
    repeat (case_match; cbn [snd books logged]); simplify_eq; cbn [snd books logged];
      reflexivity.
  - unfold count_books_by_genre, aggregate. run.
    repeat (case_match; cbn [snd books logged]); simplify_eq; cbn [snd books logged];
      reflexivity.
Qed.

Lemma count_total_books_eq (w : World) :
  count_total_books w = (Ok (Z.of_nat (length (books w))), w).
Proof.
  unfold count_total_books, count_documents. cbn [compile_query compile_fields outcome_mapM].
  run. now rewrite filter_all.
Qed.

(** X22: the total count is the number of stored documents; an accepted
    create request raises it by one, an accepted delete request lowers it
    by one, and an update request, whatever its outcome, leaves it. *)
Theorem total_follows_writes (b : BookBase.t) (oid : ObjectId) (book_id : string)
    (p : BookUpdate.t) (w : World) :
  count_total_books w = (Ok (Z.of_nat (length (books w))), w) /\
  (forall r w', create_book b oid w = (Ok r, w') ->
     fst (count_total_books w') = Ok (Z.of_nat (length (books w)) + 1)) /\
  (forall m w', delete_book book_id w = (Ok m, w') ->
     fst (count_total_books w') = Ok (Z.of_nat (length (books w)) - 1)) /\
  (forall r w', update_book book_id p w = (r, w') ->
     fst (count_total_books w') = Ok (Z.of_nat (length (books w)))).
Proof.
  split_and!.
  - apply count_total_books_eq.
  - intros r w' H. rewrite count_total_books_eq. cbn [fst].
    apply create_book_cases in H as [(_ & _ & e & [=])|(-> & _)].
    rewrite length_app. cbn [length]. f_equal. lia.
  - intros m w' H. rewrite count_total_books_eq. cbn [fst].
    apply delete_book_ok_inv in H as (o & pre & d & post & _ & -> & _ & _ & ->).
    cbn [books]. rewrite !length_app. cbn [length]. f_equal. lia.
  - intros r w' H. rewrite count_total_books_eq. cbn [fst]. f_equal. f_equal.
    destruct (ObjectIds.of_str book_id) as [o|] eqn:Hoid.
    2: { rewrite (update_book_invalid _ _ _ Hoid) in H. now injection H as <- <-. }
    destruct (List.find (has_id o) (books w)) as [d0|] eqn:Hfind.
    2: { rewrite (update_book_missing _ _ _ _ Hoid Hfind) in H. now injection H as <- <-. }
    now destruct (update_frame _ _ _ _ _ _ _ Hoid Hfind H) as [-> _].
Qed.

Lemma sum_bump (k : value) (acc : list (value * Z)) :
  foldr (fun item s => snd item + s) 0 (bump k acc) =
  foldr (fun item s => snd item + s) 0 acc + 1.
Proof.
  induction acc as [|[x n] acc IH]; cbn [bump foldr snd]; [lia|].
  destruct (bool_decide (k = x)); cbn [foldr snd]; lia.
Qed.

Lemma sum_group_count (l : list (gmap string value)) :
  foldr (fun item s => snd item + s) 0 (group_count "genre" l) = Z.of_nat (length l).
Proof.
  induction l as [|d l IH] using rev_ind; [reflexivity|].
  rewrite group_count_snoc, sum_bump, IH, length_app. cbn [length]. lia.
Qed.

Lemma sum_perm (l l' : list (value * Z)) :
  Permutation l l' ->
  foldr (fun item s => snd item + s) 0 l = foldr (fun item s => snd item + s) 0 l'.
Proof. induction 1; cbn [foldr]; lia. Qed.

Lemma total_named (l : list (value * Z)) :
  total (map named l) = foldr (fun item s => snd item + s) 0 l.
Proof.
  unfold total. induction l as [|x l IH]; cbn [map foldr]; [reflexivity|].
  rewrite IH. reflexivity.
Qed.

Lemma count_by_genre_plain_eq (w : World) :
  Forall (fun d => plain_genre (genre_key d)) (books w) ->
  count_books_by_genre w =
  (Ok (map named (sort_desc (group_count "genre" (books w)))), logged w [OpAggregate]).
Proof.
  intros Hplain.
  destruct (group_count_spec (books w)) as (Hnd & Hcount & Hkeys).
  set (groups := group_count "genre" (books w)) in *.
  pose proof (sort_desc_perm groups) as Hperm.
  assert (forall k, k ∈ map fst groups -> plain_genre k) as Hgk.
  { intros k Hk. apply Hkeys, list_elem_of_fmap in Hk as (d & -> & Hd).
    rewrite Forall_forall in Hplain. now apply Hplain. }
  unfold count_books_by_genre, aggregate. run. cbn [books]. fold groups.
  unfold format_counts.
  rewrite (format_counts_from (sort_desc groups) []); [reflexivity | |].
  - apply Forall_forall. intros item Hin. apply Hgk. rewrite <- Hperm.
    now apply list_elem_of_fmap_2.
  - cbn [map app]. rewrite <- (map_map fst key_name). apply NoDup_map_on.
    + now rewrite Hperm.
    + intros x y Hx Hy. apply key_name_inj; apply Hgk; now rewrite <- Hperm.
Qed.

(** X23: where no genre can be taken for the sentinel, the counts per
    genre add up to the total count: every book is counted under exactly
    one name. *)
Theorem genre_counts_add_up (w : World) :
  Forall (fun d => plain_genre (genre_key d)) (books w) ->
  exists result,
    count_books_by_genre w = (Ok result, logged w [OpAggregate]) /\
    fst (count_total_books w) = Ok (total result).
Proof.
  intros Hplain. eexists. split; [now apply count_by_genre_plain_eq|].
  rewrite count_total_books_eq, total_named. cbn [fst]. f_equal.
  rewrite (sum_perm _ _ (sort_desc_perm _)). symmetry. apply sum_group_count.
Qed.

Lemma genre_counts_add_up_witness :
  exists result,
    count_books_by_genre example_shelf = (Ok result, logged example_shelf [OpAggregate]) /\
    fst (count_total_books example_shelf) = Ok (total result).
Proof.
  apply (genre_counts_add_up example_shelf).
  unfold example_shelf. cbn [books].
  repeat (apply List.Forall_cons;
          [first [left; reflexivity
                 | right; eexists; (split; [reflexivity | split; discriminate])]|]).
  apply List.Forall_nil.
Defined.

(** On the shelf where the sentinel collides, the counts per genre add up
    to 1 while the total is 4. *)
Lemma unknown_shelf_counts_short :
  fst (count_total_books unknown_shelf) = Ok 4 /\
  exists result, fst (count_books_by_genre unknown_shelf) = Ok result /\ total result = 1.
Proof. split; [reflexivity|]. eexists. split; reflexivity. Qed.

(* ===================================================================== *)
(** * Further properties: filtering *)
(* ===================================================================== *)







(** An empty genre counts as no genre: alone it is refused like a request
    without parameters, nothing being sent to the store, and beside a year
    the request is the request for the year alone. *)
Lemma filter_books_empty_genre (publication_year : option Z) (skip limit : Z) (w : World) :
  filter_books (Some ""%string) None skip limit w =
    (Raise (HTTPException 400 (Detail "At least one filter parameter is required")), w) /\
  filter_books (Some ""%string) publication_year skip limit w =
    filter_books None publication_year skip limit w.
Proof. split; reflexivity. Qed.

(* ===================================================================== *)
(** * Further properties: required fields, and accepted updates *)
(* ===================================================================== *)

Lemma required_missing (d : gmap string value) (k : string) :
  d !! k = None ->
  required_str d k = Fail FieldRequired /\ required_int d k = Fail FieldRequired.
Proof. intros H. unfold required_str, required_int. now rewrite H. Qed.

(** X25: a new book needs all five fields: a request that is accepted
    holds a value other than [null] under each of them, and a request
    that lacks one is never accepted; where it is rejected, the missing
    field is among the reported errors. *)
Theorem create_requires_all_fields (raw : gmap string value) (k : string) :
  (forall b, BookCreate raw = Ok b ->
     Forall (fun f => exists v, raw !! f = Some v /\ v <> VNull) book_keys) /\
  (k ∈ book_keys -> raw !! k = None ->
     (forall b, BookCreate raw <> Ok b) /\
     (forall errs, BookCreate raw = Raise (ValidationError errs) ->
                   (k, FieldRequired) ∈ errs)).
Proof.
  split.
  - intros b H. apply BookCreate_ok, fields_some in H
      as ((t & Dt & _) & (a & Da & _) & (i & Di & _) & (g & Dg & _) & (y & Dy & _)).
    unfold book_keys. repeat (apply List.Forall_cons; [eexists; split; [eassumption | discriminate]|]).
    apply List.Forall_nil.
  - intros Hk Hnone. destruct (required_missing raw k Hnone) as [Hs Hi].
    assert (BookBase.fields raw = None /\ (k, FieldRequired) ∈ BookBase.errors raw) as [Hf He].
    { unfold book_keys in Hk. unfold BookBase.fields, BookBase.errors,
        BookBase.field_title, BookBase.field_author, BookBase.field_ISBN,
        BookBase.field_genre, BookBase.field_publication_year.
      repeat (apply elem_of_cons in Hk as [->|Hk]); [..|now apply elem_of_nil in Hk].
      - rewrite Hs. cbn [check_bind failures]. split; [reflexivity|].
        apply elem_of_app. left. apply elem_of_cons. auto.
      - rewrite Hs. cbn [check_bind failures].
        split; [repeat case_match; simplify_eq; reflexivity|].
        apply elem_of_app. right. apply elem_of_app. left. apply elem_of_cons. auto.
      - rewrite Hs. cbn [check_bind failures].
        split; [repeat case_match; simplify_eq; reflexivity|].
        do 2 (apply elem_of_app; right). apply elem_of_app. left. apply elem_of_cons. auto.
      - rewrite Hs. cbn [check_bind failures].
        split; [repeat case_match; simplify_eq; reflexivity|].
        do 3 (apply elem_of_app; right). apply elem_of_app. left. apply elem_of_cons. auto.
      - rewrite Hi. cbn [check_bind failures].
        split; [repeat case_match; simplify_eq; reflexivity|].
        do 4 (apply elem_of_app; right). apply elem_of_cons. auto. }
    unfold BookCreate. rewrite Hf. destruct (BookBase.any_odd raw).
    + split; [discriminate | discriminate].
    + split; [discriminate|]. now intros errs [= <-].
Qed.

Lemma create_requires_all_fields_witness :
  (forall b, BookCreate (delete "genre" messiah_request) <> Ok b) /\
  (forall errs, BookCreate (delete "genre" messiah_request) = Raise (ValidationError errs) ->
                ("genre"%string, FieldRequired) ∈ errs).
Proof.
  apply (create_requires_all_fields (delete "genre" messiah_request) "genre").
  - unfold book_keys. do 3 (apply elem_of_cons; right). apply elem_of_cons. auto.
  - reflexivity.
Defined.

(** X26: an update of a stored book is accepted, and returns the book with
    the payload laid over it, when the payload is valid, names a field,
    changes a field, and names no ISBN that another document holds (in a
    collection without two documents of the same id). *)
Theorem update_book_accepts (book_id : string) (raw : gmap string value)
    (p : BookUpdate.t) (b : BookResponse.t) (w w0 : World) :
  get_book book_id w = (Ok b, w0) ->
  BookUpdate.new raw = Ok p ->
  (forall k, raw !! k <> Some VNull) ->
  NoDup (map (fun d => d !! "_id"%string) (books w)) ->
  merged p (BookResponse.base b) <> BookResponse.base b ->
  (forall i, BookUpdate.ISBN p = Some (Some i) ->
     Forall (fun d => d !! "ISBN"%string = Some (VStr i) ->
                      d !! "_id"%string = Some (VOid (BookResponse.id b))) (books w)) ->
  exists w',
    update_book book_id p w =
      (Ok (BookResponse.mk (merged p (BookResponse.base b)) (BookResponse.id b)), w').
Proof.
  intros Hget Hnew Hnull Hnd Hch Hfree.
  destruct (get_book_ok_inv _ _ _ _ Hget) as (oid & d0 & Hoid & Hfind & Hresp).
  destruct (response_of_inv _ _ Hresp) as [Hid Hfields].
  destruct (find_has_id _ _ _ Hfind) as [Hid' _].
  assert (oid = BookResponse.id b) as Eoid by congruence. rewrite <- Eoid.
  pose proof (new_settled _ _ Hnew Hnull) as Hset.
  destruct (split_first_find _ _ _ Hfind) as (pre & post & _ & Hw & _).
  rewrite Hw in Hnd. pose proof (NoDup_ids_rest _ _ _ _ Hnd Hid') as Hrest.
  set (U := BookUpdate.dict_exclude_unset p) in *.
  assert (U ∪ d0 <> d0) as Hne.
  { intros E. pose proof (merged_fields p d0 _ Hset Hfields) as Hm. fold U in Hm.
    rewrite E in Hm. congruence. }
  destruct (update_book_accepted book_id oid d0 pre post p (BookResponse.base b) w)
    as (w' & Hupd & _); auto.
  - eapply Forall_impl; [exact Hrest|]. intros x Hx. unfold has_id.
    now apply bool_decide_eq_false.
  - intros E. apply Hne. unfold U. rewrite E. apply map_eq. intros k.
    rewrite lookup_union, lookup_empty. now destruct (d0 !! k).
  - intros isbn Hisbn. destruct (payload_lookup p) as (_ & _ & Li & _). cbv zeta in Li.
    change (BookUpdate.dict_exclude_unset p !! "ISBN"%string) with (U !! "ISBN"%string)
      in Hisbn, Li.
    rewrite Hisbn in Li.
    destruct Hset as (_ & _ & Hsi & _).
    destruct (BookUpdate.ISBN p) as [[i|]|] eqn:Ei; cbn in Hsi; try contradiction;
      [|discriminate].
    injection Li as ->. specialize (Hfree i eq_refl). rewrite Hw in Hfree.
    apply Forall_forall. intros x Hx Hkey. apply index_key_isbn in Hkey.
    rewrite Forall_forall in Hfree, Hrest. apply (Hrest x Hx). rewrite Eoid.
    apply Hfree; [|exact Hkey].
    apply elem_of_app in Hx as [Hx|Hx]; apply elem_of_app;
      [left | right; apply elem_of_cons; right]; exact Hx.
  - eauto.
Qed.

Lemma update_book_accepts_witness :
  exists w',
    update_book dune_id retitle library =
      (Ok (BookResponse.mk (merged retitle dune) dune_id), w').
Proof.
  apply (update_book_accepts dune_id retitle_request retitle (BookResponse.mk dune dune_id)
           library (logged library [OpFindOne])).
  - reflexivity.
  - reflexivity.
  - intros k. unfold retitle_request.
    destruct (decide (k = "title"%string)) as [->|Hk].
    + rewrite lookup_singleton_eq. discriminate.
    + rewrite lookup_singleton_ne by congruence. discriminate.
  - cbn. apply NoDup_singleton.
  - vm_compute. discriminate.
  - intros i Hi. discriminate Hi.
Defined.
